(** * Dataset loading and overview: a shallow embedding

    The Python sources embedded here are
    - [src/preprocessing/data_loader.py] (class [DatasetLoader]) and
    - [task2_dataset_loading.py] (the driver: [safe_get] and [main]).

    How the program is modelled:
    - a pandas DataFrame is a list of named, typed columns over a common
      row index, typed the way [read_csv] types them (int64, float64, bool,
      object); column names are distinct, as [read_csv] makes them;
    - a Python string is a [string], one element per character;
    - a Python float is an IEEE 754 binary64 value of the Standard Library's
      [SpecFloat], so the comparisons with [1.2], [2.0] and [5.0] are the
      ones the interpreter performs;
    - a call that may raise returns a [result]; a call that prints or
      writes returns the trace of its effects as well; [dataset_overview]
      runs in a state monad over the DataFrame object it is handed, so that
      what it would change is visible to its caller;
    - the routines of pandas, numpy, [json] and the interpreter that the
      sources call but do not define are the fields of the class [Runtime];
    - files can always be written where the directory name is not empty;
    - the handlers of the driver can read what they print: the listing of
      [data/raw], when that path exists, and the working directory.

    The file has three parts: the embedding, the properties, and the
    properties evaluated on a sample CSV. *)

From Stdlib Require Import ZArith List String Ascii Bool Arith Lia.
From Stdlib Require Import Floats.SpecFloat.
From Stdlib Require Import Numbers.DecimalString.
Import ListNotations.

Set Warnings "-register-all".

Local Open Scope list_scope.
Local Open Scope string_scope.

(** With both scopes open [++] joins strings; [+++] joins lists. *)
Infix "+++" := app (right associativity, at level 60) : list_scope.

(** ** Python floats (numpy float64) *)

Module F64.

Definition prec : Z := 53.
Definition emax : Z := 1024.

(** Conversion of an integer, rounding to nearest even (exact below 2^53). *)
Definition of_Z (n : Z) : spec_float := binary_normalize prec emax n 0 false.

Definition of_nat (n : nat) : spec_float := of_Z (Z.of_nat n).

Definition div : spec_float -> spec_float -> spec_float := SFdiv prec emax.

Definition mul : spec_float -> spec_float -> spec_float := SFmul prec emax.

(** A decimal literal [num/den] of the source text: the binary64 value
    nearest to the quotient, which is what the correctly rounded division of
    two exactly representable integers yields. *)
Definition lit (num den : Z) : spec_float := div (of_Z num) (of_Z den).

Definition is_nan (x : spec_float) : bool :=
  match x with S754_nan => true | _ => false end.

(** [bool(x)] for a float: every value but the two zeros is true, NaN
    included. *)
Definition truthy (x : spec_float) : bool :=
  match x with S754_zero _ => false | _ => true end.

End F64.

(** The three thresholds written in both tiering cascades, and the sample
    ratio [5.01]. *)
Definition f1_2 : spec_float := F64.lit 12 10.
Definition f2_0 : spec_float := F64.lit 2 1.
Definition f5_0 : spec_float := F64.lit 5 1.
Definition f5_01 : spec_float := F64.lit 501 100.

(** ** Balance-ratio tiering *)

(** [dataset_overview], lines 129-137: the [quality] string that is printed
    (the trailing blank is in the source literals). *)
Definition quality (balance_ratio : spec_float) : string :=
  if SFleb balance_ratio f1_2 then "EXCELLENT "
  else if SFleb balance_ratio f2_0 then "GOOD "
  else if SFleb balance_ratio f5_0 then "FAIR "
  else "POOR ".

(** [main], lines 95-111: [balance_quality] and [quality_description], from
    [overview_data.get('balance_ratio')], which is [None] or a float. *)
Definition balance_assessment (ratio : option spec_float) : string * string :=
  let default := ("EXCELLENT", "Minimal imbalance, ideal for training") in
  match ratio with
  | None => default
  | Some r =>
      if F64.truthy r then
        if SFleb r f1_2 then
          ("EXCELLENT", "Minimal imbalance, ideal for training")
        else if SFleb r f2_0 then
          ("GOOD", "Slight imbalance, manageable")
        else if SFleb r f5_0 then
          ("FAIR", "Moderate imbalance, may need techniques")
        else
          ("POOR", "Severe imbalance, requires special handling")
      else default
  end.

Definition balance_quality (ratio : option spec_float) : string :=
  fst (balance_assessment ratio).

(** ** Python values, exceptions and strings *)

Inductive exn : Type :=
  | FileNotFoundError (msg : string)
  | ValueError (msg : string)
  | TypeError (msg : string)
  | KeyError (msg : string)
  | OtherError (msg : string).

(** [str(e)] as it is printed by the handlers. *)
Definition exn_message (e : exn) : string :=
  match e with
  | FileNotFoundError m | ValueError m | TypeError m | KeyError m
  | OtherError m => m
  end.

Definition is_FileNotFoundError (e : exn) : bool :=
  match e with FileNotFoundError _ => true | _ => false end.

Definition exn_type_name (e : exn) : string :=
  match e with
  | FileNotFoundError _ => "FileNotFoundError"
  | ValueError _ => "ValueError"
  | TypeError _ => "TypeError"
  | KeyError _ => "KeyError"
  | OtherError _ => "Exception"
  end.

(** The outcome of a Python call: a value, or a raised exception. *)
Inductive result (A : Type) : Type :=
  | Ok (a : A)
  | Raise (e : exn).
Arguments Ok {A} a.
Arguments Raise {A} e.

Definition rbind {A B : Type} (r : result A) (k : A -> result B) : result B :=
  match r with
  | Ok a => k a
  | Raise e => Raise e
  end.

Declare Scope py_scope.
Delimit Scope py_scope with py.
Notation "x <- r ;; k" := (rbind r (fun x => k))
  (at level 61, r at next level, right associativity) : py_scope.

Definition nl : string := String (ascii_of_nat 10) "".

Definition str_int (z : Z) : string := NilZero.string_of_int (Z.to_int z).

Definition str_nat (n : nat) : string := str_int (Z.of_nat n).

Definition str_bool (b : bool) : string := if b then "True" else "False".

(** The scalars a CSV cell can hold once parsed. *)
Inductive scalar : Type :=
  | SInt (z : Z)
  | SFloat (f : spec_float)
  | SBool (b : bool)
  | SStr (s : string).

(** ** DataFrames *)

Inductive dtype : Type := int64 | float64 | bool_ | object.

Definition str_dtype (d : dtype) : string :=
  match d with
  | int64 => "int64"
  | float64 => "float64"
  | bool_ => "bool"
  | object => "object"
  end.

(** The data of a column as [read_csv] types it.  A float column marks a
    missing cell by NaN; an object column holds strings and the missing
    marker. *)
Inductive series_data : Type :=
  | IntData (xs : list Z)
  | FloatData (xs : list spec_float)
  | BoolData (xs : list bool)
  | ObjectData (xs : list (option string)).

Record column : Type := { name : string; data : series_data }.

Record DataFrame : Type := { index_len : nat; columns : list column }.

(** ** Objects handed to and read back from [json]

    [json.load] yields such a tree; [json.dump(obj, f, indent=4, default=str)]
    serialises one.  Numpy scalars are kept apart from the native ones: only
    the [default=str] hook makes numpy integers and booleans serialisable,
    and [round] dispatches on the type of a float. *)
Inductive pyobj : Type :=
  | PNone
  | PBool (b : bool)
  | PInt (z : Z)
  | PFloat (f : spec_float)
  | PStr (s : string)
  | PNpInt (z : Z)
  | PNpFloat (f : spec_float)
  | PNpBool (b : bool)
  | PList (items : list pyobj)
  | PDict (items : list (scalar * pyobj)).

(** The name of the type of [x], as the interpreter's messages give it. *)
Definition type_name (x : pyobj) : string :=
  match x with
  | PNone => "NoneType"
  | PBool _ => "bool"
  | PInt _ => "int"
  | PFloat _ => "float"
  | PStr _ => "str"
  | PNpInt _ => "numpy.int64"
  | PNpFloat _ => "numpy.float64"
  | PNpBool _ => "numpy.bool_"
  | PList _ => "list"
  | PDict _ => "dict"
  end.

(** The dictionary [query_stats] of [dataset_overview].  The least and the
    greatest length are numpy integers, or NaN on an empty series. *)
Module QueryStats.
Record t : Type := {
  avg_length : spec_float;
  median_length : spec_float;
  min_length : scalar;
  max_length : scalar;
  std_length : spec_float;
}.
End QueryStats.

(** The dictionary [dataset_overview] returns; a key bound to [None] is an
    absent [option]. *)
Module Overview.
Record t : Type := {
  total_records : nat;
  total_columns : nat;
  columns : list string;
  class_distribution : option (list (scalar * nat));
  balance_ratio : option spec_float;
  missing_values : list (string * nat);
  memory_usage_mb : spec_float;
  query_stats : option QueryStats.t;
}.
End Overview.

(** ** Comparisons between cells *)

(** [v == 0], the test that names a class "Normal/Safe". *)
Definition eq_zero (v : scalar) : bool :=
  match v with
  | SInt z => Z.eqb z 0
  | SFloat f => SFeqb f (S754_zero false)
  | SBool b => negb b
  | SStr _ => false
  end.

(** [pd.isnull] on a cell: the missing marker is the float NaN. *)
Definition isnull (v : scalar) : bool :=
  match v with
  | SFloat f => F64.is_nan f
  | _ => false
  end.

(** Equality of index keys, as the pandas hash tables have it. *)
Definition scalar_eqb (a b : scalar) : bool :=
  match a, b with
  | SInt x, SInt y => Z.eqb x y
  | SFloat x, SFloat y => SFeqb x y || (F64.is_nan x && F64.is_nan y)
  | SBool x, SBool y => Bool.eqb x y
  | SStr x, SStr y => String.eqb x y
  | _, _ => false
  end.

(** The order [sort_index] uses between keys of one kind. *)
Definition scalar_ltb (a b : scalar) : bool :=
  match a, b with
  | SInt x, SInt y => Z.ltb x y
  | SFloat x, SFloat y => SFltb x y
  | SBool x, SBool y => negb x && y
  | SStr x, SStr y => String.ltb x y
  | _, _ => false
  end.

(** ** What the Python runtime and its libraries supply

    Library routines whose result is a function of their arguments but whose
    text is not part of this repository. *)
Class Runtime : Type := {
  (** [float.__repr__] on a finite float *)
  float_repr : spec_float -> string;
  (** [format(x, '.Nf')] *)
  format_fixed : nat -> spec_float -> string;
  (** the builtin [round(x, n)] on a Python float, and on a numpy float64 *)
  round_float : spec_float -> Z -> spec_float;
  round_float64 : spec_float -> Z -> spec_float;
  (** [repr] of a Python string *)
  repr_str : string -> string;
  (** [Series.mean], [Series.median], [Series.std] on an int64 series *)
  series_mean : list Z -> spec_float;
  series_median : list Z -> spec_float;
  series_std : list Z -> spec_float;
  (** [df.memory_usage(deep=True).sum()], in bytes *)
  memory_usage_deep : DataFrame -> Z;
  (** the builtin [sorted] on the array [Series.unique()] returns; it raises
      when two of its elements cannot be ordered *)
  sorted : list scalar -> result (list scalar);
  (** the message of the TypeError [pathlib.Path(x)] raises for an [x] that
      is no path: its wording depends on the version of the interpreter *)
  pathlib_type_error : pyobj -> string;
  (** [json.dumps(obj, indent=4, default=str)], the text [json.dump]
      writes; it is taken to succeed on the documents built here, whose
      values [default=str] makes serialisable and whose keys are strings or
      boxed scalars *)
  json_dumps : pyobj -> string;
}.

(** A small runtime to evaluate the program on concrete inputs.  Its
    routines stand in for the library ones: a float is rendered by its
    mantissa and exponent, rounding and fixed formatting keep the value
    exact, [sorted] is an insertion sort, and the JSON text is compact.  No
    general statement below depends on it. *)
Module Sample.

Definition render_float (f : spec_float) : string :=
  match f with
  | S754_zero s => if s then "-0.0" else "0.0"
  | S754_infinity s => if s then "-inf" else "inf"
  | S754_nan => "nan"
  | S754_finite s m e =>
      (if s then "-" else "") ++ str_int (Zpos m) ++ "p" ++ str_int e
  end.

Definition mean (zs : list Z) : spec_float :=
  F64.div (F64.of_Z (fold_right Z.add 0%Z zs)) (F64.of_nat (List.length zs)).

Definition middle (zs : list Z) : spec_float :=
  match zs with
  | [] => S754_nan
  | _ => F64.of_Z (nth (List.length zs / 2) zs 0%Z)
  end.

Fixpoint insert_sorted (v : scalar) (l : list scalar) : list scalar :=
  match l with
  | [] => [v]
  | w :: rest =>
      if scalar_ltb w v then w :: insert_sorted v rest else v :: l
  end.

Definition insertion_sorted (l : list scalar) : result (list scalar) :=
  Ok (fold_right insert_sorted [] l).

Definition key_text (k : scalar) : string :=
  match k with
  | SInt z => str_int z
  | SFloat f => render_float f
  | SBool b => if b then "true" else "false"
  | SStr s => s
  end.

Fixpoint dumps (o : pyobj) : string :=
  match o with
  | PNone => "null"
  | PBool b => if b then "true" else "false"
  | PInt z => str_int z
  | PFloat f | PNpFloat f => render_float f
  | PStr s => "'" ++ s ++ "'"
  | PNpInt z => "'" ++ str_int z ++ "'"
  | PNpBool b => "'" ++ str_bool b ++ "'"
  | PList items => "[" ++ String.concat ", " (map dumps items) ++ "]"
  | PDict items =>
      "{" ++ String.concat ", "
               (map (fun kv => match kv with
                               | (k, v) => "'" ++ key_text k ++ "': " ++ dumps v
                               end) items)
          ++ "}"
  end.

Definition runtime : Runtime :=
  {| float_repr := render_float;
     format_fixed := fun _ f => render_float f;
     round_float := fun f _ => f;
     round_float64 := fun f _ => f;
     repr_str := fun s => "'" ++ s ++ "'";
     series_mean := mean;
     series_median := middle;
     series_std := fun _ => S754_zero false;
     memory_usage_deep := fun df =>
       (8 * Z.of_nat (index_len df) * Z.of_nat (List.length (columns df)))%Z;
     sorted := insertion_sorted;
     pathlib_type_error := fun x =>
       "expected str, bytes or os.PathLike object, not " ++ type_name x;
     json_dumps := dumps |}.

End Sample.

Section Program.

Context {RT : Runtime}.

Definition str_float (f : spec_float) : string :=
  match f with
  | S754_nan => "nan"
  | S754_infinity false => "inf"
  | S754_infinity true => "-inf"
  | _ => float_repr f
  end.

(** [str(v)] *)
Definition py_str (v : scalar) : string :=
  match v with
  | SInt z => str_int z
  | SFloat f => str_float f
  | SBool b => str_bool b
  | SStr s => s
  end.

(** [f"{n:,}"]: decimal digits in groups of three. *)
Fixpoint group3 (fuel : nat) (n : nat) : string :=
  match fuel with
  | O => str_nat n
  | S fuel' =>
      if (n <? 1000)%nat then str_nat n
      else
        let r := n mod 1000 in
        let pad := if (r <? 10)%nat then "00"
                   else if (r <? 100)%nat then "0" else "" in
        group3 fuel' (n / 1000) ++ "," ++ pad ++ str_nat r
  end.

Definition format_thousands (n : nat) : string := group3 n n.

(** ** Operations on DataFrames *)

Definition series_dtype (s : series_data) : dtype :=
  match s with
  | IntData _ => int64
  | FloatData _ => float64
  | BoolData _ => bool_
  | ObjectData _ => object
  end.

Definition object_cell (c : option string) : scalar :=
  match c with
  | Some s => SStr s
  | None => SFloat S754_nan
  end.

(** The cells of a series, in row order. *)
Definition values (s : series_data) : list scalar :=
  match s with
  | IntData xs => map SInt xs
  | FloatData xs => map SFloat xs
  | BoolData xs => map SBool xs
  | ObjectData xs => map object_cell xs
  end.

Definition series_len (s : series_data) : nat := List.length (values s).

(** Every column spans the row index. *)
Definition wf_frame (df : DataFrame) : bool :=
  forallb (fun c => (series_len (data c) =? index_len df)%nat) (columns df).

Definition column_names (df : DataFrame) : list string :=
  map name (columns df).

(** [col in df.columns] *)
Definition has_column (df : DataFrame) (col : string) : bool :=
  existsb (String.eqb col) (column_names df).

(** [df[col]] *)
Definition get_column (df : DataFrame) (col : string) : option series_data :=
  option_map data (find (fun c => String.eqb (name c) col) (columns df)).

(** [df.rename(columns={old: new})] *)
Definition rename (df : DataFrame) (old new : string) : DataFrame :=
  {| index_len := index_len df;
     columns := map (fun c => if String.eqb (name c) old
                              then {| name := new; data := data c |}
                              else c) (columns df) |}.

Definition dropna (vs : list scalar) : list scalar :=
  filter (fun v => negb (isnull v)) vs.

Fixpoint unique (vs : list scalar) : list scalar :=
  match vs with
  | [] => []
  | v :: rest => v :: filter (fun w => negb (scalar_eqb v w)) (unique rest)
  end.

(** [Series.nunique()]: distinct values, the missing ones left out. *)
Definition nunique (s : series_data) : nat :=
  List.length (unique (dropna (values s))).

(** [Series.isnull().sum()] *)
Definition count_null (s : series_data) : nat :=
  List.length (filter isnull (values s)).

(** A cell as a Python object: [Series.tolist()] and the index iterators box
    numpy scalars into native ones. *)
Definition box (v : scalar) : pyobj :=
  match v with
  | SInt z => PInt z
  | SFloat f => PFloat f
  | SBool b => PBool b
  | SStr s => PStr s
  end.

(** A cell as the numpy scalar that iterating over an array yields. *)
Definition np_scalar (v : scalar) : pyobj :=
  match v with
  | SInt z => PNpInt z
  | SFloat f => PNpFloat f
  | SBool b => PNpBool b
  | SStr s => PStr s
  end.

(** [d[key]] on the result of [json.load]. *)
Definition getitem (d : pyobj) (key : string) : result pyobj :=
  match d with
  | PDict items =>
      match find (fun kv => scalar_eqb (fst kv) (SStr key)) items with
      | Some kv => Ok (snd kv)
      | None => Raise (KeyError (repr_str key))
      end
  | PStr _ => Raise (TypeError "string indices must be integers, not 'str'")
  | PList _ =>
      Raise (TypeError "list indices must be integers or slices, not str")
  | _ => Raise (TypeError ("'" ++ type_name d
                             ++ "' object is not subscriptable"))
  end.

(** [os.fspath(o)], the first thing [os.path.join] and [os.makedirs] do to
    their argument: a path must be a string. *)
Definition as_path (o : pyobj) : result string :=
  match o with
  | PStr s => Ok s
  | _ => Raise (TypeError ("expected str, bytes or os.PathLike object, not "
                             ++ type_name o))
  end.

(** [Path(o)] *)
Definition as_pathlib_path (o : pyobj) : result string :=
  match o with
  | PStr s => Ok s
  | _ => Raise (TypeError (pathlib_type_error o))
  end.

(** ** The file system, as the loader and the driver see it *)

Record FileSystem : Type := {
  (** names of the entries [Path(dir).glob("*.csv")] yields, in its order *)
  glob_csv : string -> list string;
  (** [os.path.exists] *)
  path_exists : string -> bool;
  (** [pd.read_csv] *)
  read_csv : string -> result DataFrame;
  (** [os.listdir] *)
  listdir : string -> list string;
}.

Definition starts_with_slash (s : string) : bool :=
  match s with
  | String c _ => Ascii.eqb c "/"%char
  | EmptyString => false
  end.

Fixpoint ends_with_slash (s : string) : bool :=
  match s with
  | EmptyString => false
  | String c EmptyString => Ascii.eqb c "/"%char
  | String _ rest => ends_with_slash rest
  end.

(** [os.path.join] with two components (POSIX). *)
Definition path_join (a b : string) : string :=
  if starts_with_slash b then b
  else if String.eqb a "" || ends_with_slash a then a ++ b
  else a ++ "/" ++ b.

(** ** [DatasetLoader] *)

Record DatasetLoader : Type := {
  config : pyobj;
  raw_data_path : pyobj;
  processed_data_path : pyobj;
}.

(** [__init__]: [opened] is the outcome of opening [config_path] and of
    [json.load] on it. *)
Definition DatasetLoader_init (opened : result pyobj) : result DatasetLoader :=
  (cfg <- opened ;;
   paths <- getitem cfg "data_paths" ;;
   raw <- getitem paths "raw_data" ;;
   paths' <- getitem cfg "data_paths" ;;
   processed <- getitem paths' "processed_data" ;;
   Ok {| config := cfg;
         raw_data_path := raw;
         processed_data_path := processed |})%py.

Definition possible_query_names : list string :=
  ["query"; "Query"; "sql"; "SQL"; "statement"; "Payload"; "payload"].

Definition possible_label_names : list string :=
  ["label"; "Label"; "target"; "class"; "Label "].

(** [df.select_dtypes(include=['object']).columns] *)
Definition object_columns (df : DataFrame) : list string :=
  map name (filter (fun c => match series_dtype (data c) with
                             | object => true
                             | _ => false
                             end) (columns df)).

(** [df.select_dtypes(include=[np.number]).columns] *)
Definition numeric_columns (df : DataFrame) : list column :=
  filter (fun c => match series_dtype (data c) with
                   | int64 | float64 => true
                   | _ => false
                   end) (columns df).

Definition _detect_query_column (df : DataFrame) : result string :=
  match find (has_column df) possible_query_names with
  | Some col => Ok col
  | None =>
      match object_columns df with
      | col :: _ => Ok col
      | [] => Raise (ValueError "Could not detect query column")
      end
  end.

Definition _detect_label_column (df : DataFrame) : result string :=
  match find (has_column df) possible_label_names with
  | Some col => Ok col
  | None =>
      match find (fun c => (nunique (data c) =? 2)%nat)
                 (numeric_columns df) with
      | Some c => Ok (name c)
      | None => Raise (ValueError "Could not detect label column")
      end
  end.

(** [repr(list_of_str)] *)
Definition repr_str_list (l : list string) : string :=
  "[" ++ String.concat ", " (map repr_str l) ++ "]".

(** ** Calls with effects

    A call yields the trace of what it printed and wrote, and its outcome. *)
Inductive event : Type :=
  | Print (line : string)
  | MakeDirs (path : string)
  | WriteFile (path content : string).

Definition io (A : Type) : Type := (list event * result A)%type.

Definition io_ret {A : Type} (a : A) : io A := ([], Ok a).

Definition io_raise {A : Type} (e : exn) : io A := ([], Raise e).

Definition io_lift {A : Type} (r : result A) : io A := ([], r).

Definition io_bind {A B : Type} (c : io A) (k : A -> io B) : io B :=
  match c with
  | (out, Ok a) => let (out', r) := k a in (out +++ out', r)
  | (out, Raise e) => (out, Raise e)
  end.

Declare Scope io_scope.
Delimit Scope io_scope with io.
Notation "x <- c ;; k" := (io_bind c (fun x => k))
  (at level 61, c at next level, right associativity) : io_scope.
Notation "c ;; k" := (io_bind c (fun _ => k))
  (at level 61, right associativity) : io_scope.

Definition io_print (s : string) : io unit := ([Print s], Ok tt).

(** [try: body except Exception as e: handler(e)] *)
Definition try_except {A : Type} (body : io A) (handler : exn -> io A)
  : io A :=
  match body with
  | (out, Ok a) => (out, Ok a)
  | (out, Raise e) => let (out', r) := handler e in (out +++ out', r)
  end.

Fixpoint io_for_each {A : Type} (l : list A) (body : A -> io unit)
  : io unit :=
  match l with
  | [] => io_ret tt
  | x :: rest => (body x ;; io_for_each rest body)%io
  end.

Definition printed (out : list event) : list string :=
  flat_map (fun ev => match ev with Print s => [s] | _ => [] end) out.

Definition written (out : list event) : list (string * string) :=
  flat_map (fun ev => match ev with
                      | WriteFile p c => [(p, c)]
                      | _ => []
                      end) out.

(** ** [load_sql_injection_dataset] *)

(** [filename] is [None] for Python's [None]; so is the returned frame. *)
Definition load_sql_injection_dataset (self : DatasetLoader) (fs : FileSystem)
    (filename : option string) (auto_detect : bool) : io (option DataFrame) :=
  (io_print "LOADING SQL INJECTION DATASET" ;;
   filename <-
     match filename with
     | None =>
         if auto_detect then
           (raw_path <- io_lift (as_pathlib_path (raw_data_path self)) ;;
            match glob_csv fs raw_path with
            | first :: _ =>
                (io_print ("Auto-detected dataset: " ++ first) ;;
                 io_ret (Some first))
            | [] =>
                io_raise (FileNotFoundError
                            "No CSV files found in data/raw/ directory")
            end)
         else io_ret None
     | Some f => io_ret (Some f)
     end ;;
   file_path <- io_lift
     (raw <- as_path (raw_data_path self) ;;
      match filename with
      | Some f => Ok (path_join raw f)
      | None =>
          Raise (TypeError
                   "join() argument must be str, bytes, or os.PathLike object, not 'NoneType'")
      end)%py ;;
   if negb (path_exists fs file_path) then
     io_raise (FileNotFoundError ("Dataset not found at: " ++ file_path))
   else
     try_except
       (io_print (" Loading from: " ++ file_path) ;;
        df <- io_lift (read_csv fs file_path) ;;
        query_col <- io_lift (_detect_query_column df) ;;
        label_col <- io_lift (_detect_label_column df) ;;
        let df := if negb (String.eqb query_col "query")
                  then rename df query_col "query" else df in
        let df := if negb (String.eqb label_col "label")
                  then rename df label_col "label" else df in
        io_print (" Successfully loaded " ++ format_thousands (index_len df)
                    ++ " records") ;;
        io_print (" Columns: " ++ repr_str_list (column_names df)) ;;
        io_ret (Some df))
       (fun e =>
          io_print (" Error loading dataset: " ++ exn_message e) ;;
          io_ret None))%io.

(** ** [dataset_overview]

    The method runs against the DataFrame object its argument refers to and
    against the console: a statement either reads the object, prints, or
    (which [dataset_overview] never does) assigns a column in place. *)

Record Heap : Type := { df_obj : DataFrame; console : list string }.

Definition St (A : Type) : Type := Heap -> A * Heap.

Definition ret {A : Type} (a : A) : St A := fun h => (a, h).

Definition bind {A B : Type} (c : St A) (k : A -> St B) : St B :=
  fun h => let (a, h') := c h in k a h'.

Declare Scope st_scope.
Delimit Scope st_scope with st.
Notation "x <- c ;; k" := (bind c (fun x => k))
  (at level 61, c at next level, right associativity) : st_scope.
Notation "c ;; k" := (bind c (fun _ => k))
  (at level 61, right associativity) : st_scope.

(** [print(s)] *)
Definition print (s : string) : St unit :=
  fun h => (tt, {| df_obj := df_obj h; console := console h +++ [s] |}).

(** A pandas call that builds a new object from [df]. *)
Definition read_df {A : Type} (f : DataFrame -> A) : St A :=
  fun h => (f (df_obj h), h).

(** [df[col] = series]: the in-place column assignment. *)
Definition setitem (col : string) (series : series_data) : St unit :=
  fun h =>
    let df := df_obj h in
    let cols :=
      if has_column df col
      then map (fun c => if String.eqb (name c) col
                         then {| name := col; data := series |} else c)
               (columns df)
      else columns df +++ [{| name := col; data := series |}] in
    (tt, {| df_obj := {| index_len := index_len df; columns := cols |};
            console := console h |}).

(** A [for] loop whose body prints. *)
Fixpoint for_each {A : Type} (l : list A) (body : A -> St unit) : St unit :=
  match l with
  | [] => ret tt
  | x :: rest => (body x ;; for_each rest body)%st
  end.

(** [Series.value_counts()]: a table from each distinct value that is not
    missing to its number of rows, filled in one pass over the rows.  The
    order by frequency is not modelled: every use re-sorts by key. *)
Fixpoint bump (k : scalar) (table : list (scalar * nat))
  : list (scalar * nat) :=
  match table with
  | [] => [(k, 1)]
  | (k', n) :: rest =>
      if scalar_eqb k' k then (k', S n) :: rest
      else (k', n) :: bump k rest
  end.

Definition value_counts (s : series_data) : list (scalar * nat) :=
  fold_left (fun table v => bump v table) (dropna (values s)) [].

Fixpoint insert_by_key (kv : scalar * nat) (l : list (scalar * nat))
  : list (scalar * nat) :=
  match l with
  | [] => [kv]
  | kv' :: rest =>
      if scalar_ltb (fst kv') (fst kv) then kv' :: insert_by_key kv rest
      else kv :: l
  end.

(** [Series.sort_index()]: ascending by key. *)
Definition sort_index (l : list (scalar * nat)) : list (scalar * nat) :=
  fold_right insert_by_key [] l.

(** [Series.max()] and [Series.min()] of an int64 series: NaN when empty. *)
Definition series_max (xs : list nat) : scalar :=
  match xs with
  | [] => SFloat S754_nan
  | x :: rest => SInt (Z.of_nat (fold_left Nat.max rest x))
  end.

Definition series_min (xs : list nat) : scalar :=
  match xs with
  | [] => SFloat S754_nan
  | x :: rest => SInt (Z.of_nat (fold_left Nat.min rest x))
  end.

(** A numpy scalar as an operand of a float division. *)
Definition to_float (v : scalar) : spec_float :=
  match v with
  | SInt z => F64.of_Z z
  | SFloat f => f
  | SBool b => F64.of_Z (if b then 1 else 0)
  | SStr _ => S754_nan
  end.

(** [(count / total_records) * 100], and [count/total_records*100] on a
    numpy count.  Between Python integers a zero divisor would raise; on a
    frame whose columns all span the index that cannot happen where the
    source divides Python integers, since the loops that do so are then
    empty. *)
Definition percentage_of (count total_records : nat) : spec_float :=
  F64.mul (F64.div (F64.of_nat count) (F64.of_nat total_records))
          (F64.of_Z 100).

(** [df['query'].astype(str).str.len()] *)
Definition str_len (s : series_data) : list nat :=
  map (fun v => String.length (py_str v)) (values s).

Definition short_queries (query_lengths : list nat) : nat :=
  List.length (filter (fun n => (n <? 50)%nat) query_lengths).

Definition medium_queries (query_lengths : list nat) : nat :=
  List.length
    (filter (fun n => (50 <=? n)%nat && (n <? 200)%nat) query_lengths).

Definition long_queries (query_lengths : list nat) : nat :=
  List.length (filter (fun n => (200 <=? n)%nat) query_lengths).

(** [df.isnull().sum()]: the number of missing cells of each column. *)
Definition isnull_sum (df : DataFrame) : list (string * nat) :=
  map (fun c => (name c, count_null (data c))) (columns df).

(** [missing_values.sum()] *)
Definition sum_counts {K : Type} (l : list (K * nat)) : nat :=
  fold_right (fun kv acc => snd kv + acc) 0 l.

(** [df.dtypes] *)
Definition dtypes (df : DataFrame) : list (string * dtype) :=
  map (fun c => (name c, series_dtype (data c))) (columns df).

Definition label_name_of (label : scalar) : string :=
  if eq_zero label then "Normal/Safe" else "Malicious".

(** The class-distribution block, lines 114-139: it prints and yields
    [label_counts] and [balance_ratio]. *)
Definition class_distribution_block (total_records : nat)
    (label : series_data) : St (list (scalar * nat) * spec_float) :=
  (print (nl ++ " CLASS DISTRIBUTION:") ;;
   let label_counts := sort_index (value_counts label) in
   for_each label_counts (fun lc =>
     let '(label, count) := lc in
     let label_name := label_name_of label in
     let percentage := percentage_of count total_records in
     print ("  " ++ py_str label ++ " (" ++ label_name ++ "): "
              ++ format_thousands count
              ++ " (" ++ format_fixed 1 percentage ++ "%)")) ;;
   let max_count := series_max (map snd label_counts) in
   let min_count := series_min (map snd label_counts) in
   let balance_ratio := F64.div (to_float max_count) (to_float min_count) in
   print (nl ++ " Balance Ratio: " ++ format_fixed 2 balance_ratio ++ ":1") ;;
   print (" Balance Quality: " ++ quality balance_ratio) ;;
   ret (label_counts, balance_ratio))%st.

(** The missing-values block, lines 141-152: it prints and yields
    [missing_values]. *)
Definition data_quality_block (total_records : nat)
  : St (list (string * nat)) :=
  (print (nl ++ "🔍 DATA QUALITY:") ;;
   missing_values <- read_df isnull_sum ;;
   (if (sum_counts missing_values =? 0)%nat then
      print "  Missing Values:  None found"
    else
      (print "  Missing Values:" ;;
       for_each missing_values (fun cc =>
         let '(col, count) := cc in
         if (0 <? count)%nat then
           let percentage := percentage_of count total_records in
           print ("    " ++ col ++ ": " ++ format_thousands count
                    ++ " (" ++ format_fixed 2 percentage ++ "%)")
         else ret tt))) ;;
   ret missing_values)%st.

(** Lines 167-171 (and lines 64-70 of the driver): the five statistics of a
    length series. *)
Definition length_stats (query_lengths : list nat) : QueryStats.t :=
  let zs := map Z.of_nat query_lengths in
  {| QueryStats.avg_length := series_mean zs;
     QueryStats.median_length := series_median zs;
     QueryStats.min_length := series_min query_lengths;
     QueryStats.max_length := series_max query_lengths;
     QueryStats.std_length := series_std zs |}.

(** The query-statistics block, lines 161-195. *)
Definition query_statistics_block (total_records : nat)
    (query : series_data) : St QueryStats.t :=
  (print (nl ++ " QUERY STATISTICS:") ;;
   let query_lengths := str_len query in
   let stats := length_stats query_lengths in
   print ("  Average Length: "
            ++ format_fixed 1 (QueryStats.avg_length stats) ++ " characters") ;;
   print ("  Median Length: "
            ++ format_fixed 1 (QueryStats.median_length stats)
            ++ " characters") ;;
   print ("  Min Length: " ++ py_str (QueryStats.min_length stats)
            ++ " characters") ;;
   print ("  Max Length: " ++ py_str (QueryStats.max_length stats)
            ++ " characters") ;;
   print ("  Std Deviation: "
            ++ format_fixed 1 (QueryStats.std_length stats) ++ " characters") ;;
   let short := short_queries query_lengths in
   let medium := medium_queries query_lengths in
   let long := long_queries query_lengths in
   print (nl ++ "  Length Distribution:") ;;
   print ("    Short (<50 chars): " ++ format_thousands short ++ " ("
            ++ format_fixed 1 (percentage_of short total_records) ++ "%)") ;;
   print ("    Medium (50-200 chars): " ++ format_thousands medium ++ " ("
            ++ format_fixed 1 (percentage_of medium total_records) ++ "%)") ;;
   print ("    Long (>200 chars): " ++ format_thousands long ++ " ("
            ++ format_fixed 1 (percentage_of long total_records) ++ "%)") ;;
   ret stats)%st.

(** [dataset_overview(df)].  [df['label']] and [df['query']] exist exactly
    when the name is among [df.columns] ([get_column_has_column] below). *)
Definition dataset_overview : St Overview.t :=
  (print (nl ++ " DATASET OVERVIEW:") ;;
   total_records <- read_df index_len ;;
   total_columns <- read_df (fun df => List.length (columns df)) ;;
   memory_usage <- read_df (fun df =>
     F64.div (F64.of_Z (memory_usage_deep df)) (F64.of_Z (1024 ^ 2))) ;;
   print " Basic Information:" ;;
   print ("  Total Records: " ++ format_thousands total_records) ;;
   print ("  Total Columns: " ++ str_nat total_columns) ;;
   print ("  Memory Usage: " ++ format_fixed 2 memory_usage ++ " MB") ;;
   names <- read_df column_names ;;
   print ("  Column Names: " ++ repr_str_list names) ;;
   label <- read_df (fun df => get_column df "label") ;;
   distribution <-
     match label with
     | Some s =>
         (r <- class_distribution_block total_records s ;; ret (Some r))
     | None => ret None
     end ;;
   missing_values <- data_quality_block total_records ;;
   print (nl ++ " DATA TYPES:") ;;
   types <- read_df dtypes ;;
   for_each types (fun cd =>
     print ("  " ++ fst cd ++ ": " ++ str_dtype (snd cd))) ;;
   query <- read_df (fun df => get_column df "query") ;;
   query_stats <-
     match query with
     | Some s =>
         (r <- query_statistics_block total_records s ;; ret (Some r))
     | None => ret None
     end ;;
   columns_now <- read_df column_names ;;
   ret {| Overview.total_records := total_records;
          Overview.total_columns := total_columns;
          Overview.columns := columns_now;
          Overview.class_distribution := option_map fst distribution;
          Overview.balance_ratio := option_map snd distribution;
          Overview.missing_values := missing_values;
          Overview.memory_usage_mb := memory_usage;
          Overview.query_stats := query_stats |})%st.

(** The report of a call on [df], and the object and console it leaves. *)
Definition overview_of (df : DataFrame) : Overview.t :=
  fst (dataset_overview {| df_obj := df; console := [] |}).

(** ** [show_sample_queries] *)

(** [a == b] between two cells of one column: NaN differs from itself. *)
Definition py_eq (a b : scalar) : bool :=
  match a, b with
  | SInt x, SInt y => Z.eqb x y
  | SFloat x, SFloat y => SFeqb x y
  | SBool x, SBool y => Bool.eqb x y
  | SStr x, SStr y => String.eqb x y
  | _, _ => false
  end.

(** [v == 1] *)
Definition eq_one (v : scalar) : bool :=
  match v with
  | SInt z => Z.eqb z 1
  | SFloat f => SFeqb f (F64.of_Z 1)
  | SBool b => b
  | SStr _ => false
  end.

(** [df[col]], raising when the column is absent. *)
Definition getitem_column (df : DataFrame) (col : string)
  : result series_data :=
  match get_column df col with
  | Some s => Ok s
  | None => Raise (KeyError (repr_str col))
  end.

(** [series[mask]]: the cells of the rows the boolean mask keeps. *)
Definition select (mask : list bool) (vs : list scalar) : list scalar :=
  map snd (filter fst (combine mask vs)).

(** [s * n] for a one-character string [s]. *)
Fixpoint replicate (n : nat) (c : ascii) : string :=
  match n with
  | O => ""
  | S n' => String c (replicate n' c)
  end.

(** [query_str[:200] + "..." if len(query_str) > 200 else query_str] *)
Definition display_query (query_str : string) : string :=
  if (200 <? String.length query_str)%nat
  then substring 0 200 query_str ++ "..."
  else query_str.

(** [enumerate(l, 1)] *)
Definition enumerate1 {A : Type} (l : list A) : list (nat * A) :=
  combine (seq 1 (List.length l)) l.

(** The loop over [samples.items()], lines 223-229 and 236-241. *)
Definition print_samples (samples : list scalar) : io unit :=
  io_for_each (enumerate1 samples) (fun iq =>
    let '(i, query) := iq in
    let query_str := py_str query in
    (io_print ("  " ++ str_nat i ++ ". Length: "
                 ++ str_nat (String.length query_str) ++ " chars") ;;
     io_print ("     Query: " ++ display_query query_str) ;;
     io_print "")%io).

Definition show_sample_queries (df : DataFrame) (n_samples : nat) : io unit :=
  (io_print (nl ++ " SAMPLE QUERIES") ;;
   io_print (replicate 80 "="%char) ;;
   if has_column df "label" then
     (label_col <- io_lift (getitem_column df "label") ;;
      labels <- io_lift (sorted (unique (values label_col))) ;;
      io_for_each labels (fun label =>
        let label_name := if eq_zero label then "NORMAL/SAFE QUERIES"
                          else "MALICIOUS QUERIES" in
        io_print (nl ++ "🔹 " ++ label_name ++ " (Label=" ++ py_str label
                    ++ "):") ;;
        io_print (replicate 60 "-"%char) ;;
        label_col <- io_lift (getitem_column df "label") ;;
        query_col <- io_lift (getitem_column df "query") ;;
        let samples :=
          firstn n_samples
            (select (map (fun v => py_eq v label) (values label_col))
                    (values query_col)) in
        print_samples samples))
   else
     (io_print (nl ++ " RANDOM QUERY SAMPLES:") ;;
      io_print (replicate 60 "-"%char) ;;
      query_col <- io_lift (getitem_column df "query") ;;
      print_samples (firstn n_samples (values query_col))))%io.

(** ** [save_overview_report] *)

Definition dict (items : list (string * pyobj)) : pyobj :=
  PDict (map (fun kv => (SStr (fst kv), snd kv)) items).

Definition opt_obj {A : Type} (f : A -> pyobj) (o : option A) : pyobj :=
  match o with
  | Some a => f a
  | None => PNone
  end.

Definition query_stats_dict (q : QueryStats.t) : pyobj :=
  dict [("avg_length", PNpFloat (QueryStats.avg_length q));
        ("median_length", PNpFloat (QueryStats.median_length q));
        ("min_length", np_scalar (QueryStats.min_length q));
        ("max_length", np_scalar (QueryStats.max_length q));
        ("std_length", PNpFloat (QueryStats.std_length q))].

(** The dictionary of [dataset_overview] as the Python object it is:
    [len] results and [to_dict] values are native integers, the ratio and
    the memory figure are numpy floats. *)
Definition overview_dict (o : Overview.t) : pyobj :=
  dict
    [("total_records", PInt (Z.of_nat (Overview.total_records o)));
     ("total_columns", PInt (Z.of_nat (Overview.total_columns o)));
     ("columns", PList (map PStr (Overview.columns o)));
     ("class_distribution",
      opt_obj (fun cd => PDict (map (fun kc => (fst kc,
                                                PInt (Z.of_nat (snd kc)))) cd))
              (Overview.class_distribution o));
     ("balance_ratio", opt_obj PNpFloat (Overview.balance_ratio o));
     ("missing_values",
      dict (map (fun cc => (fst cc, PInt (Z.of_nat (snd cc))))
                (Overview.missing_values o)));
     ("memory_usage_mb", PNpFloat (Overview.memory_usage_mb o));
     ("query_stats", opt_obj query_stats_dict (Overview.query_stats o))].

Definition emit (ev : event) : io unit := ([ev], Ok tt).

(** Creating the directory and opening the file are taken to succeed
    whenever the directory name is not empty: a file in the way of the
    directory, permissions and full disks are outside the model, so no
    statement below says when the call succeeds, only what it has done
    when it returns. *)
Definition save_overview_report (self : DatasetLoader) (overview_data : pyobj)
    (filename : string) : io string :=
  (reports <- io_lift (paths <- getitem (config self) "data_paths" ;;
                       getitem paths "reports")%py ;;
   reports_dir <- io_lift (as_path reports) ;;
   (if String.eqb reports_dir ""
    then io_raise (FileNotFoundError "[Errno 2] No such file or directory: ''")
    else emit (MakeDirs reports_dir)) ;;
   let output_path := path_join reports_dir filename in
   emit (WriteFile output_path (json_dumps overview_data)) ;;
   io_print (nl ++ " Overview report saved to: " ++ output_path) ;;
   io_ret output_path)%io.

(** ** The driver: [safe_get] and [main] *)

(** [bool(obj)] *)
Definition truthy_obj (o : pyobj) : bool :=
  match o with
  | PNone => false
  | PBool b | PNpBool b => b
  | PInt z | PNpInt z => negb (Z.eqb z 0)
  | PFloat f | PNpFloat f => F64.truthy f
  | PStr s => negb (String.eqb s "")
  | PList items => match items with [] => false | _ => true end
  | PDict items => match items with [] => false | _ => true end
  end.

(** [dictionary.get(key, default)] *)
Definition dict_get (dictionary : pyobj) (key : string) (default : pyobj)
  : result pyobj :=
  match dictionary with
  | PDict items =>
      match find (fun kv => scalar_eqb (fst kv) (SStr key)) items with
      | Some kv => Ok (snd kv)
      | None => Ok default
      end
  | _ => Raise (OtherError "object has no attribute 'get'")
  end.

(** [safe_get]: the bare [except] turns every failure into [default]. *)
Definition safe_get (dictionary : pyobj) (key : string) (default : pyobj)
  : pyobj :=
  match (if truthy_obj dictionary then dict_get dictionary key default
         else Ok default) with
  | Ok v => v
  | Raise _ => default
  end.

(** [round(x, n)]: by the [__round__] of the type of [x]. *)
Definition py_round (x : pyobj) (n : Z) : result pyobj :=
  match x with
  | PFloat f => Ok (PFloat (round_float f n))
  | PNpFloat f => Ok (PNpFloat (round_float64 f n))
  | PInt z => Ok (PInt z)
  | PNpInt z => Ok (PNpInt z)
  | PBool b => Ok (PInt (if b then 1 else 0))
  | _ => Raise (TypeError ("type " ++ type_name x
                             ++ " doesn't define __round__ method"))
  end.

(** [f"{x:.Nf}"] *)
Definition py_format_fixed (x : pyobj) (digits : nat) : result string :=
  match x with
  | PFloat f | PNpFloat f => Ok (format_fixed digits f)
  | PInt z | PNpInt z => Ok (format_fixed digits (F64.of_Z z))
  | PBool b => Ok (format_fixed digits (F64.of_Z (if b then 1 else 0)))
  | PStr _ =>
      Raise (ValueError "Unknown format code 'f' for object of type 'str'")
  | _ => Raise (TypeError ("unsupported format string passed to "
                             ++ type_name x ++ ".__format__"))
  end.

(** [int(x)] on a numpy scalar. *)
Definition py_int (v : scalar) : result Z :=
  match v with
  | SInt z => Ok z
  | SBool b => Ok (if b then 1 else 0)%Z
  | SFloat S754_nan => Raise (ValueError "cannot convert float NaN to integer")
  | SFloat (S754_infinity _) =>
      Raise (OtherError "cannot convert float infinity to integer")
  | SFloat (S754_zero _) => Ok 0%Z
  | SFloat (S754_finite s m e) =>
      let z := if (0 <=? e)%Z then (Zpos m * 2 ^ e)%Z
               else Z.shiftr (Zpos m) (- e) in
      Ok (if s then (- z)%Z else z)
  | SStr _ => Raise (ValueError "invalid literal for int()")
  end.

(** [sum(d.values())] *)
Fixpoint sum_ints (items : list (scalar * pyobj)) : result Z :=
  match items with
  | [] => Ok 0%Z
  | (_, PInt z) :: rest => (s <- sum_ints rest ;; Ok (z + s)%Z)%py
  | _ => Raise (TypeError "unsupported operand type(s) for +")
  end.

Definition sum_values (d : pyobj) : result Z :=
  match d with
  | PDict items => sum_ints items
  | _ => Raise (OtherError "object has no attribute 'values'")
  end.

(** [s.lower()] on the ASCII texts it is applied to. *)
Definition lower_ascii (c : ascii) : ascii :=
  let n := nat_of_ascii c in
  if ((65 <=? n) && (n <=? 90))%nat then ascii_of_nat (n + 32) else c.

Fixpoint lower (s : string) : string :=
  match s with
  | EmptyString => EmptyString
  | String c rest => String (lower_ascii c) (lower rest)
  end.

(** [s.replace('/', '_')] *)
Fixpoint replace_slash (s : string) : string :=
  match s with
  | EmptyString => EmptyString
  | String c rest =>
      String (if Ascii.eqb c "/"%char then "_"%char else c)
             (replace_slash rest)
  end.

(** [d[key] = value] on a dictionary under construction: a key that is
    already bound keeps its place. *)
Fixpoint dict_set (d : list (string * pyobj)) (key : string) (value : pyobj)
  : list (string * pyobj) :=
  match d with
  | [] => [(key, value)]
  | (k, v) :: rest =>
      if String.eqb k key then (k, value) :: rest
      else (k, v) :: dict_set rest key value
  end.

Definition lookup (d : list (string * pyobj)) (key : string)
  : option pyobj :=
  option_map snd (find (fun kv => String.eqb (fst kv) key) d).

(** One pass of the loop of lines 75-93: the entry for [label]. *)
Definition class_entry (df : DataFrame) (label : scalar)
  : result (string * pyobj) :=
  (let label_name := label_name_of label in
   label_col <- getitem_column df "label" ;;
   let mask := map (fun v => py_eq v label) (values label_col) in
   let class_len := List.length (filter (fun b : bool => b) mask) in
   query_col <- getitem_column df "query" ;;
   let class_query_lengths :=
     map (fun v => String.length (py_str v)) (select mask (values query_col)) in
   let stats := length_stats class_query_lengths in
   let share := percentage_of class_len (index_len df) in
   avg <- py_round (PNpFloat (QueryStats.avg_length stats)) 1 ;;
   median <- py_round (PNpFloat (QueryStats.median_length stats)) 1 ;;
   min_length <- py_int (QueryStats.min_length stats) ;;
   max_length <- py_int (QueryStats.max_length stats) ;;
   std <- py_round (PNpFloat (QueryStats.std_length stats)) 1 ;;
   Ok ("class_" ++ py_str label ++ "_" ++ replace_slash (lower label_name),
       dict [("label", np_scalar label);
             ("name", PStr label_name);
             ("count", PInt (Z.of_nat class_len));
             ("percentage", PFloat (round_float share 1));
             ("formatted_display",
              PStr (py_str label ++ " (" ++ label_name ++ "): "
                      ++ format_thousands class_len ++ " ("
                      ++ format_fixed 1 share ++ "%)"));
             ("query_stats",
              dict [("avg_length", avg);
                    ("median_length", median);
                    ("min_length", PInt min_length);
                    ("max_length", PInt max_length);
                    ("std_length", std)])]))%py.

Fixpoint class_entries (df : DataFrame) (labels : list scalar)
    (acc : list (string * pyobj)) : result (list (string * pyobj)) :=
  match labels with
  | [] => Ok acc
  | label :: rest =>
      (entry <- class_entry df label ;;
       class_entries df rest (dict_set acc (fst entry) (snd entry)))%py
  end.

(** Lines 72-93: [class_detailed_stats]. *)
Definition class_detailed_stats_of (df : DataFrame)
  : result (list (string * pyobj)) :=
  if has_column df "label" then
    (label_col <- getitem_column df "label" ;;
     labels <- sorted (unique (values label_col)) ;;
     class_entries df labels [])%py
  else Ok [].

(** [df.duplicated().sum()]: the rows equal to an earlier row. *)
Definition rows (df : DataFrame) : list (list scalar) :=
  map (fun i => map (fun c => nth i (values (data c)) (SFloat S754_nan))
                    (columns df))
      (seq 0 (index_len df)).

Fixpoint row_eqb (r1 r2 : list scalar) : bool :=
  match r1, r2 with
  | [], [] => true
  | a :: r1', b :: r2' => scalar_eqb a b && row_eqb r1' r2'
  | _, _ => false
  end.

Fixpoint duplicated_sum (seen rest : list (list scalar)) : nat :=
  match rest with
  | [] => 0
  | r :: rest' =>
      (if existsb (row_eqb r) seen then 1 else 0)
      + duplicated_sum (r :: seen) rest'
  end.

Definition results_path : string := "data/processed/task2_results.json".

(** What the driver keeps of its computations for the console summary. *)
Record summary : Type := {
  sm_basic : list string;
  sm_class_0 : string;
  sm_class_1 : string;
  sm_balance : list string;
  sm_overall : pyobj * Z * Z * pyobj * pyobj;
  sm_lengths : (nat * pyobj) * (nat * pyobj) * (nat * pyobj);
  sm_missing_total : Z;
  sm_duplicates : nat;
  sm_quality_status : string;
}.

Definition str_obj (o : pyobj) : string :=
  match o with
  | PFloat f | PNpFloat f => str_float f
  | PInt z | PNpInt z => str_int z
  | PBool b | PNpBool b => str_bool b
  | PStr s => s
  | PNone => "None"
  | _ => ""
  end.

(** [class_detailed_stats.get(key, {}).get("formatted_display", "")] *)
Definition formatted_display_of (class_detailed_stats : list (string * pyobj))
    (key : string) : string :=
  match lookup class_detailed_stats key with
  | Some entry =>
      match dict_get entry "formatted_display" (PStr "") with
      | Ok (PStr s) => s
      | _ => ""
      end
  | None => ""
  end.

(** Lines 118-227: the dictionary [complete_task2_results], together with
    the values the console summary reads back from it. *)
Definition complete_task2_results (df : DataFrame) (overview_data : pyobj)
    (query_lengths : list nat) (query_stats_safe : QueryStats.t)
    (class_detailed_stats : list (string * pyobj))
    (balance : string * string) (overview_report_path : string)
  : result (pyobj * summary) :=
  (let '(balance_quality, quality_description) := balance in
   let n := index_len df in
   let names := column_names df in
   let memory := safe_get overview_data "memory_usage_mb" (PInt 0) in
   memory_2 <- py_round memory 2 ;;
   memory_text <- py_format_fixed memory 2 ;;
   let total_records_formatted := "Total Records: " ++ format_thousands n in
   let total_columns_formatted :=
     "Total Columns: " ++ str_nat (List.length (columns df)) in
   let memory_usage_formatted := "Memory Usage: " ++ memory_text ++ " MB" in
   let column_names_formatted := "Column Names: " ++ repr_str_list names in
   let class_0 := formatted_display_of class_detailed_stats
                    "class_0_normal_safe" in
   let class_1 := formatted_display_of class_detailed_stats
                    "class_1_malicious" in
   let ratio := safe_get overview_data "balance_ratio"
                  (PFloat (F64.of_Z 1)) in
   ratio_2 <- py_round ratio 2 ;;
   ratio_text <- py_format_fixed ratio 2 ;;
   let balance_ratio_formatted := "Balance Ratio: " ++ ratio_text ++ ":1" in
   let balance_quality_formatted :=
     "Balance Quality: " ++ balance_quality ++ " " in
   average <- py_round (PNpFloat (QueryStats.avg_length query_stats_safe)) 1 ;;
   median <- py_round
               (PNpFloat (QueryStats.median_length query_stats_safe)) 1 ;;
   min_length <- py_int (QueryStats.min_length query_stats_safe) ;;
   max_length <- py_int (QueryStats.max_length query_stats_safe) ;;
   std <- py_round (PNpFloat (QueryStats.std_length query_stats_safe)) 1 ;;
   let short := short_queries query_lengths in
   let medium := medium_queries query_lengths in
   let long := long_queries query_lengths in
   short_pct <- py_round (PNpFloat (percentage_of short n)) 1 ;;
   medium_pct <- py_round (PNpFloat (percentage_of medium n)) 1 ;;
   long_pct <- py_round (PNpFloat (percentage_of long n)) 1 ;;
   let missing := safe_get overview_data "missing_values" (PDict []) in
   missing_total <- sum_values missing ;;
   missing_total' <- sum_values missing ;;
   let data_types := dict (map (fun cd => (fst cd, PStr (str_dtype (snd cd))))
                               (dtypes df)) in
   let duplicate_count := duplicated_sum [] (rows df) in
   missing_total'' <- sum_values missing ;;
   let quality_status :=
     if Z.eqb missing_total'' 0 then "EXCELLENT" else "NEEDS_ATTENTION" in
   normal_samples <-
     (if has_column df "label" then
        (label_col <- getitem_column df "label" ;;
         query_col <- getitem_column df "query" ;;
         Ok (map box (firstn 3 (select (map eq_zero (values label_col))
                                       (values query_col)))))
      else Ok []) ;;
   malicious_samples <-
     (if has_column df "label" then
        (label_col <- getitem_column df "label" ;;
         query_col <- getitem_column df "query" ;;
         Ok (map box (firstn 3 (select (map eq_one (values label_col))
                                       (values query_col)))))
      else Ok []) ;;
   query_col <- getitem_column df "query" ;;
   let random_samples := map box (firstn 5 (values query_col)) in
   ratio_10 <- py_round ratio 10 ;;
   memory_2' <- py_round memory 2 ;;
   Ok (dict
         [("dataset_basic_info",
           dict [("total_records", PInt (Z.of_nat n));
                 ("total_columns", PInt (Z.of_nat (List.length (columns df))));
                 ("column_names", PList (map PStr names));
                 ("memory_usage_mb", memory_2);
                 ("file_size_description", PStr (memory_text ++ " MB"));
                 ("console_summary",
                  dict [("total_records_formatted",
                         PStr total_records_formatted);
                        ("total_columns_formatted",
                         PStr total_columns_formatted);
                        ("memory_usage_formatted",
                         PStr memory_usage_formatted);
                        ("column_names_formatted",
                         PStr column_names_formatted)])]);
          ("class_distribution",
           dict [("summary",
                  safe_get overview_data "class_distribution" (PDict []));
                 ("detailed_stats", dict class_detailed_stats);
                 ("console_display",
                  dict [("class_0_formatted", PStr class_0);
                        ("class_1_formatted", PStr class_1)]);
                 ("balance_analysis",
                  dict [("balance_ratio", ratio_2);
                        ("balance_ratio_formatted",
                         PStr balance_ratio_formatted);
                        ("balance_quality", PStr balance_quality);
                        ("balance_quality_formatted",
                         PStr balance_quality_formatted);
                        ("quality_assessment", PStr quality_description)])]);
          ("query_statistics",
           dict [("overall",
                  dict [("average_length", average);
                        ("median_length", median);
                        ("min_length", PInt min_length);
                        ("max_length", PInt max_length);
                        ("std_deviation", std)]);
                 ("by_class", dict class_detailed_stats);
                 ("length_distribution",
                  dict [("short_queries_under_50", PInt (Z.of_nat short));
                        ("short_percentage", short_pct);
                        ("medium_queries_50_200", PInt (Z.of_nat medium));
                        ("medium_percentage", medium_pct);
                        ("long_queries_over_200", PInt (Z.of_nat long));
                        ("long_percentage", long_pct)])]);
          ("data_quality",
           dict [("missing_values", missing);
                 ("missing_values_total", PInt missing_total);
                 ("has_missing_values", PBool (Z.ltb 0 missing_total'));
                 ("data_types", data_types);
                 ("duplicate_count", PInt (Z.of_nat duplicate_count));
                 ("quality_status", PStr quality_status)]);
          ("sample_data",
           dict [("normal_queries_samples", PList normal_samples);
                 ("malicious_queries_samples", PList malicious_samples);
                 ("random_samples", PList random_samples)]);
          ("files_generated",
           PList [PStr overview_report_path; PStr results_path]);
          ("project_status",
           dict [("ready_for_next_task", PBool true);
                 ("next_task", PStr "Task 3: Exploratory Data Analysis");
                 ("recommendations",
                  PList
                    [PStr ("Dataset quality is " ++ lower balance_quality
                             ++ " for ML training");
                     PStr (if String.eqb balance_quality "EXCELLENT"
                           then "Class balance is ideal - no special handling needed"
                           else "Class balance is " ++ lower balance_quality);
                     PStr "Proceed with confidence to EDA phase";
                     PStr "Consider query length analysis in EDA"])]);
          ("dataset_loaded", PBool true);
          ("balance_ratio", ratio_10);
          ("ready_for_eda", PBool true);
          ("columns", PList (map PStr names));
          ("file_size_mb", memory_2')],
       {| sm_basic := [total_records_formatted; total_columns_formatted;
                       memory_usage_formatted; column_names_formatted];
          sm_class_0 := class_0;
          sm_class_1 := class_1;
          sm_balance := [balance_ratio_formatted; balance_quality_formatted;
                         "Assessment: " ++ quality_description];
          sm_overall := (average, min_length, max_length, median, std);
          sm_lengths := ((short, short_pct), (medium, medium_pct),
                         (long, long_pct));
          sm_missing_total := missing_total;
          sm_duplicates := duplicate_count;
          sm_quality_status := quality_status |}))%py.

(** What a run of the driver finds around it. *)
Record World : Type := {
  (** [datetime.now().strftime('%Y-%m-%d %H:%M:%S')] *)
  now : string;
  (** [os.getcwd()] and [sys.path] *)
  getcwd : string;
  sys_path : list string;
  (** the outcome of opening [config.json] and of [json.load] on it *)
  config_json : result pyobj;
  fs : FileSystem;
}.

Definition starts_with_dot (s : string) : bool :=
  match s with
  | String c _ => Ascii.eqb c "."%char
  | EmptyString => false
  end.

(** Lines 235-288: the console summary. *)
Definition print_summary (sm : summary) : io unit :=
  (io_print (nl ++ " TASK 2 COMPLETED SUCCESSFULLY!") ;;
   io_print (replicate 70 "="%char) ;;
   io_print " BASIC INFORMATION:" ;;
   io_for_each (sm_basic sm) (fun line => io_print ("   " ++ line)) ;;
   io_print (nl ++ " CLASS DISTRIBUTION:") ;;
   (if negb (String.eqb (sm_class_0 sm) "")
    then io_print ("   " ++ sm_class_0 sm) else io_ret tt) ;;
   (if negb (String.eqb (sm_class_1 sm) "")
    then io_print ("   " ++ sm_class_1 sm) else io_ret tt) ;;
   io_print (nl ++ " BALANCE ANALYSIS:") ;;
   io_for_each (sm_balance sm) (fun line => io_print ("   " ++ line)) ;;
   io_print (nl ++ " QUERY STATISTICS:") ;;
   let '(average, min_length, max_length, median, std) := sm_overall sm in
   io_print ("   Average Length: " ++ str_obj average ++ " characters") ;;
   io_print ("   Median Length: " ++ str_obj median ++ " characters") ;;
   io_print ("   Length Range: " ++ str_int min_length ++ " - "
               ++ str_int max_length ++ " characters") ;;
   io_print ("   Standard Deviation: " ++ str_obj std ++ " characters") ;;
   let '((short, short_pct), (medium, medium_pct), (long, long_pct)) :=
     sm_lengths sm in
   io_print (nl ++ " LENGTH DISTRIBUTION:") ;;
   short_text <- io_lift (py_format_fixed short_pct 1) ;;
   io_print ("   Short (<50 chars): " ++ format_thousands short ++ " ("
               ++ short_text ++ "%)") ;;
   medium_text <- io_lift (py_format_fixed medium_pct 1) ;;
   io_print ("   Medium (50-200 chars): " ++ format_thousands medium ++ " ("
               ++ medium_text ++ "%)") ;;
   long_text <- io_lift (py_format_fixed long_pct 1) ;;
   io_print ("   Long (>200 chars): " ++ format_thousands long ++ " ("
               ++ long_text ++ "%)") ;;
   io_print (nl ++ " DATA QUALITY:") ;;
   (if Z.eqb (sm_missing_total sm) 0
    then io_print ("   Missing Values: " ++ str_int (sm_missing_total sm)
                     ++ " ( None found)")
    else io_print ("   Missing Values: " ++ str_int (sm_missing_total sm)
                     ++ " ( Attention needed)")) ;;
   io_print ("   Duplicate Queries: " ++ str_nat (sm_duplicates sm)) ;;
   io_print ("   Quality Status: " ++ sm_quality_status sm) ;;
   io_print (nl ++ " ALL RESULTS SAVED TO: " ++ results_path) ;;
   io_print " STATUS: Ready for Task 3 (Exploratory Data Analysis)")%io.

(** The body of the [try] block of [main], lines 32-290. *)
Definition main_body (w : World) : io bool :=
  (io_print " Initializing Dataset Loader..." ;;
   loader <- io_lift (DatasetLoader_init (config_json w)) ;;
   io_print (nl ++ " Loading SQL Injection Dataset...") ;;
   loaded <- load_sql_injection_dataset loader (fs w) None true ;;
   match loaded with
   | None =>
       (io_print " FAILED TO LOAD DATASET" ;;
        io_print (nl ++ " Troubleshooting Checklist:") ;;
        io_print "  □ Dataset file is in data/raw/ directory" ;;
        io_print "  □ Dataset is in CSV format" ;;
        io_print "  □ File contains query and label columns" ;;
        io_print "  □ config.json exists and is properly formatted" ;;
        io_ret false)
   | Some df =>
       (io_print (nl ++ " Analyzing Dataset Quality...") ;;
        (** the call shares the object [df] refers to: the driver goes on
            with whatever the call leaves of it *)
        let '(overview, heap) :=
          dataset_overview {| df_obj := df; console := [] |} in
        io_for_each (console heap) io_print ;;
        let df := df_obj heap in
        let overview_data := overview_dict overview in
        io_print (nl ++ " Inspecting Sample Queries...") ;;
        show_sample_queries df 3 ;;
        io_print (nl ++ " Computing Comprehensive Statistics...") ;;
        query_col <- io_lift (getitem_column df "query") ;;
        let query_lengths := str_len query_col in
        let query_stats_safe := length_stats query_lengths in
        class_detailed_stats <- io_lift (class_detailed_stats_of df) ;;
        let balance := balance_assessment (Overview.balance_ratio overview) in
        io_print (nl ++ " Saving Detailed Reports...") ;;
        overview_report_path <-
          save_overview_report loader overview_data "dataset_overview.json" ;;
        doc <- io_lift (complete_task2_results df overview_data query_lengths
                          query_stats_safe class_detailed_stats balance
                          overview_report_path) ;;
        emit (MakeDirs "data/processed") ;;
        emit (WriteFile results_path (json_dumps (fst doc))) ;;
        print_summary (snd doc) ;;
        io_ret true)
   end)%io.

(** The two handlers of [main], lines 292-313.  Inside them [os.listdir]
    and [os.getcwd] are taken to succeed; were one of them to raise, the
    exception would leave [main].  The handlers write no file. *)
Definition main_handler (w : World) (e : exn) : io bool :=
  if is_FileNotFoundError e then
    (io_print (" FILE ERROR: " ++ exn_message e) ;;
     io_print (nl ++ " Current directory contents:") ;;
     (if path_exists (fs w) "data/raw" then
        match listdir (fs w) "data/raw" with
        | [] => io_print "   (empty directory)"
        | files =>
            io_for_each files (fun file =>
              if negb (starts_with_dot file)
              then io_print ("    " ++ file) else io_ret tt)
        end
      else io_print "   data/raw/ directory not found") ;;
     io_ret false)%io
  else
    (io_print (" UNEXPECTED ERROR: " ++ exn_message e) ;;
     io_print (nl ++ " Debug Information:") ;;
     io_print ("   Current Directory: " ++ getcwd w) ;;
     io_print ("   Python Path: " ++ repr_str_list (sys_path w)) ;;
     io_print ("   Error Details: " ++ exn_type_name e ++ ": "
                 ++ exn_message e) ;;
     io_ret false)%io.

Definition main (w : World) : io bool :=
  (io_print " TASK 2: DATASET LOADING & INITIAL ANALYSIS" ;;
   io_print (replicate 70 "="%char) ;;
   io_print (" Execution Time: " ++ now w) ;;
   io_print "" ;;
   try_except (main_body w) (main_handler w))%io.

(** The JSON artifacts a run leaves: the files it wrote, path and text. *)
Definition artifacts (w : World) : list (string * string) :=
  written (fst (main w)).

(** ** Notions used in the statements *)

(** The file name the loader settles on: the one it is given, or the first
    CSV of the raw-data directory. *)
Definition chosen_filename (fs : FileSystem) (raw : string)
    (filename : option string) (auto_detect : bool) : option string :=
  match filename with
  | Some f => Some f
  | None => if auto_detect then hd_error (glob_csv fs raw) else None
  end.

(** Column detection as the loader sequences it. *)
Definition detect_columns (df : DataFrame) : result (string * string) :=
  (query_col <- _detect_query_column df ;;
   label_col <- _detect_label_column df ;;
   Ok (query_col, label_col))%py.

(** Run on the frame [df], whatever the console holds, the statement
    sequence [c] yields [x] and leaves the frame as it found it. *)
Definition yields {A : Type} (df : DataFrame) (c : St A) (x : A) : Prop :=
  forall h, df_obj h = df -> fst (c h) = x /\ df_obj (snd (c h)) = df.

(** The same, and [c] adds exactly [lines] to the console, in this order. *)
Definition runs {A : Type} (df : DataFrame) (c : St A) (x : A)
    (lines : list string) : Prop :=
  forall h, df_obj h = df ->
    c h = (x, {| df_obj := df; console := console h +++ lines |}).

(** [balance_ratio] as lines 124-126 compute it from the counts. *)
Definition ratio_of (label_counts : list (scalar * nat)) : spec_float :=
  F64.div (to_float (series_max (map snd label_counts)))
          (to_float (series_min (map snd label_counts))).

(** The report as a function of the frame: what [dataset_overview] is shown
    to yield ([dataset_overview_yields]). *)
Definition report_of (df : DataFrame) : Overview.t :=
  let label_counts :=
    option_map (fun s => sort_index (value_counts s)) (get_column df "label") in
  {| Overview.total_records := index_len df;
     Overview.total_columns := List.length (columns df);
     Overview.columns := column_names df;
     Overview.class_distribution := label_counts;
     Overview.balance_ratio := option_map ratio_of label_counts;
     Overview.missing_values := isnull_sum df;
     Overview.memory_usage_mb :=
       F64.div (F64.of_Z (memory_usage_deep df)) (F64.of_Z (1024 ^ 2));
     Overview.query_stats :=
       option_map (fun s => length_stats (str_len s))
                  (get_column df "query") |}.

(** [doc[k1][k2]...]: a value inside a document of nested dictionaries. *)
Fixpoint doc_get (doc : pyobj) (path : list string) : option pyobj :=
  match path with
  | [] => Some doc
  | key :: rest =>
      match doc with
      | PDict items =>
          match find (fun kv => scalar_eqb (fst kv) (SStr key)) items with
          | Some kv => doc_get (snd kv) rest
          | None => None
          end
      | _ => None
      end
  end.

(** Two runs find the same configuration and the same CSV: the same
    [config.json], the same CSV listing of every directory, and for every
    listed CSV the same existence and the same parse.  The clock, the
    working directory, the module path and every other file (the reports of
    an earlier run among them) may differ. *)
Definition same_inputs (w1 w2 : World) : Prop :=
  config_json w1 = config_json w2 /\
  (forall raw, glob_csv (fs w1) raw = glob_csv (fs w2) raw) /\
  (forall raw f, In f (glob_csv (fs w1) raw) ->
     path_exists (fs w1) (path_join raw f)
       = path_exists (fs w2) (path_join raw f) /\
     read_csv (fs w1) (path_join raw f) = read_csv (fs w2) (path_join raw f)).

(** A call that writes no file and returns [a]. *)
Definition quiet {A : Type} (c : io A) (a : A) : Prop :=
  written (fst c) = [] /\ snd c = Ok a.

(** ** Concrete inputs

    A four-row CSV with the columns "Payload" and "Label " whose last text
    is missing; the same rows with one label missing; a table in which no
    column can be identified; and the worlds in which a run finds them. *)

Definition sample_frame : DataFrame :=
  {| index_len := 4;
     columns :=
       [{| name := "Payload";
           data := ObjectData [Some "SELECT * FROM users";
                               Some "' OR 1=1 --";
                               Some "SELECT name FROM t";
                               None] |};
        {| name := "Label "; data := IntData [0; 1; 0; 1]%Z |}] |}.

Definition sample_frame_missing_label : DataFrame :=
  {| index_len := 4;
     columns :=
       [{| name := "query";
           data := ObjectData [Some "SELECT * FROM users";
                               Some "' OR 1=1 --";
                               Some "SELECT name FROM t";
                               Some "'; DROP TABLE x; --"] |};
        {| name := "label";
           data := FloatData [F64.of_Z 0; F64.of_Z 1; S754_nan;
                              F64.of_Z 1] |}] |}.

Definition sample_frame_undetectable : DataFrame :=
  {| index_len := 3;
     columns := [{| name := "id"; data := IntData [1; 2; 3]%Z |}] |}.

(** A table with a text of 250 characters and a text of 150. *)
Definition sample_frame_long_text : DataFrame :=
  {| index_len := 2;
     columns :=
       [{| name := "query";
           data := ObjectData [Some (replicate 250 "a"%char);
                               Some (replicate 150 "b"%char)] |};
        {| name := "label"; data := IntData [1; 0]%Z |}] |}.

Definition sample_fs (df : DataFrame) : FileSystem :=
  {| glob_csv := fun dir => if String.eqb dir "data/raw" then ["d.csv"]
                            else [];
     path_exists := fun p => String.eqb p "data/raw/d.csv"
                             || String.eqb p "data/raw";
     read_csv := fun _ => Ok df;
     listdir := fun _ => ["d.csv"] |}.

Definition sample_config : pyobj :=
  dict [("data_paths",
         dict [("raw_data", PStr "data/raw");
               ("processed_data", PStr "data/processed");
               ("reports", PStr "reports")])].

Definition sample_loader : DatasetLoader :=
  {| config := sample_config;
     raw_data_path := PStr "data/raw";
     processed_data_path := PStr "data/processed" |}.

Definition sample_world (clock : string) (df : DataFrame) : World :=
  {| now := clock;
     getcwd := "/home/user/project";
     sys_path := ["src"];
     config_json := Ok sample_config;
     fs := sample_fs df |}.

(** The sample CSV as the loader returns it. *)
Definition sample_loaded : DataFrame :=
  rename (rename sample_frame "Payload" "query") "Label " "label".

(** A call that writes no file, whatever its outcome. *)
Definition silent {A : Type} (c : io A) : Prop := written (fst c) = [].

(** ** The script entry point

    Lines 315-324 of the driver: the block run when the file is executed. *)
Definition script (w : World) : io unit :=
  (success <- main w ;;
   io_print (nl ++ replicate 70 "="%char) ;;
   (if success : bool then
      (io_print " NEXT STEP: Type 'proceed' to continue to Task 3: Exploratory Data Analysis" ;;
       io_print " ALL comprehensive dataset information is saved in data/processed/task2_results.json")
    else
      io_print "  Please resolve the issues above before proceeding") ;;
   io_print (replicate 70 "="%char))%io.

(** The table [load_sql_injection_dataset] returns for the parsed table
    [df] once the two columns are detected: lines 48-52. *)
Definition standardized (df : DataFrame) (query_col label_col : string)
  : DataFrame :=
  let df1 := if negb (String.eqb query_col "query")
             then rename df query_col "query" else df in
  if negb (String.eqb label_col "label")
  then rename df1 label_col "label" else df1.

(** A column that the typed fallback of [_detect_label_column] accepts. *)
Definition binary_numeric (c : column) : bool :=
  match series_dtype (data c) with
  | int64 | float64 => (nunique (data c) =? 2)%nat
  | _ => false
  end.

(** The files a call wrote and its outcome stand in the relation [R]. *)
Definition ends {A : Type} (c : io A)
    (R : list (string * string) -> result A -> Prop) : Prop :=
  R (written (fst c)) (snd c).

(** ** Further concrete inputs

    A raw-data directory without any CSV; a table whose one text column
    carries a label name; a table whose one column is numeric, two-valued
    and named "query"; a table all of whose labels are missing; a table
    without rows; and a loader whose configuration names no reports
    directory. *)

Definition sample_fs_empty : FileSystem :=
  {| glob_csv := fun _ => [];
     path_exists := fun p => String.eqb p "data/raw";
     read_csv := fun _ => Raise (OtherError "No such file");
     listdir := fun _ => [] |}.

Definition sample_frame_text_named_class : DataFrame :=
  {| index_len := 3;
     columns :=
       [{| name := "id"; data := IntData [1; 2; 3]%Z |};
        {| name := "class";
           data := ObjectData [Some "benign"; Some "attack";
                               Some "benign"] |}] |}.

Definition sample_frame_numeric_query : DataFrame :=
  {| index_len := 3;
     columns := [{| name := "query"; data := IntData [0; 1; 0]%Z |}] |}.

Definition sample_frame_blank_labels : DataFrame :=
  {| index_len := 2;
     columns :=
       [{| name := "query";
           data := ObjectData [Some "SELECT 1"; Some "SELECT 2"] |};
        {| name := "label"; data := FloatData [S754_nan; S754_nan] |}] |}.

Definition sample_frame_without_rows : DataFrame :=
  {| index_len := 0;
     columns := [{| name := "query"; data := ObjectData [] |};
                 {| name := "label"; data := IntData [] |}] |}.

Definition sample_loader_without_reports : DatasetLoader :=
  {| config := dict [("data_paths",
                      dict [("raw_data", PStr "data/raw");
                            ("processed_data", PStr "data/processed")])];
     raw_data_path := PStr "data/raw";
     processed_data_path := PStr "data/processed" |}.
(** ** Facts about binary64 comparison *)

Lemma SFcompare_antisym (x y : spec_float) :
  SFcompare y x = option_map CompOpp (SFcompare x y).
Proof.
  destruct x as [sx | sx | | sx mx ex], y as [sy | sy | | sy my ey];
    simpl; try reflexivity;
    try (destruct sx; reflexivity); try (destruct sy; reflexivity);
    try (destruct sx, sy; reflexivity).
  destruct sx, sy; try reflexivity;
    rewrite (Z.compare_antisym ey ex);
    destruct (Z.compare ey ex); simpl; try reflexivity;
    rewrite (Pos.compare_cont_antisym mx my Eq); simpl;
    try rewrite CompOpp_involutive; reflexivity.
Qed.

Lemma SFltb_SFleb_false (x y : spec_float) :
  SFltb x y = true -> SFleb y x = false.
Proof.
  unfold SFltb, SFleb. rewrite (SFcompare_antisym x y).
  destruct (SFcompare x y) as [[ | | ] | ]; simpl; congruence.
Qed.

Lemma SFleb_false_cases (x y : spec_float) :
  SFleb x y = false -> SFltb y x = true \/ F64.is_nan x = true \/ F64.is_nan y = true.
Proof.
  unfold SFltb, SFleb. rewrite (SFcompare_antisym x y).
  destruct (SFcompare x y) as [[ | | ] | ] eqn:E; simpl; try congruence; auto.
  intros _. right.
  destruct x, y; simpl in *; auto; try discriminate;
    repeat match goal with s : bool |- _ => destruct s end; discriminate.
Qed.

Lemma SFltb_pos_truthy (m : positive) (e : Z) (r : spec_float) :
  SFltb (S754_finite false m e) r = true -> F64.truthy r = true.
Proof. destruct r; simpl; unfold SFltb; simpl; congruence. Qed.

(** Among positive finite floats a smaller exponent is a smaller value, as
    far as [SFcompare] goes. *)
Lemma SFltb_lower_exponent (m1 m2 : positive) (e1 e2 : Z) (r : spec_float) :
  (e1 < e2)%Z ->
  SFltb (S754_finite false m2 e2) r = true ->
  SFltb (S754_finite false m1 e1) r = true.
Proof.
  intros L. destruct r as [s | s | | s m e]; try discriminate;
    try (destruct s; discriminate || reflexivity).
  destruct s; [discriminate | ].
  unfold SFltb, SFcompare.
  destruct (Z.compare_spec e2 e) as [E | E | E];
    destruct (Z.compare_spec e1 e) as [E' | E' | E'];
    try lia; try reflexivity; try discriminate.
Qed.

Lemma f1_2_value : f1_2 = S754_finite false 5404319552844595 (-52).
Proof. vm_compute. reflexivity. Qed.

Lemma f2_0_value : f2_0 = S754_finite false 4503599627370496 (-51).
Proof. vm_compute. reflexivity. Qed.

Lemma f5_0_value : f5_0 = S754_finite false 5629499534213120 (-50).
Proof. vm_compute. reflexivity. Qed.

Lemma f5_01_value : f5_01 = S754_finite false 5640758533281546 (-50).
Proof. vm_compute. reflexivity. Qed.

(** ** Balance-ratio tiering *)

Lemma balance_quality_truthy (r : spec_float) :
  F64.truthy r = true ->
  balance_quality (Some r) =
    if SFleb r f1_2 then "EXCELLENT"
    else if SFleb r f2_0 then "GOOD"
    else if SFleb r f5_0 then "FAIR"
    else "POOR".
Proof.
  intros T. unfold balance_quality, balance_assessment. rewrite T.
  destruct (SFleb r f1_2); [reflexivity | ].
  destruct (SFleb r f2_0); [reflexivity | ].
  destruct (SFleb r f5_0); reflexivity.
Qed.

Lemma balance_quality_zero (r : spec_float) :
  F64.truthy r = false ->
  balance_quality (Some r) = "EXCELLENT" /\ SFleb r f1_2 = true.
Proof.
  destruct r; simpl; try discriminate. intros _.
  split; [reflexivity | ]. rewrite f1_2_value. reflexivity.
Qed.

(** The printed tier of [dataset_overview] is the driver's tier followed by
    a blank. *)
Lemma quality_balance_quality (r : spec_float) :
  quality r = balance_quality (Some r) ++ " ".
Proof.
  destruct (F64.truthy r) eqn:T.
  - rewrite (balance_quality_truthy r T). unfold quality.
    destruct (SFleb r f1_2); [reflexivity | ].
    destruct (SFleb r f2_0); [reflexivity | ].
    destruct (SFleb r f5_0); reflexivity.
  - destruct (balance_quality_zero r T) as [Q L].
    rewrite Q. unfold quality. rewrite L. reflexivity.
Qed.

Lemma tier_excellent (r : spec_float) :
  SFleb r f1_2 = true -> balance_quality (Some r) = "EXCELLENT".
Proof.
  intros H. destruct (F64.truthy r) eqn:T.
  - rewrite (balance_quality_truthy r T), H. reflexivity.
  - apply (balance_quality_zero r T).
Qed.

Lemma tier_good (r : spec_float) :
  SFltb f1_2 r = true -> SFleb r f2_0 = true ->
  balance_quality (Some r) = "GOOD".
Proof.
  intros H1 H2. rewrite balance_quality_truthy.
  - rewrite (SFltb_SFleb_false _ _ H1), H2. reflexivity.
  - rewrite f1_2_value in H1. exact (SFltb_pos_truthy _ _ _ H1).
Qed.

Lemma above_2_0_above_1_2 (r : spec_float) :
  SFltb f2_0 r = true -> SFltb f1_2 r = true.
Proof.
  rewrite f1_2_value, f2_0_value.
  apply SFltb_lower_exponent. reflexivity.
Qed.

Lemma above_5_0_above_2_0 (r : spec_float) :
  SFltb f5_0 r = true -> SFltb f2_0 r = true.
Proof.
  rewrite f2_0_value, f5_0_value.
  apply SFltb_lower_exponent. reflexivity.
Qed.

Lemma tier_fair (r : spec_float) :
  SFltb f2_0 r = true -> SFleb r f5_0 = true ->
  balance_quality (Some r) = "FAIR".
Proof.
  intros H1 H2.
  pose proof (above_2_0_above_1_2 r H1) as H0.
  rewrite balance_quality_truthy.
  - rewrite (SFltb_SFleb_false _ _ H0), (SFltb_SFleb_false _ _ H1), H2.
    reflexivity.
  - rewrite f2_0_value in H1. exact (SFltb_pos_truthy _ _ _ H1).
Qed.

Lemma tier_poor (r : spec_float) :
  SFltb f5_0 r = true -> balance_quality (Some r) = "POOR".
Proof.
  intros H1.
  pose proof (above_5_0_above_2_0 r H1) as H2.
  pose proof (above_2_0_above_1_2 r H2) as H0.
  rewrite balance_quality_truthy.
  - rewrite (SFltb_SFleb_false _ _ H0), (SFltb_SFleb_false _ _ H2),
      (SFltb_SFleb_false _ _ H1). reflexivity.
  - rewrite f5_0_value in H1. exact (SFltb_pos_truthy _ _ _ H1).
Qed.

Lemma tier_at_1_2 : balance_quality (Some f1_2) = "EXCELLENT".
Proof. vm_compute. reflexivity. Qed.

Lemma tier_at_2_0 : balance_quality (Some f2_0) = "GOOD".
Proof. vm_compute. reflexivity. Qed.

Lemma tier_at_5_0 : balance_quality (Some f5_0) = "FAIR".
Proof. vm_compute. reflexivity. Qed.

Lemma tier_at_5_01 : balance_quality (Some f5_01) = "POOR".
Proof. vm_compute. reflexivity. Qed.

(** Six records of one class against five of the other: the ratio is the
    very float the literal [1.2] denotes, so such a table is "EXCELLENT". *)
Lemma six_to_five_is_1_2 :
  ratio_of [(SInt 0, 6); (SInt 1, 5)] = f1_2 /\
  balance_quality (Some (ratio_of [(SInt 0, 6); (SInt 1, 5)])) = "EXCELLENT".
Proof. split; vm_compute; reflexivity. Qed.

(** C2. The balance-quality tier is a function of the balance ratio alone,
    each upper boundary belonging to the lower tier: a ratio at most 1.2 is
    "EXCELLENT", one above 1.2 and at most 2.0 is "GOOD", one above 2.0 and
    at most 5.0 is "FAIR", one above 5.0 is "POOR"; at the boundaries, 1.2 is
    "EXCELLENT", 2.0 is "GOOD", 5.0 is "FAIR" and 5.01 is "POOR".  The tier
    [dataset_overview] prints is the same word. *)
Theorem balance_quality_tiers (r : spec_float) :
  (SFleb r f1_2 = true -> balance_quality (Some r) = "EXCELLENT") /\
  (SFltb f1_2 r = true -> SFleb r f2_0 = true ->
   balance_quality (Some r) = "GOOD") /\
  (SFltb f2_0 r = true -> SFleb r f5_0 = true ->
   balance_quality (Some r) = "FAIR") /\
  (SFltb f5_0 r = true -> balance_quality (Some r) = "POOR") /\
  balance_quality (Some f1_2) = "EXCELLENT" /\
  balance_quality (Some f2_0) = "GOOD" /\
  balance_quality (Some f5_0) = "FAIR" /\
  balance_quality (Some f5_01) = "POOR" /\
  quality r = balance_quality (Some r) ++ " ".
Proof.
  split; [exact (tier_excellent r) | ].
  split; [exact (tier_good r) | ].
  split; [exact (tier_fair r) | ].
  split; [exact (tier_poor r) | ].
  split; [exact tier_at_1_2 | ].
  split; [exact tier_at_2_0 | ].
  split; [exact tier_at_5_0 | ].
  split; [exact tier_at_5_01 | ].
  exact (quality_balance_quality r).
Qed.

(** ** The loader *)

Lemma snd_io_bind_raise {A B : Type} (c : io A) (k : A -> io B) (e : exn) :
  snd (io_bind c k) = Raise e ->
  snd c = Raise e \/ exists a, snd c = Ok a /\ snd (k a) = Raise e.
Proof.
  destruct c as [out [a | e']]; simpl.
  - destruct (k a) as [out' r] eqn:K. simpl. intros ->.
    right. exists a. rewrite K. split; reflexivity.
  - intros H. injection H as ->. left. reflexivity.
Qed.

Lemma io_bind_ok {A B : Type} (c : io A) (k : A -> io B) (out : list event)
    (a : A) :
  c = (out, Ok a) -> io_bind c k = (out +++ fst (k a), snd (k a)).
Proof. intros ->. simpl. destruct (k a). reflexivity. Qed.

(** What the [try] block of the loader leaves once the path is settled. *)
Lemma load_resolved (self : DatasetLoader) (fs : FileSystem)
    (filename : option string) (auto_detect : bool) (raw f : string) :
  raw_data_path self = PStr raw ->
  chosen_filename fs raw filename auto_detect = Some f ->
  path_exists fs (path_join raw f) = true ->
  exists prefix,
    load_sql_injection_dataset self fs filename auto_detect =
      match read_csv fs (path_join raw f) with
      | Raise e =>
          (prefix +++ [Print (" Error loading dataset: " ++ exn_message e)],
           Ok None)
      | Ok df =>
          match detect_columns df with
          | Raise e =>
              (prefix +++
                 [Print (" Error loading dataset: " ++ exn_message e)],
               Ok None)
          | Ok (query_col, label_col) =>
              let df1 := if negb (String.eqb query_col "query")
                         then rename df query_col "query" else df in
              let df2 := if negb (String.eqb label_col "label")
                         then rename df1 label_col "label" else df1 in
              (prefix +++
                 [Print (" Successfully loaded "
                           ++ format_thousands (index_len df2) ++ " records");
                  Print (" Columns: " ++ repr_str_list (column_names df2))],
               Ok (Some df2))
          end
      end.
Proof.
  intros Hraw Hf Hex.
  unfold load_sql_injection_dataset, chosen_filename in *.
  rewrite Hraw.
  destruct filename as [f0 | ].
  - injection Hf as ->. simpl. rewrite Hex. simpl.
    exists [Print "LOADING SQL INJECTION DATASET";
            Print (" Loading from: " ++ path_join raw f)].
    unfold detect_columns.
    destruct (read_csv fs (path_join raw f)) as [df | e]; simpl;
      [ | reflexivity].
    destruct (_detect_query_column df) as [q | e]; simpl; [ | reflexivity].
    destruct (_detect_label_column df) as [l | e]; simpl; reflexivity.
  - destruct auto_detect; [ | discriminate].
    simpl. destruct (glob_csv fs raw) as [ | first rest]; [discriminate | ].
    injection Hf as ->. simpl. rewrite Hex. simpl.
    exists [Print "LOADING SQL INJECTION DATASET";
            Print ("Auto-detected dataset: " ++ f);
            Print (" Loading from: " ++ path_join raw f)].
    unfold detect_columns.
    destruct (read_csv fs (path_join raw f)) as [df | e]; simpl;
      [ | reflexivity].
    destruct (_detect_query_column df) as [q | e]; simpl; [ | reflexivity].
    destruct (_detect_label_column df) as [l | e]; simpl; reflexivity.
Qed.

Lemma detect_query_raise (df : DataFrame) (e : exn) :
  _detect_query_column df = Raise e ->
  e = ValueError "Could not detect query column".
Proof.
  unfold _detect_query_column.
  destruct (find (has_column df) possible_query_names); [discriminate | ].
  destruct (object_columns df); [ | discriminate].
  intros H. injection H as <-. reflexivity.
Qed.

Lemma detect_label_raise (df : DataFrame) (e : exn) :
  _detect_label_column df = Raise e ->
  e = ValueError "Could not detect label column".
Proof.
  unfold _detect_label_column.
  destruct (find (has_column df) possible_label_names); [discriminate | ].
  destruct (find _ (numeric_columns df)); [discriminate | ].
  intros H. injection H as <-. reflexivity.
Qed.

Local Opaque _detect_query_column _detect_label_column.

Lemma detect_columns_raise (df : DataFrame) (e : exn) :
  detect_columns df = Raise e ->
  e = ValueError "Could not detect query column" \/
  e = ValueError "Could not detect label column".
Proof.
  unfold detect_columns.
  destruct (_detect_query_column df) as [q | e1] eqn:Q; simpl.
  - destruct (_detect_label_column df) as [l | e2] eqn:L; simpl;
      [discriminate | ].
    intros H. injection H as <-. right. exact (detect_label_raise df e2 L).
  - intros H. injection H as <-. left. exact (detect_query_raise df e1 Q).
Qed.

(** Whatever the arguments, no Value error leaves the loader. *)
Lemma load_never_raises_ValueError (self : DatasetLoader) (fs : FileSystem)
    (filename : option string) (auto_detect : bool) (m : string) :
  snd (load_sql_injection_dataset self fs filename auto_detect)
    <> Raise (ValueError m).
Proof.
  unfold load_sql_injection_dataset.
  destruct filename as [f | ]; [ | destruct auto_detect];
    destruct (raw_data_path self) as [ | | | | raw | | | | | ]; simpl;
      try discriminate.
  - destruct (path_exists fs (path_join raw f)); simpl; [ | discriminate].
    destruct (read_csv fs (path_join raw f)) as [df | e]; simpl;
      [ | discriminate].
    destruct (_detect_query_column df); simpl; [ | discriminate].
    destruct (_detect_label_column df); simpl; discriminate.
  - destruct (glob_csv fs raw) as [ | f rest]; simpl; [discriminate | ].
    destruct (path_exists fs (path_join raw f)); simpl; [ | discriminate].
    destruct (read_csv fs (path_join raw f)) as [df | e]; simpl;
      [ | discriminate].
    destruct (_detect_query_column df); simpl; [ | discriminate].
    destruct (_detect_label_column df); simpl; discriminate.
Qed.

(** C1, as the code has it.  When no text column or no label column can be
    identified in the parsed table, the Value error is raised inside the
    [try] block of [load_sql_injection_dataset] and caught there: the call
    prints " Error loading dataset: " followed by the message and returns
    the null result.  No Value error ever reaches the caller. *)
Theorem detection_failure_returns_null (self : DatasetLoader)
    (fs : FileSystem) (filename : option string) (auto_detect : bool)
    (raw f : string) (df : DataFrame) (e : exn) :
  raw_data_path self = PStr raw ->
  chosen_filename fs raw filename auto_detect = Some f ->
  path_exists fs (path_join raw f) = true ->
  read_csv fs (path_join raw f) = Ok df ->
  detect_columns df = Raise e ->
  let call := load_sql_injection_dataset self fs filename auto_detect in
  snd call = Ok None /\
  last (printed (fst call)) "" = " Error loading dataset: " ++ exn_message e /\
  (exists m, e = ValueError m) /\
  (forall m, snd call <> Raise (ValueError m)).
Proof.
  intros Hraw Hf Hex Hread Hdet call.
  destruct (load_resolved self fs filename auto_detect raw f Hraw Hf Hex)
    as [prefix Hload].
  rewrite Hread, Hdet in Hload.
  subst call. split; [rewrite Hload; reflexivity | ].
  split.
  - rewrite Hload. simpl. unfold printed. rewrite flat_map_app. simpl.
    apply last_last.
  - split.
    + destruct (detect_columns_raise df e Hdet) as [-> | ->]; eexists;
        reflexivity.
    + intros m. apply load_never_raises_ValueError.
Qed.

Local Transparent _detect_query_column _detect_label_column.

(** ** Column detection on the names "Payload" and "Label " *)

Lemma detect_query_Payload (df : DataFrame) :
  has_column df "Payload" = true ->
  forallb (fun c => negb (has_column df c))
          ["query"; "Query"; "sql"; "SQL"; "statement"] = true ->
  _detect_query_column df = Ok "Payload".
Proof.
  intros HP Hnone. unfold _detect_query_column, possible_query_names.
  simpl in Hnone. simpl.
  repeat (apply andb_prop in Hnone; destruct Hnone as [H' Hnone];
          apply negb_true_iff in H'; rewrite H'; clear H').
  rewrite HP. reflexivity.
Qed.

Lemma detect_label_Label_blank (df : DataFrame) :
  has_column df "Label " = true ->
  forallb (fun c => negb (has_column df c))
          ["label"; "Label"; "target"; "class"] = true ->
  _detect_label_column df = Ok "Label ".
Proof.
  intros HL Hnone. unfold _detect_label_column, possible_label_names.
  simpl in Hnone. simpl.
  repeat (apply andb_prop in Hnone; destruct Hnone as [H' Hnone];
          apply negb_true_iff in H'; rewrite H'; clear H').
  rewrite HL. reflexivity.
Qed.

Lemma column_names_rename (df : DataFrame) (old new : string) :
  column_names (rename df old new) =
  map (fun n => if String.eqb n old then new else n) (column_names df).
Proof.
  unfold column_names, rename. simpl. rewrite !map_map.
  apply map_ext. intros c. destruct (String.eqb (name c) old); reflexivity.
Qed.

Lemma data_rename (df : DataFrame) (old new : string) :
  map data (columns (rename df old new)) = map data (columns df).
Proof.
  unfold rename. simpl. rewrite map_map.
  apply map_ext. intros c. destruct (String.eqb (name c) old); reflexivity.
Qed.

(** C3. When the parsed CSV has exactly the columns "Payload" and "Label "
    (the latter with its trailing blank), detection selects "Payload" as the
    text column and "Label " as the label column, and the table
    [load_sql_injection_dataset] returns carries the same data under the
    canonical names "query" and "label". *)
Theorem payload_and_label_blank_are_canonicalised (self : DatasetLoader)
    (fs : FileSystem) (filename : option string) (auto_detect : bool)
    (raw f : string) (df : DataFrame) :
  raw_data_path self = PStr raw ->
  chosen_filename fs raw filename auto_detect = Some f ->
  path_exists fs (path_join raw f) = true ->
  read_csv fs (path_join raw f) = Ok df ->
  column_names df = ["Payload"; "Label "] \/
  column_names df = ["Label "; "Payload"] ->
  _detect_query_column df = Ok "Payload" /\
  _detect_label_column df = Ok "Label " /\
  exists df',
    snd (load_sql_injection_dataset self fs filename auto_detect)
      = Ok (Some df') /\
    column_names df' =
      map (fun n => if String.eqb n "Payload" then "query" else "label")
          (column_names df) /\
    map data (columns df') = map data (columns df) /\
    index_len df' = index_len df /\
    get_column df' "query" = get_column df "Payload" /\
    get_column df' "label" = get_column df "Label ".
Proof.
  intros Hraw Hf Hex Hread Hnames.
  assert (HQ : _detect_query_column df = Ok "Payload").
  { apply detect_query_Payload; unfold has_column;
      destruct Hnames as [-> | ->]; reflexivity. }
  assert (HL : _detect_label_column df = Ok "Label ").
  { apply detect_label_Label_blank; unfold has_column;
      destruct Hnames as [-> | ->]; reflexivity. }
  split; [exact HQ | ]. split; [exact HL | ].
  destruct (load_resolved self fs filename auto_detect raw f Hraw Hf Hex)
    as [prefix Hload].
  unfold detect_columns in Hload. rewrite Hread, HQ, HL in Hload.
  simpl in Hload.
  exists (rename (rename df "Payload" "query") "Label " "label").
  split; [rewrite Hload; reflexivity | ].
  split.
  { rewrite !column_names_rename.
    destruct Hnames as [-> | ->]; reflexivity. }
  split; [rewrite !data_rename; reflexivity | ].
  split; [reflexivity | ].
  unfold get_column, rename, column_names in *. simpl.
  destruct (columns df) as [ | c1 [ | c2 [ | c3 rest]]];
    destruct Hnames as [Hn | Hn]; simpl in Hn; try discriminate;
    injection Hn as H1 H2;
    repeat (simpl; rewrite ?H1, ?H2); split; reflexivity.
Qed.

(** ** [dataset_overview]: what it computes, and that it only reads *)

Lemma yields_ret {A : Type} (df : DataFrame) (a : A) : yields df (ret a) a.
Proof. intros h E. split; [reflexivity | exact E]. Qed.

Lemma yields_bind {A B : Type} (df : DataFrame) (c : St A) (k : A -> St B)
    (a : A) (b : B) :
  yields df c a -> yields df (k a) b -> yields df (bind c k) b.
Proof.
  intros Hc Hk h E. unfold bind.
  destruct (Hc h E) as [V F]. destruct (c h) as [a' h'].
  simpl in V, F. subst a'. exact (Hk h' F).
Qed.

Lemma yields_print (df : DataFrame) (s : string) : yields df (print s) tt.
Proof. intros h E. split; [reflexivity | exact E]. Qed.

Lemma yields_read_df {A : Type} (df : DataFrame) (f : DataFrame -> A) :
  yields df (read_df f) (f df).
Proof. intros h E. split; [simpl; rewrite E; reflexivity | exact E]. Qed.

Lemma yields_for_each {A : Type} (df : DataFrame) (l : list A)
    (body : A -> St unit) :
  (forall x, yields df (body x) tt) -> yields df (for_each l body) tt.
Proof.
  intros Hbody. induction l as [ | x rest IH]; simpl.
  - apply yields_ret.
  - exact (yields_bind df _ _ tt tt (Hbody x) IH).
Qed.

(** One step of a statement sequence: a print, a read, or a loop. *)
Ltac yields_step :=
  first
    [ apply yields_ret
    | apply yields_print
    | apply yields_read_df
    | eapply yields_bind; [apply yields_print | ]
    | eapply yields_bind; [apply yields_read_df | ] ].

Lemma class_distribution_block_yields (df : DataFrame) (total_records : nat)
    (label : series_data) :
  yields df (class_distribution_block total_records label)
    (sort_index (value_counts label),
     ratio_of (sort_index (value_counts label))).
Proof.
  unfold class_distribution_block.
  yields_step.
  eapply yields_bind.
  { apply yields_for_each. intros [label' count]. apply yields_print. }
  repeat yields_step.
Qed.

Lemma data_quality_block_yields (df : DataFrame) (total_records : nat) :
  yields df (data_quality_block total_records) (isnull_sum df).
Proof.
  unfold data_quality_block.
  do 2 yields_step.
  eapply (yields_bind df _ _ tt).
  - destruct (sum_counts (isnull_sum df) =? 0)%nat.
    + apply yields_print.
    + yields_step.
      apply yields_for_each. intros [col count].
      destruct (0 <? count)%nat; yields_step.
  - apply yields_ret.
Qed.

Lemma query_statistics_block_yields (df : DataFrame) (total_records : nat)
    (query : series_data) :
  yields df (query_statistics_block total_records query)
    (length_stats (str_len query)).
Proof. unfold query_statistics_block. repeat yields_step. Qed.

Lemma dataset_overview_yields (df : DataFrame) :
  yields df dataset_overview (report_of df).
Proof.
  unfold dataset_overview, report_of.
  do 11 yields_step.
  eapply (yields_bind df _ _
            (option_map
               (fun s => (sort_index (value_counts s),
                          ratio_of (sort_index (value_counts s))))
               (get_column df "label"))).
  { destruct (get_column df "label") as [s | ]; simpl.
    - eapply yields_bind; [apply class_distribution_block_yields | ].
      apply yields_ret.
    - apply yields_ret. }
  eapply yields_bind; [apply data_quality_block_yields | ].
  do 2 yields_step.
  eapply yields_bind.
  { apply yields_for_each. intros cd. apply yields_print. }
  yields_step.
  eapply (yields_bind df _ _
            (option_map (fun s => length_stats (str_len s))
                        (get_column df "query"))).
  { destruct (get_column df "query") as [s | ]; simpl.
    - eapply yields_bind; [apply query_statistics_block_yields | ].
      apply yields_ret.
    - apply yields_ret. }
  yields_step.
  destruct (get_column df "label"); simpl; apply yields_ret.
Qed.

Lemma overview_of_report (df : DataFrame) : overview_of df = report_of df.
Proof.
  unfold overview_of.
  exact (proj1 (dataset_overview_yields df
                  {| df_obj := df; console := [] |} eq_refl)).
Qed.

(** C7. On every table [dataset_overview] computes and returns its report
    and leaves the table as it was: the object [df] refers to has the same
    columns and the same values after the call, and no column (a length
    column in particular) has been attached; the lengths only live in the
    series the statistics are computed from. *)
Theorem dataset_overview_leaves_the_table (df : DataFrame)
    (printed_before : list string) :
  let call :=
    dataset_overview {| df_obj := df; console := printed_before |} in
  fst call = report_of df /\
  df_obj (snd call) = df /\
  column_names (df_obj (snd call)) = column_names df /\
  (forall col, get_column (df_obj (snd call)) col = get_column df col).
Proof.
  intros call.
  destruct (dataset_overview_yields df
              {| df_obj := df; console := printed_before |} eq_refl)
    as [V F].
  fold call in V, F.
  split; [exact V | ]. split; [exact F | ].
  rewrite F. split; [reflexivity | intros col; reflexivity].
Qed.

(** By contrast the in-place assignment [df[col] = series] does attach a
    column: the frame property above is one of [dataset_overview], not of
    every statement. *)
Lemma setitem_attaches_a_column (h : Heap) (col : string)
    (series : series_data) :
  has_column (df_obj h) col = false ->
  column_names (df_obj (snd (setitem col series h)))
    = column_names (df_obj h) +++ [col].
Proof.
  intros H. unfold setitem. simpl. rewrite H.
  unfold column_names. simpl. rewrite map_app. reflexivity.
Qed.

(** ** Class distribution *)

Lemma sum_counts_bump (k : scalar) (table : list (scalar * nat)) :
  sum_counts (bump k table) = S (sum_counts table).
Proof.
  induction table as [ | [k' n] rest IH]; simpl; [reflexivity | ].
  destruct (scalar_eqb k' k); simpl; [reflexivity | ].
  rewrite IH. lia.
Qed.

Lemma sum_counts_fold_bump (vs : list scalar) (table : list (scalar * nat)) :
  sum_counts (fold_left (fun t v => bump v t) vs table)
    = List.length vs + sum_counts table.
Proof.
  revert table. induction vs as [ | v rest IH]; intros table; simpl;
    [reflexivity | ].
  rewrite IH, sum_counts_bump. lia.
Qed.

Lemma sum_counts_insert (kv : scalar * nat) (l : list (scalar * nat)) :
  sum_counts (insert_by_key kv l) = snd kv + sum_counts l.
Proof.
  induction l as [ | kv' rest IH]; simpl; [reflexivity | ].
  destruct (scalar_ltb (fst kv') (fst kv)); simpl; [ | reflexivity].
  rewrite IH. lia.
Qed.

Lemma sum_counts_sort_index (l : list (scalar * nat)) :
  sum_counts (sort_index l) = sum_counts l.
Proof.
  unfold sort_index. induction l as [ | kv rest IH]; simpl; [reflexivity | ].
  rewrite sum_counts_insert, IH. reflexivity.
Qed.

Lemma dropna_and_null (vs : list scalar) :
  List.length (dropna vs) + List.length (filter isnull vs) = List.length vs.
Proof.
  unfold dropna. induction vs as [ | v rest IH]; simpl; [reflexivity | ].
  destruct (isnull v); simpl; lia.
Qed.

(** The counts of a sorted distribution add up to the rows that have a
    label. *)
Lemma sum_counts_label_counts (s : series_data) :
  sum_counts (sort_index (value_counts s)) + count_null s = series_len s.
Proof.
  rewrite sum_counts_sort_index. unfold value_counts.
  rewrite sum_counts_fold_bump. simpl.
  unfold count_null, series_len.
  pose proof (dropna_and_null (values s)). lia.
Qed.

Lemma wf_frame_column (df : DataFrame) (col : string) (s : series_data) :
  wf_frame df = true -> get_column df col = Some s ->
  series_len s = index_len df.
Proof.
  unfold wf_frame, get_column. intros W G.
  destruct (find (fun c => String.eqb (name c) col) (columns df))
    as [c | ] eqn:F; [ | discriminate].
  injection G as <-.
  apply find_some in F. destruct F as [I _].
  rewrite forallb_forall in W. apply Nat.eqb_eq. exact (W c I).
Qed.

Lemma get_column_has_column (df : DataFrame) (col : string) :
  has_column df col = true <-> exists s, get_column df col = Some s.
Proof.
  unfold has_column, get_column, column_names.
  induction (columns df) as [ | c rest IH]; simpl.
  - split; [discriminate | intros [s H]; discriminate].
  - rewrite (String.eqb_sym col (name c)).
    destruct (String.eqb (name c) col); simpl.
    + split; [intros _; eexists; reflexivity | reflexivity].
    + exact IH.
Qed.

(** C4, as the code has it.  For every table with a label column, the
    per-label counts of the class distribution add up to the number of
    records whose label is not missing: together with the missing labels
    they make the total record count, and they equal it when no label is
    missing. *)
Theorem class_counts_sum_to_labelled_records (df : DataFrame)
    (label : series_data) :
  wf_frame df = true ->
  get_column df "label" = Some label ->
  exists distribution,
    Overview.class_distribution (overview_of df) = Some distribution /\
    sum_counts distribution + count_null label
      = Overview.total_records (overview_of df) /\
    (count_null label = 0 ->
     sum_counts distribution = Overview.total_records (overview_of df)).
Proof.
  intros W G. rewrite overview_of_report. unfold report_of. simpl.
  rewrite G. simpl.
  exists (sort_index (value_counts label)).
  split; [reflexivity | ].
  pose proof (sum_counts_label_counts label) as S.
  rewrite (wf_frame_column df "label" label W G) in S.
  split; [exact S | lia].
Qed.

(** ** Length buckets *)

Lemma length_filter_cons {A : Type} (f : A -> bool) (x : A) (l : list A) :
  List.length (filter f (x :: l))
    = (if f x then 1 else 0) + List.length (filter f l).
Proof. simpl. destruct (f x); reflexivity. Qed.

Lemma buckets_partition (query_lengths : list nat) :
  short_queries query_lengths + medium_queries query_lengths
    + long_queries query_lengths = List.length query_lengths.
Proof.
  unfold short_queries, medium_queries, long_queries.
  induction query_lengths as [ | n rest IH]; [reflexivity | ].
  rewrite !length_filter_cons.
  change (List.length (n :: rest)) with (S (List.length rest)).
  destruct (Nat.ltb_spec n 50), (Nat.leb_spec 50 n), (Nat.ltb_spec n 200),
    (Nat.leb_spec 200 n); cbn [andb]; lia.
Qed.

Lemma str_len_length (s : series_data) :
  List.length (str_len s) = series_len s.
Proof. unfold str_len, series_len. apply length_map. Qed.

(** ** What [dataset_overview] prints *)

Lemma runs_ret {A : Type} (df : DataFrame) (a : A) : runs df (ret a) a [].
Proof.
  intros h E. unfold ret. rewrite app_nil_r.
  destruct h as [d c]. simpl in E. subst d. reflexivity.
Qed.

Lemma runs_bind {A B : Type} (df : DataFrame) (c : St A) (k : A -> St B)
    (a : A) (b : B) (l1 l2 : list string) :
  runs df c a l1 -> runs df (k a) b l2 -> runs df (bind c k) b (l1 +++ l2).
Proof.
  intros Hc Hk h E. unfold bind. rewrite (Hc h E).
  rewrite (Hk {| df_obj := df; console := console h +++ l1 |} eq_refl).
  simpl. rewrite <- app_assoc. reflexivity.
Qed.

Lemma runs_print (df : DataFrame) (s : string) : runs df (print s) tt [s].
Proof. intros h E. unfold print. rewrite E. reflexivity. Qed.

Lemma runs_read_df {A : Type} (df : DataFrame) (f : DataFrame -> A) :
  runs df (read_df f) (f df) [].
Proof.
  intros h E. unfold read_df. rewrite app_nil_r.
  destruct h as [d c]. simpl in E. subst d. reflexivity.
Qed.

Lemma runs_for_each {A : Type} (df : DataFrame) (l : list A)
    (body : A -> St unit) (g : A -> list string) :
  (forall x, runs df (body x) tt (g x)) ->
  runs df (for_each l body) tt (flat_map g l).
Proof.
  intros Hbody. induction l as [ | x rest IH]; simpl.
  - apply runs_ret.
  - exact (runs_bind df _ _ tt tt _ _ (Hbody x) IH).
Qed.

Lemma runs_value {A : Type} (df : DataFrame) (c : St A) (x y : A)
    (lines : list string) :
  yields df c x -> runs df c y lines -> runs df c x lines.
Proof.
  intros Y R h E. destruct (Y h E) as [V _].
  rewrite (R h E) in V |- *. simpl in V. subst y. reflexivity.
Qed.

(** One printing statement, or one read, along a statement sequence. *)
Ltac runs_step :=
  first
    [ eapply runs_bind; [apply runs_print | ]
    | eapply runs_bind; [apply runs_read_df | cbv beta ] ].

(** Membership in a console that was put together by [runs_bind]. *)
Ltac in_console I :=
  repeat first [ apply in_or_app; left; exact I | apply in_or_app; right ].

(** The class-distribution block prints the ratio and its tier. *)
Lemma class_distribution_block_runs (df : DataFrame) (total_records : nat)
    (label : series_data) :
  let label_counts := sort_index (value_counts label) in
  exists lines,
    runs df (class_distribution_block total_records label)
      (label_counts, ratio_of label_counts) lines /\
    In (nl ++ " Balance Ratio: "
          ++ format_fixed 2 (ratio_of label_counts) ++ ":1") lines /\
    In (" Balance Quality: " ++ quality (ratio_of label_counts)) lines.
Proof.
  intros label_counts. unfold class_distribution_block.
  eexists. split.
  - runs_step.
    eapply runs_bind.
    { apply (runs_for_each df _ _
               (fun lc : scalar * nat =>
                  ["  " ++ py_str (fst lc) ++ " ("
                     ++ label_name_of (fst lc) ++ "): "
                     ++ format_thousands (snd lc) ++ " ("
                     ++ format_fixed 1 (percentage_of (snd lc) total_records)
                     ++ "%)"])).
      intros [l c]. apply runs_print. }
    runs_step. runs_step. apply runs_ret.
  - split.
    + apply in_or_app. right. apply in_or_app. right.
      apply in_or_app. left. left. reflexivity.
    + apply in_or_app. right. apply in_or_app. right.
      apply in_or_app. right. apply in_or_app. left. left. reflexivity.
Qed.

Lemma data_quality_block_runs (df : DataFrame) (total_records : nat) :
  exists lines, runs df (data_quality_block total_records) (isnull_sum df) lines.
Proof.
  unfold data_quality_block.
  destruct (sum_counts (isnull_sum df) =? 0)%nat eqn:Z.
  - eexists. do 2 runs_step. rewrite Z. runs_step. apply runs_ret.
  - eexists. do 2 runs_step. rewrite Z.
    eapply runs_bind; [ | apply runs_ret].
    runs_step.
    apply (runs_for_each df _ _
             (fun cc : string * nat =>
                if (0 <? snd cc)%nat then
                  ["    " ++ fst cc ++ ": " ++ format_thousands (snd cc)
                     ++ " ("
                     ++ format_fixed 2 (percentage_of (snd cc) total_records)
                     ++ "%)"]
                else [])).
    intros [col count]. cbn [fst snd].
    destruct (0 <? count)%nat; [apply runs_print | apply runs_ret].
Qed.

(** The query-statistics block prints the three buckets of the length
    series, each with its share of [total_records]. *)
Lemma query_statistics_block_runs (df : DataFrame) (total_records : nat)
    (query : series_data) :
  let query_lengths := str_len query in
  exists lines,
    runs df (query_statistics_block total_records query)
      (length_stats query_lengths) lines /\
    In ("    Short (<50 chars): "
          ++ format_thousands (short_queries query_lengths) ++ " ("
          ++ format_fixed 1 (percentage_of (short_queries query_lengths)
                                           total_records) ++ "%)") lines /\
    In ("    Medium (50-200 chars): "
          ++ format_thousands (medium_queries query_lengths) ++ " ("
          ++ format_fixed 1 (percentage_of (medium_queries query_lengths)
                                           total_records) ++ "%)") lines /\
    In ("    Long (>200 chars): "
          ++ format_thousands (long_queries query_lengths) ++ " ("
          ++ format_fixed 1 (percentage_of (long_queries query_lengths)
                                           total_records) ++ "%)") lines.
Proof.
  intros query_lengths. unfold query_statistics_block.
  eexists. split.
  - do 10 runs_step. apply runs_ret.
  - split; [ | split].
    + do 7 (apply in_or_app; right). apply in_or_app. left. left. reflexivity.
    + do 8 (apply in_or_app; right). apply in_or_app. left. left. reflexivity.
    + do 9 (apply in_or_app; right). apply in_or_app. left. left. reflexivity.
Qed.

(** The console of a call of [dataset_overview]: what was there before,
    then the lines of the call, among them those of the two blocks. *)
Lemma dataset_overview_console (df : DataFrame) :
  exists lines,
    runs df dataset_overview (report_of df) lines /\
    (forall label, get_column df "label" = Some label ->
       let label_counts := sort_index (value_counts label) in
       In (nl ++ " Balance Ratio: "
             ++ format_fixed 2 (ratio_of label_counts) ++ ":1") lines /\
       In (" Balance Quality: " ++ quality (ratio_of label_counts)) lines) /\
    (forall query, get_column df "query" = Some query ->
       let query_lengths := str_len query in
       In ("    Short (<50 chars): "
             ++ format_thousands (short_queries query_lengths) ++ " ("
             ++ format_fixed 1 (percentage_of (short_queries query_lengths)
                                              (index_len df)) ++ "%)") lines /\
       In ("    Medium (50-200 chars): "
             ++ format_thousands (medium_queries query_lengths) ++ " ("
             ++ format_fixed 1 (percentage_of (medium_queries query_lengths)
                                              (index_len df)) ++ "%)") lines /\
       In ("    Long (>200 chars): "
             ++ format_thousands (long_queries query_lengths) ++ " ("
             ++ format_fixed 1 (percentage_of (long_queries query_lengths)
                                              (index_len df)) ++ "%)") lines).
Proof.
  assert (C : exists lines,
            runs df
              (match get_column df "label" with
               | Some s =>
                   (r <- class_distribution_block (index_len df) s ;;
                    ret (Some r))%st
               | None => ret None
               end)
              (option_map
                 (fun s => (sort_index (value_counts s),
                            ratio_of (sort_index (value_counts s))))
                 (get_column df "label")) lines /\
            forall label, get_column df "label" = Some label ->
              In (nl ++ " Balance Ratio: "
                    ++ format_fixed 2 (ratio_of (sort_index (value_counts label)))
                    ++ ":1") lines /\
              In (" Balance Quality: "
                    ++ quality (ratio_of (sort_index (value_counts label))))
                 lines).
  { destruct (get_column df "label") as [s | ].
    - destruct (class_distribution_block_runs df (index_len df) s)
        as (l & R & I1 & I2).
      eexists. split.
      + eapply runs_bind; [exact R | apply runs_ret].
      + intros label E. injection E as <-.
        split; apply in_or_app; left; assumption.
    - eexists. split; [apply runs_ret | discriminate]. }
  assert (Q : exists lines,
            runs df
              (match get_column df "query" with
               | Some s =>
                   (r <- query_statistics_block (index_len df) s ;;
                    ret (Some r))%st
               | None => ret None
               end)
              (option_map (fun s => length_stats (str_len s))
                          (get_column df "query")) lines /\
            forall query, get_column df "query" = Some query ->
              In ("    Short (<50 chars): "
                    ++ format_thousands (short_queries (str_len query)) ++ " ("
                    ++ format_fixed 1
                         (percentage_of (short_queries (str_len query))
                                        (index_len df)) ++ "%)") lines /\
              In ("    Medium (50-200 chars): "
                    ++ format_thousands (medium_queries (str_len query))
                    ++ " ("
                    ++ format_fixed 1
                         (percentage_of (medium_queries (str_len query))
                                        (index_len df)) ++ "%)") lines /\
              In ("    Long (>200 chars): "
                    ++ format_thousands (long_queries (str_len query)) ++ " ("
                    ++ format_fixed 1
                         (percentage_of (long_queries (str_len query))
                                        (index_len df)) ++ "%)") lines).
  { destruct (get_column df "query") as [s | ].
    - destruct (query_statistics_block_runs df (index_len df) s)
        as (l & R & I1 & I2 & I3).
      eexists. split.
      + eapply runs_bind; [exact R | apply runs_ret].
      + intros query E. injection E as <-.
        split; [ | split]; apply in_or_app; left; assumption.
    - eexists. split; [apply runs_ret | discriminate]. }
  destruct C as (Lc & Rc & Ic). destruct Q as (Lq & Rq & Iq).
  destruct (data_quality_block_runs df (index_len df)) as [Ld Rd].
  eexists. split; [ | split].
  - eapply (runs_value df _ _ _ _ (dataset_overview_yields df)).
    unfold dataset_overview.
    do 11 runs_step.
    eapply runs_bind; [exact Rc | ].
    eapply runs_bind; [exact Rd | ].
    do 2 runs_step.
    eapply runs_bind.
    { apply (runs_for_each df _ _
               (fun cd : string * dtype =>
                  ["  " ++ fst cd ++ ": " ++ str_dtype (snd cd)])).
      intros cd. apply runs_print. }
    runs_step.
    eapply runs_bind; [exact Rq | ].
    runs_step. apply runs_ret.
  - intros label G label_counts.
    destruct (Ic label G) as [I1 I2].
    split; [in_console I1 | in_console I2].
  - intros query G query_lengths.
    destruct (Iq query G) as (I1 & I2 & I3).
    split; [in_console I1 | split; [in_console I2 | in_console I3]].
Qed.

(** ** Sample display *)

Lemma string_length_append (a b : string) :
  String.length (a ++ b) = String.length a + String.length b.
Proof. induction a as [ | c a IH]; simpl; [reflexivity | rewrite IH; reflexivity]. Qed.

(** [s[:n]] is a prefix of [s], of length [n] when [s] is that long. *)
Lemma substring_prefix (n : nat) (s : string) :
  n <= String.length s ->
  String.length (substring 0 n s) = n /\
  exists rest, s = substring 0 n s ++ rest.
Proof.
  revert s. induction n as [ | n IH]; intros s L.
  - split; [destruct s; reflexivity | ].
    exists s. destruct s; reflexivity.
  - destruct s as [ | c s]; simpl in L; [lia | ].
    destruct (IH s) as [Hlen [rest Hrest]]; [lia | ].
    simpl. split; [rewrite Hlen; reflexivity | ].
    exists rest. rewrite <- Hrest. reflexivity.
Qed.

Lemma display_query_long (query_str : string) :
  200 < String.length query_str ->
  display_query query_str = substring 0 200 query_str ++ "...".
Proof.
  intros L. unfold display_query.
  destruct (Nat.ltb_spec 200 (String.length query_str)); [reflexivity | lia].
Qed.

Lemma display_query_short (query_str : string) :
  String.length query_str <= 200 -> display_query query_str = query_str.
Proof.
  intros L. unfold display_query.
  destruct (Nat.ltb_spec 200 (String.length query_str)); [lia | reflexivity].
Qed.

(** ** Missing text cells *)

Lemma isnull_nan (v : scalar) : isnull v = true -> v = SFloat S754_nan.
Proof.
  destruct v as [z | f | b | s]; try discriminate.
  destruct f; try discriminate. reflexivity.
Qed.

Lemma fold_min_le (l : list nat) (a : nat) :
  fold_left Nat.min l a <= a /\
  forall x, In x l -> fold_left Nat.min l a <= x.
Proof.
  revert a. induction l as [ | y rest IH]; intros a; simpl.
  - split; [lia | intros x []].
  - destruct (IH (Nat.min a y)) as [H1 H2]. split; [lia | ].
    intros x [-> | I]; [lia | exact (H2 x I)].
Qed.

Lemma fold_max_ge (l : list nat) (a : nat) :
  a <= fold_left Nat.max l a /\
  forall x, In x l -> x <= fold_left Nat.max l a.
Proof.
  revert a. induction l as [ | y rest IH]; intros a; simpl.
  - split; [lia | intros x []].
  - destruct (IH (Nat.max a y)) as [H1 H2]. split; [lia | ].
    intros x [-> | I]; [lia | exact (H2 x I)].
Qed.

Lemma series_min_le (l : list nat) (x : nat) :
  In x l -> exists m, series_min l = SInt m /\ (m <= Z.of_nat x)%Z.
Proof.
  destruct l as [ | a rest]; [intros [] | ].
  intros I. simpl. eexists. split; [reflexivity | ].
  destruct (fold_min_le rest a) as [H1 H2].
  destruct I as [-> | I]; [lia | ]. specialize (H2 x I). lia.
Qed.

Lemma series_max_ge (l : list nat) (x : nat) :
  In x l -> exists m, series_max l = SInt m /\ (Z.of_nat x <= m)%Z.
Proof.
  destruct l as [ | a rest]; [intros [] | ].
  intros I. simpl. eexists. split; [reflexivity | ].
  destruct (fold_max_ge rest a) as [H1 H2].
  destruct I as [-> | I]; [lia | ]. specialize (H2 x I). lia.
Qed.

Lemma null_cells_are_short (vs : list scalar) :
  List.length (filter isnull vs)
    <= short_queries (map (fun v => String.length (py_str v)) vs).
Proof.
  unfold short_queries. induction vs as [ | v rest IH]; [simpl; lia | ].
  rewrite map_cons, !length_filter_cons.
  destruct (isnull v) eqn:N.
  - rewrite (isnull_nan v N). cbv beta.
    simpl (py_str _). simpl (String.length _).
    change (3 <? 50)%nat with true. cbv iota. lia.
  - cbv beta. destruct (_ <? 50)%nat; lia.
Qed.

Lemma get_column_in_isnull_sum (df : DataFrame) (col : string)
    (s : series_data) :
  get_column df col = Some s -> In (col, count_null s) (isnull_sum df).
Proof.
  unfold get_column, isnull_sum. intros G.
  destruct (find (fun c => String.eqb (name c) col) (columns df))
    as [c | ] eqn:F; [ | discriminate].
  injection G as <-. apply find_some in F. destruct F as [I E].
  apply String.eqb_eq in E. subst col.
  exact (in_map (fun c => (name c, count_null (data c))) _ _ I).
Qed.


(** ** The complete results document *)

Lemma safe_get_missing_values (o : Overview.t) (default : pyobj) :
  safe_get (overview_dict o) "missing_values" default =
  dict (map (fun cc => (fst cc, PInt (Z.of_nat (snd cc))))
            (Overview.missing_values o)).
Proof. reflexivity. Qed.

Lemma sum_values_counts (l : list (string * nat)) :
  sum_values (dict (map (fun cc => (fst cc, PInt (Z.of_nat (snd cc)))) l))
    = Ok (Z.of_nat (sum_counts l)).
Proof.
  unfold sum_values, dict. rewrite map_map. simpl.
  induction l as [ | [col n] rest IH]; [reflexivity | ].
  simpl. rewrite IH. simpl. f_equal. lia.
Qed.

Lemma missing_total_of_overview (df : DataFrame) (default : pyobj) :
  sum_values (safe_get (overview_dict (overview_of df)) "missing_values"
                       default)
    = Ok (Z.of_nat (sum_counts (isnull_sum df))).
Proof.
  rewrite safe_get_missing_values, sum_values_counts, overview_of_report.
  reflexivity.
Qed.

(** One step along the chain of fallible computations of a document that
    was built. *)
Ltac built_step H :=
  match type of H with
  | rbind ?r _ = Ok _ =>
      let E := fresh "E" in
      destruct r eqn:E; [cbn [rbind] in H | discriminate H]
  end.

(** The two fields of [data_quality] that follow the missing total. *)
Lemma document_quality_status (df : DataFrame) (query_lengths : list nat)
    (query_stats_safe : QueryStats.t)
    (class_detailed_stats : list (string * pyobj))
    (balance : string * string) (overview_report_path : string)
    (doc : pyobj) (sm : summary) :
  complete_task2_results df (overview_dict (overview_of df)) query_lengths
    query_stats_safe class_detailed_stats balance overview_report_path
    = Ok (doc, sm) ->
  doc_get doc ["data_quality"; "missing_values_total"]
    = Some (PInt (Z.of_nat (sum_counts (isnull_sum df)))) /\
  doc_get doc ["data_quality"; "quality_status"]
    = Some (PStr (if (sum_counts (isnull_sum df) =? 0)%nat
                  then "EXCELLENT" else "NEEDS_ATTENTION")).
Proof.
  intros H. unfold complete_task2_results in H.
  destruct balance as [balance_quality quality_description].
  rewrite !missing_total_of_overview in H.
  repeat built_step H.
  injection H as <- _.
  split; [reflexivity | ].
  change (doc_get _ ["data_quality"; "quality_status"])
    with (Some (PStr (if Z.eqb (Z.of_nat (sum_counts (isnull_sum df))) 0
                      then "EXCELLENT" else "NEEDS_ATTENTION"))).
  destruct (sum_counts (isnull_sum df)); reflexivity.
Qed.

(** C8. In the complete results document, [data_quality.quality_status] is
    "EXCELLENT" when the missing values of all columns add up to zero, and
    it is "NEEDS_ATTENTION" exactly when that total is not zero. *)
Theorem quality_status_follows_missing_total (df : DataFrame)
    (query_lengths : list nat) (query_stats_safe : QueryStats.t)
    (class_detailed_stats : list (string * pyobj))
    (balance : string * string) (overview_report_path : string)
    (doc : pyobj) (sm : summary) :
  complete_task2_results df (overview_dict (overview_of df)) query_lengths
    query_stats_safe class_detailed_stats balance overview_report_path
    = Ok (doc, sm) ->
  let total := sum_counts (isnull_sum df) in
  doc_get doc ["data_quality"; "missing_values_total"]
    = Some (PInt (Z.of_nat total)) /\
  (total = 0 ->
   doc_get doc ["data_quality"; "quality_status"] = Some (PStr "EXCELLENT")) /\
  (doc_get doc ["data_quality"; "quality_status"]
     = Some (PStr "NEEDS_ATTENTION") <-> total <> 0).
Proof.
  intros H total.
  destruct (document_quality_status df query_lengths query_stats_safe
              class_detailed_stats balance overview_report_path doc sm H)
    as [T Q].
  fold total in T, Q.
  split; [exact T | ].
  rewrite Q. destruct (Nat.eqb_spec total 0) as [Z | NZ].
  - split; [reflexivity | ]. split; [discriminate | intros N; contradiction].
  - split; [intros Z; contradiction | ]. split; [intros _; exact NZ | reflexivity].
Qed.

(** The document records the three buckets of the length series it is
    given and the tier of the balance assessment it is given. *)
Lemma document_length_distribution (df : DataFrame) (overview_data : pyobj)
    (query_lengths : list nat) (query_stats_safe : QueryStats.t)
    (class_detailed_stats : list (string * pyobj))
    (balance : string * string) (overview_report_path : string)
    (doc : pyobj) (sm : summary) :
  complete_task2_results df overview_data query_lengths query_stats_safe
    class_detailed_stats balance overview_report_path = Ok (doc, sm) ->
  doc_get doc ["query_statistics"; "length_distribution";
               "short_queries_under_50"]
    = Some (PInt (Z.of_nat (short_queries query_lengths))) /\
  doc_get doc ["query_statistics"; "length_distribution";
               "medium_queries_50_200"]
    = Some (PInt (Z.of_nat (medium_queries query_lengths))) /\
  doc_get doc ["query_statistics"; "length_distribution";
               "long_queries_over_200"]
    = Some (PInt (Z.of_nat (long_queries query_lengths))) /\
  doc_get doc ["class_distribution"; "balance_analysis"; "balance_quality"]
    = Some (PStr (fst balance)) /\
  doc_get doc ["dataset_basic_info"; "total_records"]
    = Some (PInt (Z.of_nat (index_len df))).
Proof.
  intros H. unfold complete_task2_results in H.
  destruct balance as [balance_quality quality_description].
  repeat built_step H.
  injection H as <- _.
  split; [reflexivity | ]. split; [reflexivity | ].
  split; [reflexivity | ]. split; reflexivity.
Qed.

(** C5. For every table with a text column, the three length buckets with
    the fixed breakpoints (short: below 50; medium: from 50 and below 200;
    long: from 200) hold, together, exactly the total record count.  The
    counts are the ones the program shows: [dataset_overview] prints each
    of them in its "Length Distribution" lines, and the complete results
    document records them under [query_statistics.length_distribution],
    beside the total they add up to. *)
Theorem length_buckets_sum_to_total (df : DataFrame) (query : series_data)
    (printed_before : list string) :
  wf_frame df = true ->
  get_column df "query" = Some query ->
  let call :=
    dataset_overview {| df_obj := df; console := printed_before |} in
  let total := Overview.total_records (fst call) in
  let query_lengths := str_len query in
  let short :=
    List.length (filter (fun n => (n <? 50)%nat) query_lengths) in
  let medium :=
    List.length
      (filter (fun n => (50 <=? n)%nat && (n <? 200)%nat) query_lengths) in
  let long :=
    List.length (filter (fun n => (200 <=? n)%nat) query_lengths) in
  short + medium + long = total /\
  In ("    Short (<50 chars): " ++ format_thousands short ++ " ("
        ++ format_fixed 1 (percentage_of short total) ++ "%)")
     (console (snd call)) /\
  In ("    Medium (50-200 chars): " ++ format_thousands medium ++ " ("
        ++ format_fixed 1 (percentage_of medium total) ++ "%)")
     (console (snd call)) /\
  In ("    Long (>200 chars): " ++ format_thousands long ++ " ("
        ++ format_fixed 1 (percentage_of long total) ++ "%)")
     (console (snd call)) /\
  forall class_detailed_stats balance overview_report_path doc sm,
    complete_task2_results df (overview_dict (fst call)) query_lengths
      (length_stats query_lengths) class_detailed_stats balance
      overview_report_path = Ok (doc, sm) ->
    doc_get doc ["query_statistics"; "length_distribution";
                 "short_queries_under_50"] = Some (PInt (Z.of_nat short)) /\
    doc_get doc ["query_statistics"; "length_distribution";
                 "medium_queries_50_200"] = Some (PInt (Z.of_nat medium)) /\
    doc_get doc ["query_statistics"; "length_distribution";
                 "long_queries_over_200"] = Some (PInt (Z.of_nat long)) /\
    doc_get doc ["dataset_basic_info"; "total_records"]
      = Some (PInt (Z.of_nat (short + medium + long))).
Proof.
  intros W G call total query_lengths short medium long.
  destruct (dataset_overview_console df) as (lines & R & _ & IQ).
  pose proof (R {| df_obj := df; console := printed_before |} eq_refl) as E.
  fold call in E.
  assert (T : total = index_len df).
  { subst total. rewrite E. reflexivity. }
  assert (S : short + medium + long = index_len df).
  { pose proof (buckets_partition query_lengths) as P.
    unfold short_queries, medium_queries, long_queries in P.
    fold short medium long in P. rewrite P.
    subst query_lengths. rewrite str_len_length.
    exact (wf_frame_column df "query" query W G). }
  destruct (IQ query G) as (I1 & I2 & I3).
  unfold short_queries, medium_queries, long_queries in I1, I2, I3.
  fold query_lengths in I1, I2, I3. fold short in I1. fold medium in I2.
  fold long in I3.
  assert (Cn : forall line, In line lines -> In line (console (snd call))).
  { intros line I. rewrite E. simpl. apply in_or_app. right. exact I. }
  split; [rewrite T; exact S | ].
  rewrite T.
  split; [exact (Cn _ I1) | ]. split; [exact (Cn _ I2) | ].
  split; [exact (Cn _ I3) | ].
  intros class_detailed_stats balance overview_report_path doc sm D.
  destruct (document_length_distribution _ _ _ _ _ _ _ _ _ D)
    as (Ds & Dm & Dl & _ & Dt).
  split; [exact Ds | ]. split; [exact Dm | ]. split; [exact Dl | ].
  rewrite S. exact Dt.
Qed.

(** ** Two runs on the same inputs *)

Lemma io_bind_ext {A B : Type} (c : io A) (k1 k2 : A -> io B) :
  (forall a, k1 a = k2 a) -> io_bind c k1 = io_bind c k2.
Proof.
  intros E. destruct c as [out [a | e]]; simpl; [rewrite E | ]; reflexivity.
Qed.

Lemma load_same_inputs (w1 w2 : World) (self : DatasetLoader) :
  same_inputs w1 w2 ->
  load_sql_injection_dataset self (fs w1) None true
    = load_sql_injection_dataset self (fs w2) None true.
Proof.
  intros [_ [Hglob Hcsv]]. unfold load_sql_injection_dataset.
  destruct (raw_data_path self) as [ | | | | raw | | | | | ];
    try reflexivity.
  simpl. rewrite <- (Hglob raw).
  destruct (glob_csv (fs w1) raw) as [ | first rest] eqn:G; [reflexivity | ].
  destruct (Hcsv raw first) as [Hex Hread]; [rewrite G; left; reflexivity | ].
  simpl. rewrite <- Hex, <- Hread. reflexivity.
Qed.

Lemma main_body_same_inputs (w1 w2 : World) :
  same_inputs w1 w2 -> main_body w1 = main_body w2.
Proof.
  intros S. unfold main_body. destruct S as [Hc S'] eqn:ES.
  rewrite Hc.
  apply io_bind_ext. intros _.
  apply io_bind_ext. intros loader.
  apply io_bind_ext. intros _.
  rewrite (load_same_inputs w1 w2 loader S). reflexivity.
Qed.

Lemma written_app (a b : list event) :
  written (a +++ b) = written a +++ written b.
Proof. unfold written. apply flat_map_app. Qed.

Lemma quiet_ret {A : Type} (a : A) : quiet (io_ret a) a.
Proof. split; reflexivity. Qed.

Lemma quiet_print (s : string) : quiet (io_print s) tt.
Proof. split; reflexivity. Qed.

Lemma quiet_bind {A B : Type} (c : io A) (k : A -> io B) (a : A) (b : B) :
  quiet c a -> quiet (k a) b -> quiet (io_bind c k) b.
Proof.
  unfold quiet. intros [Wc Rc] [Wk Rk].
  destruct c as [out r]. simpl in Wc, Rc. subst r. simpl.
  destruct (k a) as [out' r']. simpl in *.
  rewrite written_app, Wc, Wk. split; [reflexivity | exact Rk].
Qed.

Lemma quiet_for_each {A : Type} (l : list A) (body : A -> io unit) :
  (forall x, quiet (body x) tt) -> quiet (io_for_each l body) tt.
Proof.
  intros Hb. induction l as [ | x rest IH]; simpl.
  - apply quiet_ret.
  - exact (quiet_bind _ _ tt tt (Hb x) IH).
Qed.

(** Both handlers of [main] only print, and answer [False]. *)
Lemma main_handler_quiet (w : World) (e : exn) :
  quiet (main_handler w e) false.
Proof.
  unfold main_handler. destruct (is_FileNotFoundError e).
  - eapply quiet_bind; [apply quiet_print | ].
    eapply quiet_bind; [apply quiet_print | ].
    eapply (quiet_bind _ _ tt).
    + destruct (path_exists (fs w) "data/raw"); [ | apply quiet_print].
      destruct (listdir (fs w) "data/raw") as [ | file files];
        [apply quiet_print | ].
      apply quiet_for_each. intros x.
      destruct (negb (starts_with_dot x)); [apply quiet_print | apply quiet_ret].
    + apply quiet_ret.
  - repeat (eapply quiet_bind; [apply quiet_print | ]).
    apply quiet_ret.
Qed.

Lemma io_bind_print (s : string) {B : Type} (k : unit -> io B) :
  io_bind (io_print s) k = (Print s :: fst (k tt), snd (k tt)).
Proof. unfold io_bind, io_print. destruct (k tt). reflexivity. Qed.

Lemma try_except_trace {A : Type} (body : io A) (handler : exn -> io A) :
  fst (try_except body handler)
    = fst body +++ match snd body with
                   | Ok _ => []
                   | Raise e => fst (handler e)
                   end /\
  snd (try_except body handler)
    = match snd body with
      | Ok a => Ok a
      | Raise e => snd (handler e)
      end.
Proof.
  destruct body as [out [a | e]]; simpl.
  - rewrite app_nil_r. split; reflexivity.
  - destruct (handler e). split; reflexivity.
Qed.

(** What a run writes and answers is decided by the body of its [try]
    block; the banner and the handlers only print. *)
Lemma main_artifacts (w : World) :
  artifacts w = written (fst (main_body w)) /\
  snd (main w) = match snd (main_body w) with
                 | Ok b => Ok b
                 | Raise _ => Ok false
                 end.
Proof.
  unfold artifacts, main.
  rewrite !io_bind_print. cbn [fst snd].
  destruct (try_except_trace (main_body w) (main_handler w)) as [T R].
  rewrite T, R. unfold written at 1. cbn [flat_map app].
  fold (written (fst (main_body w) +++
                 match snd (main_body w) with
                 | Ok _ => []
                 | Raise e => fst (main_handler w e)
                 end)).
  rewrite written_app.
  destruct (snd (main_body w)) as [b | e].
  - rewrite app_nil_r. split; reflexivity.
  - destruct (main_handler_quiet w e) as [Wh Rh].
    rewrite Wh, Rh, app_nil_r. split; reflexivity.
Qed.

(** C10. Two runs of the driver that find the same configuration and the
    same CSV write the same JSON artifacts, text for text: the overview
    report and the complete results document of the one equal those of the
    other, whatever the clock and the files left by an earlier run; and both
    runs give the same answer.  (The samples in the document are the first
    rows of each class in file order.) *)
Theorem reruns_write_identical_artifacts (w1 w2 : World) :
  same_inputs w1 w2 ->
  artifacts w1 = artifacts w2 /\ snd (main w1) = snd (main w2).
Proof.
  intros S.
  destruct (main_artifacts w1) as [A1 R1].
  destruct (main_artifacts w2) as [A2 R2].
  rewrite A1, A2, R1, R2, (main_body_same_inputs w1 w2 S).
  split; reflexivity.
Qed.

(** The console, by contrast, shows the clock of each run. *)
Lemma console_shows_the_clock (w : World) :
  nth_error (printed (fst (main w))) 2 = Some (" Execution Time: " ++ now w).
Proof. unfold main. rewrite !io_bind_print. reflexivity. Qed.

(** ** What a successful run writes *)

Lemma io_bind_success {A B : Type} (c : io A) (k : A -> io B) (b : B) :
  snd (io_bind c k) = Ok b ->
  exists a, snd c = Ok a /\ snd (k a) = Ok b /\
            written (fst (io_bind c k))
              = written (fst c) +++ written (fst (k a)).
Proof.
  destruct c as [out [a | e]]; simpl; [ | discriminate].
  destruct (k a) as [out' r] eqn:K. simpl. intros ->.
  exists a. rewrite K. simpl. rewrite written_app. auto.
Qed.

Lemma silent_ret {A : Type} (a : A) : silent (io_ret a).
Proof. reflexivity. Qed.

Lemma silent_raise {A : Type} (e : exn) : silent (@io_raise A e).
Proof. reflexivity. Qed.

Lemma silent_lift {A : Type} (r : result A) : silent (io_lift r).
Proof. reflexivity. Qed.

Lemma silent_print (s : string) : silent (io_print s).
Proof. reflexivity. Qed.

Lemma silent_bind {A B : Type} (c : io A) (k : A -> io B) :
  silent c -> (forall a, silent (k a)) -> silent (io_bind c k).
Proof.
  unfold silent. intros Hc Hk. destruct c as [out [a | e]]; simpl in *.
  - specialize (Hk a). destruct (k a) as [out' r]. simpl in *.
    rewrite written_app, Hc, Hk. reflexivity.
  - exact Hc.
Qed.

Lemma silent_try_except {A : Type} (body : io A) (handler : exn -> io A) :
  silent body -> (forall e, silent (handler e)) ->
  silent (try_except body handler).
Proof.
  unfold silent. intros Hb Hh. destruct body as [out [a | e]]; simpl in *.
  - exact Hb.
  - specialize (Hh e). destruct (handler e) as [out' r]. simpl in *.
    rewrite written_app, Hb, Hh. reflexivity.
Qed.

Lemma silent_for_each {A : Type} (l : list A) (body : A -> io unit) :
  (forall x, silent (body x)) -> silent (io_for_each l body).
Proof.
  intros Hb. induction l as [ | x rest IH]; simpl.
  - apply silent_ret.
  - apply silent_bind; [apply Hb | intros _; exact IH].
Qed.

Ltac silence :=
  repeat first
    [ apply silent_ret | apply silent_raise | apply silent_lift
    | apply silent_print
    | apply silent_bind; [ | intros ? ]
    | apply silent_for_each; intros ?
    | apply silent_try_except; [ | intros ? ]
    | match goal with
      | |- silent (match ?x with _ => _ end) => destruct x
      end ].

Lemma load_silent (self : DatasetLoader) (fs : FileSystem)
    (filename : option string) (auto_detect : bool) :
  silent (load_sql_injection_dataset self fs filename auto_detect).
Proof. unfold load_sql_injection_dataset. silence. Qed.

Lemma print_samples_silent (samples : list scalar) :
  silent (print_samples samples).
Proof. unfold print_samples. silence. Qed.

Lemma show_sample_queries_silent (df : DataFrame) (n_samples : nat) :
  silent (show_sample_queries df n_samples).
Proof.
  unfold show_sample_queries. silence; apply print_samples_silent.
Qed.

Lemma print_summary_silent (sm : summary) : silent (print_summary sm).
Proof.
  unfold print_summary.
  destruct (sm_overall sm) as [[[[average min_length] max_length] median] std].
  destruct (sm_lengths sm) as [[[short sp] [medium mp]] [long lp]].
  silence.
Qed.

Lemma save_overview_report_success (self : DatasetLoader)
    (overview_data : pyobj) (filename path : string) :
  snd (save_overview_report self overview_data filename) = Ok path ->
  written (fst (save_overview_report self overview_data filename))
    = [(path, json_dumps overview_data)].
Proof.
  unfold save_overview_report.
  destruct (io_lift _) as [out [reports | e]] eqn:L; [ | discriminate].
  unfold io_lift in L. injection L as <- L.
  cbn [io_bind].
  destruct (as_path reports) as [reports_dir | e]; [ | discriminate].
  cbn [io_lift io_bind].
  destruct (String.eqb reports_dir ""); [discriminate | ].
  cbn. intros E. injection E as <-. reflexivity.
Qed.

(** One step along a chain of calls that ended well: its value [a], its
    outcome [Hc], and what it wrote (added to [EW]). *)
Ltac ok_step H EW a Hc :=
  let W := fresh "W" in
  apply io_bind_success in H;
  destruct H as (a & Hc & H & W);
  rewrite W in EW; clear W.

(** A run that answers [True] has loaded a table, built the document, and
    written exactly two files: the overview report and the complete results
    document. *)
Lemma main_body_success (w : World) :
  snd (main_body w) = Ok true ->
  exists loader df query class_detailed_stats overview_report_path doc sm,
    DatasetLoader_init (config_json w) = Ok loader /\
    snd (load_sql_injection_dataset loader (fs w) None true)
      = Ok (Some df) /\
    getitem_column df "query" = Ok query /\
    class_detailed_stats_of df = Ok class_detailed_stats /\
    complete_task2_results df (overview_dict (overview_of df))
      (str_len query) (length_stats (str_len query)) class_detailed_stats
      (balance_assessment (Overview.balance_ratio (overview_of df)))
      overview_report_path = Ok (doc, sm) /\
    written (fst (main_body w)) =
      [(overview_report_path, json_dumps (overview_dict (overview_of df)));
       (results_path, json_dumps doc)].
Proof.
  intros H.
  remember (written (fst (main_body w))) as W eqn:EW.
  unfold main_body in H, EW.
  ok_step H EW u0 P0. ok_step H EW loader Hinit. ok_step H EW u1 P1.
  ok_step H EW loaded Hload.
  rewrite (load_silent loader (fs w) None true) in EW.
  destruct loaded as [df | ]; [ | discriminate H].
  ok_step H EW u2 P2.
  destruct (dataset_overview_yields df {| df_obj := df; console := [] |}
              eq_refl) as [V F].
  destruct (dataset_overview {| df_obj := df; console := [] |})
    as [overview heap].
  simpl in V, F. subst overview. rewrite F in H, EW. clear F.
  ok_step H EW u3 P3.
  rewrite (silent_for_each (console heap) io_print silent_print) in EW.
  ok_step H EW u4 P4. ok_step H EW u5 P5.
  rewrite (show_sample_queries_silent df 3) in EW.
  ok_step H EW u6 P6. ok_step H EW query Hquery.
  ok_step H EW class_detailed_stats Hstats.
  ok_step H EW u7 P7. ok_step H EW overview_report_path Hsave.
  rewrite (save_overview_report_success _ _ _ _ Hsave) in EW.
  ok_step H EW built Hdoc. destruct built as [doc sm].
  ok_step H EW u8 P8. ok_step H EW u9 P9. ok_step H EW u10 P10.
  rewrite (print_summary_silent sm) in EW.
  exists loader, df, query, class_detailed_stats, overview_report_path, doc, sm.
  split; [exact Hinit | ]. split; [exact Hload | ].
  split; [exact Hquery | ]. split; [exact Hstats | ].
  split; [rewrite overview_of_report; exact Hdoc | ].
  rewrite overview_of_report. subst W. reflexivity.
Qed.

(** On success the driver leaves two artifacts, and the second is the
    serialised complete results document of the loaded table. *)
Lemma main_success_artifacts (w : World) :
  snd (main w) = Ok true ->
  exists df query class_detailed_stats overview_report_path doc sm,
    getitem_column df "query" = Ok query /\
    complete_task2_results df (overview_dict (overview_of df))
      (str_len query) (length_stats (str_len query)) class_detailed_stats
      (balance_assessment (Overview.balance_ratio (overview_of df)))
      overview_report_path = Ok (doc, sm) /\
    artifacts w =
      [(overview_report_path, json_dumps (overview_dict (overview_of df)));
       (results_path, json_dumps doc)].
Proof.
  intros H. destruct (main_artifacts w) as [A R].
  rewrite R in H.
  destruct (snd (main_body w)) as [b | e] eqn:B; [ | discriminate H].
  injection H as ->.
  destruct (main_body_success w B)
    as (loader & df & query & cds & path & doc & sm & _ & _ & Q & _ & D & Wr).
  exists df, query, cds, path, doc, sm.
  split; [exact Q | ]. split; [exact D | ]. rewrite A. exact Wr.
Qed.

(** A run that answers [True] wrote the document of the table it loaded:
    its record count, its three length buckets, its balance tier and its
    quality status are those of that table. *)
Lemma successful_run_document (w : World) :
  snd (main w) = Ok true ->
  exists df query overview_report_path doc,
    artifacts w =
      [(overview_report_path, json_dumps (overview_dict (overview_of df)));
       (results_path, json_dumps doc)] /\
    get_column df "query" = Some query /\
    doc_get doc ["dataset_basic_info"; "total_records"]
      = Some (PInt (Z.of_nat (index_len df))) /\
    doc_get doc ["query_statistics"; "length_distribution";
                 "short_queries_under_50"]
      = Some (PInt (Z.of_nat (short_queries (str_len query)))) /\
    doc_get doc ["query_statistics"; "length_distribution";
                 "medium_queries_50_200"]
      = Some (PInt (Z.of_nat (medium_queries (str_len query)))) /\
    doc_get doc ["query_statistics"; "length_distribution";
                 "long_queries_over_200"]
      = Some (PInt (Z.of_nat (long_queries (str_len query)))) /\
    doc_get doc ["class_distribution"; "balance_analysis"; "balance_quality"]
      = Some (PStr (balance_quality
                      (Overview.balance_ratio (overview_of df)))) /\
    doc_get doc ["data_quality"; "quality_status"]
      = Some (PStr (if (sum_counts (isnull_sum df) =? 0)%nat
                    then "EXCELLENT" else "NEEDS_ATTENTION")).
Proof.
  intros H.
  destruct (main_success_artifacts w H)
    as (df & query & cds & path & doc & sm & Q & D & A).
  exists df, query, path, doc.
  split; [exact A | ].
  split.
  { unfold getitem_column in Q.
    destruct (get_column df "query") as [s | ]; [ | discriminate Q].
    injection Q as ->. reflexivity. }
  destruct (document_length_distribution _ _ _ _ _ _ _ _ _ D)
    as (S & M & L & B & T).
  destruct (document_quality_status _ _ _ _ _ _ _ _ D) as [_ QS].
  split; [exact T | ]. split; [exact S | ]. split; [exact M | ].
  split; [exact L | ]. split; [exact B | exact QS].
Qed.

(** ** What [show_sample_queries] prints *)

Lemma printed_map_Print (lines : list string) :
  printed (map Print lines) = lines.
Proof.
  induction lines as [ | s rest IH]; [reflexivity | ].
  simpl. f_equal. exact IH.
Qed.

Lemma io_for_each_lines {A : Type} (l : list A) (body : A -> io unit)
    (g : A -> list string) :
  (forall x, body x = (map Print (g x), Ok tt)) ->
  io_for_each l body = (map Print (flat_map g l), Ok tt).
Proof.
  intros H. induction l as [ | x rest IH]; [reflexivity | ].
  simpl. rewrite H, IH. simpl. rewrite map_app. reflexivity.
Qed.

(** What the loop over the samples prints: three lines for each sample,
    the second one the preview of its text. *)
Lemma print_samples_output (samples : list scalar) :
  print_samples samples =
    (map Print
       (flat_map
          (fun iq : nat * scalar =>
             ["  " ++ str_nat (fst iq) ++ ". Length: "
                ++ str_nat (String.length (py_str (snd iq))) ++ " chars";
              "     Query: " ++ display_query (py_str (snd iq));
              ""])
          (enumerate1 samples)),
     Ok tt).
Proof.
  unfold print_samples. apply io_for_each_lines.
  intros [i query]. reflexivity.
Qed.

Lemma show_sample_queries_unlabelled (df : DataFrame) (query : series_data)
    (n_samples : nat) :
  has_column df "label" = false ->
  get_column df "query" = Some query ->
  show_sample_queries df n_samples =
    (map Print
       ([nl ++ " SAMPLE QUERIES"; replicate 80 "="%char;
         nl ++ " RANDOM QUERY SAMPLES:"; replicate 60 "-"%char] +++
        flat_map
          (fun iq : nat * scalar =>
             ["  " ++ str_nat (fst iq) ++ ". Length: "
                ++ str_nat (String.length (py_str (snd iq))) ++ " chars";
              "     Query: " ++ display_query (py_str (snd iq));
              ""])
          (enumerate1 (firstn n_samples (values query)))),
     Ok tt).
Proof.
  intros HL GQ. unfold show_sample_queries, getitem_column.
  rewrite HL, GQ, !io_bind_print. cbn [io_lift io_bind app].
  rewrite print_samples_output. reflexivity.
Qed.

Lemma show_sample_queries_labelled (df : DataFrame)
    (label query : series_data) (labels : list scalar) (n_samples : nat) :
  get_column df "label" = Some label ->
  get_column df "query" = Some query ->
  sorted (unique (values label)) = Ok labels ->
  show_sample_queries df n_samples =
    (map Print
       ([nl ++ " SAMPLE QUERIES"; replicate 80 "="%char] +++
        flat_map
          (fun l : scalar =>
             [nl ++ "🔹 "
                ++ (if eq_zero l then "NORMAL/SAFE QUERIES"
                    else "MALICIOUS QUERIES")
                ++ " (Label=" ++ py_str l ++ "):";
              replicate 60 "-"%char] +++
             flat_map
               (fun iq : nat * scalar =>
                  ["  " ++ str_nat (fst iq) ++ ". Length: "
                     ++ str_nat (String.length (py_str (snd iq)))
                     ++ " chars";
                   "     Query: " ++ display_query (py_str (snd iq));
                   ""])
               (enumerate1
                  (firstn n_samples
                     (select (map (fun v => py_eq v l) (values label))
                             (values query)))))
          labels),
     Ok tt).
Proof.
  intros GL GQ S. unfold show_sample_queries, getitem_column.
  assert (HL : has_column df "label" = true)
    by (apply get_column_has_column; exists label; exact GL).
  rewrite HL, GL, GQ, !io_bind_print. cbn [fst snd io_lift io_bind app].
  rewrite S. cbn [io_bind app].
  rewrite (io_for_each_lines labels _
             (fun l : scalar =>
                [nl ++ "🔹 "
                   ++ (if eq_zero l then "NORMAL/SAFE QUERIES"
                       else "MALICIOUS QUERIES")
                   ++ " (Label=" ++ py_str l ++ "):";
                 replicate 60 "-"%char] +++
                flat_map
                  (fun iq : nat * scalar =>
                     ["  " ++ str_nat (fst iq) ++ ". Length: "
                        ++ str_nat (String.length (py_str (snd iq)))
                        ++ " chars";
                      "     Query: " ++ display_query (py_str (snd iq));
                      ""])
                  (enumerate1
                     (firstn n_samples
                        (select (map (fun v => py_eq v l) (values label))
                                (values query)))))).
  - reflexivity.
  - intros l. rewrite !io_bind_print. cbn [io_lift io_bind app].
    rewrite print_samples_output. reflexivity.
Qed.

(** C6. In the sample display a text longer than 200 characters is shown as
    its first 200 characters followed by the marker "...", and a text of at
    most 200 characters is shown as it is; so a text of length 250 becomes
    200 characters and the marker, and a text of length 150 is unchanged.
    This holds of every text [show_sample_queries] shows: with a "label"
    column it prints, for each class in sorted order, the first
    [n_samples] texts of the class in row order, and without one the first
    [n_samples] texts of the table; each sample takes a line with its
    number and length, the line "     Query: " with the preview, and an
    empty line. *)
Theorem sample_display_truncates_at_200 (df : DataFrame)
    (query : series_data) (n_samples : nat) :
  get_column df "query" = Some query ->
  let shown := fun s : string =>
    if (200 <? String.length s)%nat then substring 0 200 s ++ "..."
    else s in
  let sample_lines := fun samples : list scalar =>
    flat_map
      (fun iq : nat * scalar =>
         ["  " ++ str_nat (fst iq) ++ ". Length: "
            ++ str_nat (String.length (py_str (snd iq))) ++ " chars";
          "     Query: " ++ shown (py_str (snd iq));
          ""])
      (enumerate1 samples) in
  (forall label labels,
     get_column df "label" = Some label ->
     sorted (unique (values label)) = Ok labels ->
     snd (show_sample_queries df n_samples) = Ok tt /\
     printed (fst (show_sample_queries df n_samples)) =
       [nl ++ " SAMPLE QUERIES"; replicate 80 "="%char] +++
       flat_map
         (fun l : scalar =>
            [nl ++ "🔹 "
               ++ (if eq_zero l then "NORMAL/SAFE QUERIES"
                   else "MALICIOUS QUERIES")
               ++ " (Label=" ++ py_str l ++ "):";
             replicate 60 "-"%char] +++
            sample_lines
              (firstn n_samples
                 (select (map (fun v => py_eq v l) (values label))
                         (values query))))
         labels) /\
  (has_column df "label" = false ->
   snd (show_sample_queries df n_samples) = Ok tt /\
   printed (fst (show_sample_queries df n_samples)) =
     [nl ++ " SAMPLE QUERIES"; replicate 80 "="%char;
      nl ++ " RANDOM QUERY SAMPLES:"; replicate 60 "-"%char] +++
     sample_lines (firstn n_samples (values query))) /\
  (forall s, 200 < String.length s ->
     shown s = substring 0 200 s ++ "..." /\
     String.length (substring 0 200 s) = 200 /\
     (exists rest, s = substring 0 200 s ++ rest) /\
     String.length (shown s) = 203) /\
  (forall s, String.length s <= 200 -> shown s = s) /\
  (forall s, String.length s = 250 ->
     shown s = substring 0 200 s ++ "..." /\
     String.length (shown s) = 203) /\
  (forall s, String.length s = 150 -> shown s = s).
Proof.
  intros GQ shown sample_lines.
  assert (Long : forall s, 200 < String.length s ->
                 shown s = substring 0 200 s ++ "..." /\
                 String.length (substring 0 200 s) = 200 /\
                 (exists rest, s = substring 0 200 s ++ rest) /\
                 String.length (shown s) = 203).
  { intros s L.
    destruct (substring_prefix 200 s) as [Hlen Hrest]; [lia | ].
    change (shown s) with (display_query s).
    rewrite (display_query_long s L).
    split; [reflexivity | ]. split; [exact Hlen | ]. split; [exact Hrest | ].
    rewrite string_length_append, Hlen. reflexivity. }
  split; [ | split; [ | split; [exact Long | split; [ | split]]]].
  - intros label labels GL S.
    rewrite (show_sample_queries_labelled df label query labels n_samples
               GL GQ S).
    cbn [fst snd]. rewrite printed_map_Print.
    split; reflexivity.
  - intros HL.
    rewrite (show_sample_queries_unlabelled df query n_samples HL GQ).
    cbn [fst snd]. rewrite printed_map_Print.
    split; reflexivity.
  - intros s L. exact (display_query_short s L).
  - intros s E. destruct (Long s) as [D [_ [_ N]]]; [lia | ].
    split; assumption.
  - intros s E. apply (display_query_short s). lia.
Qed.

(** * Further properties of the loader, the overview and the driver *)

(** ** The loader: which errors leave it, and what it does to the table *)

Local Opaque _detect_query_column _detect_label_column.

(** A call that returns a table has found the file, parsed it and detected
    both columns. *)
Lemma load_success_inversion (self : DatasetLoader) (fs : FileSystem)
    (filename : option string) (auto_detect : bool) (df' : DataFrame) :
  snd (load_sql_injection_dataset self fs filename auto_detect)
    = Ok (Some df') ->
  exists raw f df query_col label_col,
    raw_data_path self = PStr raw /\
    chosen_filename fs raw filename auto_detect = Some f /\
    path_exists fs (path_join raw f) = true /\
    read_csv fs (path_join raw f) = Ok df /\
    detect_columns df = Ok (query_col, label_col) /\
    df' = standardized df query_col label_col.
Proof.
  intros H.
  destruct (raw_data_path self) as [ | | | | raw | | | | | ] eqn:Hraw;
    try (unfold load_sql_injection_dataset in H; rewrite Hraw in H;
         destruct filename as [name0 | ]; [ | destruct auto_detect];
         simpl in H; discriminate H).
  destruct (chosen_filename fs raw filename auto_detect) as [f | ] eqn:Hf.
  - destruct (path_exists fs (path_join raw f)) eqn:Hex.
    + destruct (load_resolved self fs filename auto_detect raw f Hraw Hf Hex)
        as [prefix Hload].
      rewrite Hload in H.
      destruct (read_csv fs (path_join raw f)) as [df | e] eqn:Hread;
        [ | discriminate H].
      destruct (detect_columns df) as [[q l] | e] eqn:Hdet;
        [ | discriminate H].
      simpl in H. injection H as <-.
      exists raw, f, df, q, l. repeat (split; [assumption || reflexivity | ]).
      reflexivity.
    + exfalso. unfold load_sql_injection_dataset, chosen_filename in *.
      rewrite Hraw in H.
      destruct filename as [f0 | ].
      * injection Hf as ->. simpl in H. rewrite Hex in H. discriminate H.
      * destruct auto_detect; [ | discriminate Hf].
        simpl in H.
        destruct (glob_csv fs raw) as [ | first rest]; [discriminate Hf | ].
        injection Hf as ->. simpl in H. rewrite Hex in H. discriminate H.
  - exfalso. unfold load_sql_injection_dataset, chosen_filename in *.
    rewrite Hraw in H.
    destruct filename as [f0 | ]; [discriminate Hf | ].
    destruct auto_detect; [ | discriminate H].
    simpl in H. destruct (glob_csv fs raw); [discriminate H | discriminate Hf].
Qed.

(** X1. With a string for the raw-data path, [load_sql_injection_dataset]
    raises a Not-Found error in exactly two cases: no file name was given,
    auto-detection is on and the directory lists no CSV (the message names
    "data/raw/" whatever the configured directory is); or the file it
    settled on does not exist (the message gives its path). *)
Theorem load_not_found_cases (self : DatasetLoader) (fs : FileSystem)
    (filename : option string) (auto_detect : bool) (raw m : string) :
  raw_data_path self = PStr raw ->
  snd (load_sql_injection_dataset self fs filename auto_detect)
    = Raise (FileNotFoundError m) <->
  (filename = None /\ auto_detect = true /\ glob_csv fs raw = [] /\
   m = "No CSV files found in data/raw/ directory") \/
  (exists f, chosen_filename fs raw filename auto_detect = Some f /\
             path_exists fs (path_join raw f) = false /\
             m = "Dataset not found at: " ++ path_join raw f).
Proof.
  intros Hraw.
  destruct (chosen_filename fs raw filename auto_detect) as [f | ] eqn:Hf.
  - destruct (path_exists fs (path_join raw f)) eqn:Hex.
    + destruct (load_resolved self fs filename auto_detect raw f Hraw Hf Hex)
        as [prefix Hload].
      rewrite Hload. split.
      * destruct (read_csv fs (path_join raw f)) as [df | e];
          [destruct (detect_columns df) as [[q l] | e] | ]; discriminate.
      * intros [(-> & -> & G & _) | (f' & E & Hex' & _)].
        -- unfold chosen_filename in Hf. rewrite G in Hf. discriminate Hf.
        -- injection E as <-. rewrite Hex in Hex'. discriminate Hex'.
    + assert (L : snd (load_sql_injection_dataset self fs filename auto_detect)
                  = Raise (FileNotFoundError
                             ("Dataset not found at: " ++ path_join raw f))).
      { unfold load_sql_injection_dataset, chosen_filename in *.
        rewrite Hraw. destruct filename as [f0 | ].
        - injection Hf as ->. simpl. rewrite Hex. reflexivity.
        - destruct auto_detect; [ | discriminate Hf]. simpl.
          destruct (glob_csv fs raw) as [ | first rest]; [discriminate Hf | ].
          injection Hf as ->. simpl. rewrite Hex. reflexivity. }
      rewrite L. split.
      * intros E. injection E as <-. right. exists f. auto.
      * intros [(-> & -> & G & _) | (f' & E & _ & ->)].
        -- unfold chosen_filename in Hf. rewrite G in Hf. discriminate Hf.
        -- injection E as <-. reflexivity.
  - unfold chosen_filename in Hf.
    destruct filename as [f0 | ]; [discriminate Hf | ].
    unfold load_sql_injection_dataset. rewrite Hraw.
    destruct auto_detect.
    + simpl. destruct (glob_csv fs raw) as [ | first rest] eqn:G;
        [ | discriminate Hf].
      simpl. split.
      * intros E. injection E as <-. left. auto.
      * intros [(_ & _ & _ & ->) | (f' & E & _)];
          [reflexivity | discriminate E].
    + simpl. split; [discriminate | ].
      intros [(_ & E & _) | (f' & E & _)]; discriminate E.
Qed.

(** X2. Once the file it settled on exists, the loader raises nothing: it
    returns a table or the null result, and the null result exactly when
    parsing the CSV raised or a column could not be detected. *)
Theorem load_of_existing_file_returns (self : DatasetLoader)
    (fs : FileSystem) (filename : option string) (auto_detect : bool)
    (raw f : string) :
  raw_data_path self = PStr raw ->
  chosen_filename fs raw filename auto_detect = Some f ->
  path_exists fs (path_join raw f) = true ->
  exists returned,
    snd (load_sql_injection_dataset self fs filename auto_detect)
      = Ok returned /\
    (returned = None <->
     (exists e, read_csv fs (path_join raw f) = Raise e) \/
     (exists df e, read_csv fs (path_join raw f) = Ok df /\
                   detect_columns df = Raise e)).
Proof.
  intros Hraw Hf Hex.
  destruct (load_resolved self fs filename auto_detect raw f Hraw Hf Hex)
    as [prefix Hload].
  rewrite Hload.
  destruct (read_csv fs (path_join raw f)) as [df | e].
  - destruct (detect_columns df) as [[q l] | e] eqn:Hdet.
    + eexists. split; [reflexivity | ]. split; [discriminate | ].
      intros [[e E] | (df0 & e & E & D)]; [discriminate E | ].
      injection E as <-. rewrite Hdet in D. discriminate D.
    + exists None. split; [reflexivity | ]. split; [ | reflexivity].
      intros _. right. exists df, e. split; [reflexivity | exact Hdet].
  - exists None. split; [reflexivity | ]. split; [ | reflexivity].
    intros _. left. exists e. reflexivity.
Qed.

Lemma wf_frame_rename (df : DataFrame) (old new : string) :
  wf_frame (rename df old new) = wf_frame df.
Proof.
  unfold wf_frame, rename. simpl.
  induction (columns df) as [ | c rest IH]; [reflexivity | ].
  simpl. rewrite IH.
  destruct (String.eqb (name c) old); reflexivity.
Qed.

Lemma standardized_keeps_data (df : DataFrame) (q l : string) :
  index_len (standardized df q l) = index_len df /\
  map data (columns (standardized df q l)) = map data (columns df) /\
  wf_frame (standardized df q l) = wf_frame df.
Proof.
  unfold standardized.
  destruct (negb (String.eqb q "query")), (negb (String.eqb l "label"));
    rewrite ?data_rename, ?wf_frame_rename; auto.
Qed.

(** X3. Standardising the column names changes nothing else: the table the
    loader returns has the rows, the column data in the same order and the
    well-formedness of the table [read_csv] produced. *)
Theorem load_only_renames (self : DatasetLoader) (fs : FileSystem)
    (filename : option string) (auto_detect : bool) (df' : DataFrame) :
  snd (load_sql_injection_dataset self fs filename auto_detect)
    = Ok (Some df') ->
  exists path df,
    read_csv fs path = Ok df /\
    index_len df' = index_len df /\
    map data (columns df') = map data (columns df) /\
    List.length (columns df') = List.length (columns df) /\
    wf_frame df' = wf_frame df.
Proof.
  intros H.
  destruct (load_success_inversion self fs filename auto_detect df' H)
    as (raw & f & df & q & l & _ & _ & _ & Hread & _ & ->).
  exists (path_join raw f), df.
  destruct (standardized_keeps_data df q l) as (I & D & W).
  split; [exact Hread | ]. split; [exact I | ]. split; [exact D | ].
  split; [ | exact W].
  rewrite <- (length_map data (columns (standardized df q l))), D.
  apply length_map.
Qed.

Local Transparent _detect_query_column _detect_label_column.

(** ** Column detection: what it can return *)

Lemma has_column_In (df : DataFrame) (c : string) :
  has_column df c = true <-> In c (column_names df).
Proof.
  unfold has_column. rewrite existsb_exists. split.
  - intros (x & I & E). apply String.eqb_eq in E. subst x. exact I.
  - intros I. exists c. split; [exact I | apply String.eqb_refl].
Qed.

Lemma no_candidate_forallb (df : DataFrame) (candidates : list string) :
  find (has_column df) candidates = None ->
  forallb (fun n => negb (has_column df n)) candidates = true.
Proof.
  intros F. apply forallb_forall. intros n I.
  rewrite (find_none _ _ F n I). reflexivity.
Qed.

Lemma object_columns_are_columns (df : DataFrame) (c : string) :
  In c (object_columns df) -> has_column df c = true.
Proof.
  unfold object_columns. intros I. apply has_column_In.
  apply in_map_iff in I. destruct I as (col & <- & I).
  apply filter_In in I. destruct I as [I _].
  exact (in_map name _ _ I).
Qed.

(** X4. The text column [_detect_query_column] returns is always a column
    of the table: either one of the candidate names, or, when the table has
    none of them, its first column of object type.  It raises only when the
    table has no candidate name and no object column at all, and then with
    the ValueError "Could not detect query column". *)
Theorem detected_query_column_is_a_column (df : DataFrame) :
  (forall c, _detect_query_column df = Ok c ->
     has_column df c = true /\
     (In c possible_query_names \/
      (forallb (fun n => negb (has_column df n)) possible_query_names = true
       /\ hd_error (object_columns df) = Some c))) /\
  (forall e, _detect_query_column df = Raise e ->
     e = ValueError "Could not detect query column" /\
     forallb (fun n => negb (has_column df n)) possible_query_names = true /\
     object_columns df = []).
Proof.
  unfold _detect_query_column.
  destruct (find (has_column df) possible_query_names) as [c0 | ] eqn:F.
  - split; [ | discriminate].
    intros c E. injection E as <-.
    apply find_some in F. destruct F as [I H].
    split; [exact H | left; exact I].
  - pose proof (no_candidate_forallb df _ F) as N.
    destruct (object_columns df) as [ | c0 rest] eqn:O.
    + split; [discriminate | ].
      intros e E. injection E as <-. auto.
    + split; [ | discriminate].
      intros c E. injection E as <-. split.
      * apply object_columns_are_columns. rewrite O. left. reflexivity.
      * right. split; [exact N | reflexivity].
Qed.

Lemma find_filter_some {A : Type} (p q : A -> bool) (l : list A) (x : A) :
  find p (filter q l) = Some x -> In x l /\ q x = true /\ p x = true.
Proof.
  intros F. apply find_some in F. destruct F as [I P].
  apply filter_In in I. destruct I as [I Q]. auto.
Qed.

Lemma find_filter_none {A : Type} (p q : A -> bool) (l : list A) :
  find p (filter q l) = None ->
  forall x, In x l -> q x && p x = false.
Proof.
  intros F x I. destruct (q x) eqn:Q; [ | reflexivity].
  simpl. apply (find_none _ _ F). apply filter_In. auto.
Qed.

(** X5. The label column [_detect_label_column] returns is always a column
    of the table: one of the candidate names, or, when the table has none of
    them, an int64 or float64 column with exactly two distinct values that
    are not missing.  It raises only when the table has no candidate name
    and no such column: columns of bool or object type are never taken. *)
Theorem detected_label_column_is_a_column (df : DataFrame) :
  (forall c, _detect_label_column df = Ok c ->
     has_column df c = true /\
     (In c possible_label_names \/
      (forallb (fun n => negb (has_column df n)) possible_label_names = true
       /\ exists col, In col (columns df) /\ name col = c /\
                      binary_numeric col = true))) /\
  (forall e, _detect_label_column df = Raise e ->
     e = ValueError "Could not detect label column" /\
     forallb (fun n => negb (has_column df n)) possible_label_names = true /\
     forall col, In col (columns df) -> binary_numeric col = false).
Proof.
  unfold _detect_label_column.
  destruct (find (has_column df) possible_label_names) as [c0 | ] eqn:F.
  - split; [ | discriminate].
    intros c E. injection E as <-.
    apply find_some in F. destruct F as [I H].
    split; [exact H | left; exact I].
  - pose proof (no_candidate_forallb df _ F) as N.
    unfold numeric_columns.
    destruct (find _ (filter _ (columns df))) as [col | ] eqn:G.
    + split; [ | discriminate].
      intros c E. injection E as <-.
      apply find_filter_some in G. destruct G as (I & Q & P).
      split.
      * apply has_column_In. exact (in_map name _ _ I).
      * right. split; [exact N | ]. exists col.
        split; [exact I | ]. split; [reflexivity | ].
        unfold binary_numeric.
        destruct (series_dtype (data col)); try discriminate Q; exact P.
    + split; [discriminate | ].
      intros e E. injection E as <-.
      split; [reflexivity | ]. split; [exact N | ].
      intros col I. pose proof (find_filter_none _ _ _ G col I) as B.
      unfold binary_numeric. cbv beta in B.
      destruct (series_dtype (data col)); cbn [andb] in B;
        first [exact B | reflexivity].
Qed.

(** ** Standardised names *)

Lemma detect_query_has_column (df : DataFrame) (c : string) :
  _detect_query_column df = Ok c -> has_column df c = true.
Proof.
  unfold _detect_query_column.
  destruct (find (has_column df) possible_query_names) as [c0 | ] eqn:F.
  - intros E. injection E as <-. apply find_some in F. apply F.
  - destruct (object_columns df) as [ | c0 rest] eqn:O; [discriminate | ].
    intros E. injection E as <-.
    apply object_columns_are_columns. rewrite O. left. reflexivity.
Qed.

Lemma detect_query_prefers_query (df : DataFrame) :
  has_column df "query" = true -> _detect_query_column df = Ok "query".
Proof.
  intros H. unfold _detect_query_column, possible_query_names.
  cbn [find]. rewrite H. reflexivity.
Qed.

Lemma detect_label_prefers_label (df : DataFrame) :
  has_column df "label" = true -> _detect_label_column df = Ok "label".
Proof.
  intros H. unfold _detect_label_column, possible_label_names.
  cbn [find]. rewrite H. reflexivity.
Qed.

(** X6. A table that already has a column named "query" and a column named
    "label" is returned as it was parsed, whatever the types of those
    columns and whatever other columns it has. *)
Theorem canonical_table_is_returned_unchanged (self : DatasetLoader)
    (fs : FileSystem) (filename : option string) (auto_detect : bool)
    (raw f : string) (df : DataFrame) :
  raw_data_path self = PStr raw ->
  chosen_filename fs raw filename auto_detect = Some f ->
  path_exists fs (path_join raw f) = true ->
  read_csv fs (path_join raw f) = Ok df ->
  has_column df "query" = true ->
  has_column df "label" = true ->
  snd (load_sql_injection_dataset self fs filename auto_detect)
    = Ok (Some df).
Proof.
  intros Hraw Hf Hex Hread HQ HL.
  destruct (load_resolved self fs filename auto_detect raw f Hraw Hf Hex)
    as [prefix Hload].
  rewrite Hload, Hread. unfold detect_columns.
  rewrite (detect_query_prefers_query df HQ),
          (detect_label_prefers_label df HL).
  reflexivity.
Qed.

Lemma has_column_rename (df : DataFrame) (old new x : string) :
  has_column (rename df old new) x =
  existsb (String.eqb x)
          (map (fun n => if String.eqb n old then new else n)
               (column_names df)).
Proof. unfold has_column. rewrite column_names_rename. reflexivity. Qed.

Lemma has_column_rename_old (df : DataFrame) (old new : string) :
  old <> new -> has_column (rename df old new) old = false.
Proof.
  intros D. rewrite has_column_rename.
  induction (column_names df) as [ | n rest IH]; [reflexivity | ].
  simpl. rewrite IH, orb_false_r.
  destruct (String.eqb_spec n old) as [-> | N].
  - apply String.eqb_neq. exact D.
  - apply String.eqb_neq. intros E. apply N. symmetry. exact E.
Qed.

Lemma has_column_rename_new (df : DataFrame) (old new : string) :
  has_column df old = true -> has_column (rename df old new) new = true.
Proof.
  rewrite has_column_rename. unfold has_column.
  induction (column_names df) as [ | n rest IH]; [discriminate | ].
  simpl. intros H. apply orb_true_iff in H. destruct H as [H | H].
  - apply String.eqb_eq in H. subst n.
    rewrite String.eqb_refl, String.eqb_refl. reflexivity.
  - rewrite (IH H). apply orb_true_r.
Qed.

Lemma has_column_rename_other (df : DataFrame) (old new x : string) :
  x <> old -> x <> new ->
  has_column (rename df old new) x = has_column df x.
Proof.
  intros D1 D2. rewrite has_column_rename. unfold has_column.
  induction (column_names df) as [ | n rest IH]; [reflexivity | ].
  simpl. rewrite IH. f_equal.
  destruct (String.eqb_spec n old) as [-> | N].
  - apply String.eqb_neq in D1, D2. rewrite D1, D2. reflexivity.
  - reflexivity.
Qed.

Lemma rename_absent (df : DataFrame) (old new : string) :
  has_column df old = false ->
  column_names (rename df old new) = column_names df.
Proof.
  rewrite column_names_rename. unfold has_column.
  induction (column_names df) as [ | n rest IH]; [reflexivity | ].
  simpl. intros H. apply orb_false_iff in H. destruct H as [H1 H2].
  rewrite (IH H2). rewrite String.eqb_sym in H1. rewrite H1. reflexivity.
Qed.

Lemma standardized_same_column (df : DataFrame) (c : string) :
  has_column df c = true ->
  (c <> "label" -> has_column df "label" = false) ->
  (c <> "query" ->
   has_column (standardized df c c) "query" = true /\
   has_column (standardized df c c) "label" = false) /\
  (c = "query" ->
   has_column (standardized df c c) "query" = false /\
   has_column (standardized df c c) "label" = true).
Proof.
  intros Hc Hl. unfold standardized. split.
  - intros NQ.
    rewrite (proj2 (String.eqb_neq c "query") NQ). cbn [negb].
    destruct (String.eqb_spec c "label") as [-> | NL]; cbn [negb].
    + split; [apply has_column_rename_new; exact Hc | ].
      apply has_column_rename_old. discriminate.
    + assert (A : has_column (rename df c "query") c = false)
        by (apply has_column_rename_old; exact NQ).
      unfold has_column at 1 2.
      rewrite (rename_absent (rename df c "query") c "label" A).
      fold (has_column (rename df c "query") "query").
      fold (has_column (rename df c "query") "label").
      split; [apply has_column_rename_new; exact Hc | ].
      rewrite has_column_rename_other.
      * exact (Hl NL).
      * intros E. apply NL. symmetry. exact E.
      * discriminate.
  - intros ->. cbn [String.eqb negb]. simpl.
    split; [apply has_column_rename_old; discriminate | ].
    apply has_column_rename_new. exact Hc.
Qed.

(** X7. When detection settles on one and the same column for the text
    and for the label (a column of object type that carries a label
    candidate name, or a two-valued numeric column named "query"), the
    loader still returns a table, but one with only one canonical column:
    "query" without "label", or, when that column is named "query",
    "label" without "query". *)
Theorem one_column_for_text_and_label (self : DatasetLoader)
    (fs : FileSystem) (filename : option string) (auto_detect : bool)
    (raw f c : string) (df : DataFrame) :
  raw_data_path self = PStr raw ->
  chosen_filename fs raw filename auto_detect = Some f ->
  path_exists fs (path_join raw f) = true ->
  read_csv fs (path_join raw f) = Ok df ->
  detect_columns df = Ok (c, c) ->
  exists df',
    snd (load_sql_injection_dataset self fs filename auto_detect)
      = Ok (Some df') /\
    (c <> "query" ->
     has_column df' "query" = true /\ has_column df' "label" = false) /\
    (c = "query" ->
     has_column df' "query" = false /\ has_column df' "label" = true).
Proof.
  intros Hraw Hf Hex Hread Hdet.
  destruct (load_resolved self fs filename auto_detect raw f Hraw Hf Hex)
    as [prefix Hload].
  rewrite Hread, Hdet in Hload.
  exists (standardized df c c).
  split; [rewrite Hload; reflexivity | ].
  unfold detect_columns in Hdet.
  destruct (_detect_query_column df) as [q | e] eqn:Q; [ | discriminate Hdet].
  destruct (_detect_label_column df) as [l | e] eqn:L; [ | discriminate Hdet].
  simpl in Hdet. injection Hdet as -> ->.
  apply standardized_same_column.
  - exact (detect_query_has_column df c Q).
  - intros NL. destruct (has_column df "label") eqn:H; [ | reflexivity].
    rewrite (detect_label_prefers_label df H) in L.
    injection L as <-. contradiction NL. reflexivity.
Qed.

(** ** The overview report *)

Lemma count_null_le (s : series_data) : count_null s <= series_len s.
Proof.
  unfold count_null, series_len.
  induction (values s) as [ | v rest IH]; [apply Nat.le_refl | ].
  simpl. destruct (isnull v); simpl; lia.
Qed.

(** X8. The missing-value table of the report has one entry for every
    column of the table, in column order, and on a table whose columns all
    span the index no entry exceeds the record count. *)
Theorem missing_values_cover_every_column (df : DataFrame) :
  map fst (Overview.missing_values (overview_of df)) = column_names df /\
  (wf_frame df = true ->
   Forall (fun cc => snd cc <= Overview.total_records (overview_of df))
          (Overview.missing_values (overview_of df))).
Proof.
  rewrite overview_of_report.
  change (Overview.missing_values (report_of df)) with (isnull_sum df).
  change (Overview.total_records (report_of df)) with (index_len df).
  unfold isnull_sum, column_names. split.
  - rewrite map_map. reflexivity.
  - intros WF. apply Forall_forall. intros [col n] I.
    apply in_map_iff in I. destruct I as (c & E & I).
    injection E as <- <-. simpl.
    unfold wf_frame in WF.
    pose proof (proj1 (forallb_forall _ _) WF c I) as L.
    apply Nat.eqb_eq in L. rewrite <- L. apply count_null_le.
Qed.

Lemma quality_of_nan : quality S754_nan = "POOR ".
Proof. vm_compute. reflexivity. Qed.

Lemma balance_quality_of_nan : balance_quality (Some S754_nan) = "POOR".
Proof. vm_compute. reflexivity. Qed.

(** X9. A label column without a single value that is not missing gives an
    empty class distribution and the ratio NaN (the largest and the
    smallest count of an empty series are both NaN); [dataset_overview]
    then prints that ratio and the line " Balance Quality: POOR ", and the
    driver assesses "POOR". *)
Theorem labels_all_missing_give_nan_ratio (df : DataFrame)
    (label : series_data) (printed_before : list string) :
  get_column df "label" = Some label ->
  dropna (values label) = [] ->
  let call :=
    dataset_overview {| df_obj := df; console := printed_before |} in
  Overview.class_distribution (fst call) = Some [] /\
  exists ratio,
    Overview.balance_ratio (fst call) = Some ratio /\
    F64.is_nan ratio = true /\
    In (nl ++ " Balance Ratio: " ++ format_fixed 2 ratio ++ ":1")
       (console (snd call)) /\
    In " Balance Quality: POOR " (console (snd call)) /\
    balance_quality (Overview.balance_ratio (fst call)) = "POOR".
Proof.
  intros G D call.
  destruct (dataset_overview_console df) as (lines & R & IL & _).
  pose proof (R {| df_obj := df; console := printed_before |} eq_refl) as E.
  fold call in E. rewrite E. cbn [fst snd console].
  assert (VC : sort_index (value_counts label) = []).
  { unfold value_counts. rewrite D. reflexivity. }
  assert (RN : ratio_of [] = S754_nan) by reflexivity.
  destruct (IL label G) as [I1 I2]. cbv zeta in I1, I2.
  rewrite VC, RN in I1, I2. rewrite quality_of_nan in I2.
  unfold report_of. cbn [Overview.class_distribution Overview.balance_ratio].
  rewrite G. cbn [option_map]. rewrite VC, RN.
  split; [reflexivity | ].
  exists S754_nan.
  split; [reflexivity | ]. split; [reflexivity | ].
  split; [apply in_or_app; right; exact I1 | ].
  split; [apply in_or_app; right; exact I2 | exact balance_quality_of_nan].
Qed.

Lemma fold_min_In (l : list nat) (a : nat) :
  In (fold_left Nat.min l a) (a :: l).
Proof.
  revert a. induction l as [ | x rest IH]; intros a; [left; reflexivity | ].
  simpl. destruct (IH (Nat.min a x)) as [E | I].
  - destruct (Nat.min_spec a x) as [[_ M] | [_ M]];
      [left | right; left]; rewrite <- E; symmetry; exact M.
  - right. right. exact I.
Qed.

Lemma fold_max_In (l : list nat) (a : nat) :
  In (fold_left Nat.max l a) (a :: l).
Proof.
  revert a. induction l as [ | x rest IH]; intros a; [left; reflexivity | ].
  simpl. destruct (IH (Nat.max a x)) as [E | I].
  - destruct (Nat.max_spec a x) as [[_ M] | [_ M]];
      [right; left | left]; rewrite <- E; symmetry; exact M.
  - right. right. exact I.
Qed.

Lemma series_extremes (l : list nat) :
  l <> [] ->
  exists lo hi,
    series_min l = SInt (Z.of_nat lo) /\ series_max l = SInt (Z.of_nat hi) /\
    In lo l /\ In hi l /\ forall n, In n l -> lo <= n <= hi.
Proof.
  destruct l as [ | a rest]; [intros N; contradiction N; reflexivity | ].
  intros _.
  exists (fold_left Nat.min rest a), (fold_left Nat.max rest a).
  split; [reflexivity | ]. split; [reflexivity | ].
  split; [apply fold_min_In | ]. split; [apply fold_max_In | ].
  intros n I.
  destruct (fold_min_le rest a) as [La Lx].
  destruct (fold_max_ge rest a) as [Ha Hx].
  destruct I as [<- | I].
  - split; [exact La | exact Ha].
  - split; [exact (Lx n I) | exact (Hx n I)].
Qed.

(** X10. On a table with a "query" column and at least one row, the
    minimum and the maximum length of the report are lengths of texts of
    the table, and every text length lies between them. *)
Theorem length_extremes_are_attained (df : DataFrame) (query : series_data) :
  get_column df "query" = Some query ->
  values query <> [] ->
  exists stats lo hi,
    Overview.query_stats (overview_of df) = Some stats /\
    QueryStats.min_length stats = SInt (Z.of_nat lo) /\
    QueryStats.max_length stats = SInt (Z.of_nat hi) /\
    In lo (str_len query) /\ In hi (str_len query) /\
    forall n, In n (str_len query) -> lo <= n <= hi.
Proof.
  intros G NE.
  assert (NE' : str_len query <> []).
  { unfold str_len. destruct (values query); [contradiction NE; reflexivity | ].
    discriminate. }
  destruct (series_extremes (str_len query) NE')
    as (lo & hi & Hlo & Hhi & Ilo & Ihi & B).
  exists (length_stats (str_len query)), lo, hi.
  rewrite overview_of_report. unfold report_of.
  cbn [Overview.query_stats]. rewrite G.
  split; [reflexivity | ]. split; [exact Hlo | ]. split; [exact Hhi | ].
  split; [exact Ilo | ]. split; [exact Ihi | exact B].
Qed.

(** ** [safe_get] *)

(** X11. [safe_get] answers the value the key is bound to, whatever that
    value is ([None] included: the default does not replace it), and the
    default when the key is not bound or the object is not a dictionary. *)
Theorem safe_get_returns_what_is_bound (key : string) (default : pyobj) :
  (forall items kv,
     find (fun kv => scalar_eqb (fst kv) (SStr key)) items = Some kv ->
     safe_get (PDict items) key default = snd kv) /\
  (forall items,
     find (fun kv => scalar_eqb (fst kv) (SStr key)) items = None ->
     safe_get (PDict items) key default = default) /\
  (forall d, (forall items, d <> PDict items) ->
     safe_get d key default = default).
Proof.
  split; [ | split].
  - intros items kv F. unfold safe_get.
    destruct items as [ | item rest]; [discriminate F | ].
    cbn [truthy_obj dict_get]. rewrite F. reflexivity.
  - intros items F. unfold safe_get.
    destruct items as [ | item rest]; [reflexivity | ].
    cbn [truthy_obj dict_get]. rewrite F. reflexivity.
  - intros d N. unfold safe_get.
    destruct d; try (destruct (truthy_obj _); reflexivity).
    contradiction (N items). reflexivity.
Qed.

(** ** [save_overview_report] *)

Lemma save_overview_report_cases (self : DatasetLoader)
    (overview_data : pyobj) (filename : string) :
  (exists dir,
     (paths <- getitem (config self) "data_paths" ;;
      getitem paths "reports")%py = Ok (PStr dir) /\
     dir <> "" /\
     save_overview_report self overview_data filename =
       ([MakeDirs dir;
         WriteFile (path_join dir filename) (json_dumps overview_data);
         Print (nl ++ " Overview report saved to: "
                  ++ path_join dir filename)],
        Ok (path_join dir filename))) \/
  (exists e, save_overview_report self overview_data filename = ([], Raise e)).
Proof.
  unfold save_overview_report.
  destruct (rbind (getitem (config self) "data_paths") _)
    as [reports | e]; [ | right; exists e; reflexivity].
  cbn [io_lift io_bind app].
  destruct reports;
    try (right; eexists; reflexivity).
  cbn [as_path io_lift io_bind app].
  destruct (String.eqb_spec s "") as [-> | NE].
  - right. eexists. reflexivity.
  - left. exists s. split; [reflexivity | ]. split; [exact NE | ].
    reflexivity.
Qed.

(** X12. When [save_overview_report] returns, the configuration names a
    reports directory that is a string and not empty, the path returned is
    that directory joined with the file name, and the call has created the
    directory, written the serialised overview to that path and printed
    the path, in this order.  When the configuration names no such
    directory (the key is missing, or its value is not a string or is
    empty), the call raises before it has touched the file system or
    printed anything. *)
Theorem save_overview_report_effects (self : DatasetLoader)
    (overview_data : pyobj) (filename : string) :
  (forall path,
     snd (save_overview_report self overview_data filename) = Ok path ->
     exists dir,
       (paths <- getitem (config self) "data_paths" ;;
        getitem paths "reports")%py = Ok (PStr dir) /\
       dir <> "" /\
       path = path_join dir filename /\
       fst (save_overview_report self overview_data filename) =
         [MakeDirs dir;
          WriteFile path (json_dumps overview_data);
          Print (nl ++ " Overview report saved to: " ++ path)]) /\
  ((forall dir,
      (paths <- getitem (config self) "data_paths" ;;
       getitem paths "reports")%py = Ok (PStr dir) -> dir = "") ->
   exists e, save_overview_report self overview_data filename = ([], Raise e)).
Proof.
  destruct (save_overview_report_cases self overview_data filename)
    as [(dir & G & NE & S) | [e R]].
  - split.
    + intros path E. rewrite S in E |- *. cbn [fst snd] in E |- *.
      injection E as <-. exists dir.
      split; [exact G | ]. split; [exact NE | ]. split; reflexivity.
    + intros H. contradiction (NE (H dir G)).
  - split.
    + intros path E. rewrite R in E. discriminate E.
    + intros _. exists e. exact R.
Qed.

(** ** What the complete results document needs *)

Lemma safe_get_memory_usage (o : Overview.t) (default : pyobj) :
  safe_get (overview_dict o) "memory_usage_mb" default
    = PNpFloat (Overview.memory_usage_mb o).
Proof. reflexivity. Qed.

Lemma safe_get_balance_ratio (o : Overview.t) (default : pyobj) :
  safe_get (overview_dict o) "balance_ratio" default
    = opt_obj PNpFloat (Overview.balance_ratio o).
Proof. reflexivity. Qed.

Lemma get_column_absent (df : DataFrame) (col : string) :
  has_column df col = false -> get_column df col = None.
Proof.
  intros H. destruct (get_column df col) as [s | ] eqn:G; [ | reflexivity].
  assert (T : has_column df col = true)
    by (apply get_column_has_column; exists s; exact G).
  rewrite T in H. discriminate H.
Qed.

Lemma document_without_label (df : DataFrame) (query_lengths : list nat)
    (query_stats_safe : QueryStats.t)
    (class_detailed_stats : list (string * pyobj))
    (balance : string * string) (overview_report_path : string) :
  has_column df "label" = false ->
  complete_task2_results df (overview_dict (overview_of df)) query_lengths
    query_stats_safe class_detailed_stats balance overview_report_path
    = Raise (TypeError "type NoneType doesn't define __round__ method").
Proof.
  intros H. unfold complete_task2_results.
  destruct balance as [balance_quality quality_description].
  rewrite !safe_get_memory_usage, !safe_get_balance_ratio.
  rewrite overview_of_report.
  assert (B : Overview.balance_ratio (report_of df) = None).
  { unfold report_of. cbn [Overview.balance_ratio].
    rewrite (get_column_absent df "label" H). reflexivity. }
  rewrite !B. reflexivity.
Qed.

Lemma document_without_rows (df : DataFrame) (label : series_data)
    (class_detailed_stats : list (string * pyobj))
    (balance : string * string) (overview_report_path : string) :
  get_column df "label" = Some label ->
  complete_task2_results df (overview_dict (overview_of df)) []
    (length_stats []) class_detailed_stats balance overview_report_path
    = Raise (ValueError "cannot convert float NaN to integer").
Proof.
  intros G. unfold complete_task2_results.
  destruct balance as [balance_quality quality_description].
  rewrite !safe_get_memory_usage, !safe_get_balance_ratio.
  rewrite overview_of_report.
  assert (B : Overview.balance_ratio (report_of df)
              = Some (ratio_of (sort_index (value_counts label)))).
  { unfold report_of. cbn [Overview.balance_ratio].
    rewrite G. reflexivity. }
  rewrite !B. reflexivity.
Qed.

(** X13. The complete results document cannot be built for a table without
    a "label" column: the overview binds 'balance_ratio' to [None],
    [safe_get] hands that [None] on, and rounding it is a TypeError.  Nor
    can it be built for a labelled table without rows: the minimum of the
    empty length series is NaN, and its conversion to an integer is a
    ValueError. *)
Theorem document_needs_labels_and_rows (df : DataFrame)
    (class_detailed_stats : list (string * pyobj))
    (balance : string * string) (overview_report_path : string) :
  (has_column df "label" = false ->
   forall query_lengths query_stats_safe,
     complete_task2_results df (overview_dict (overview_of df)) query_lengths
       query_stats_safe class_detailed_stats balance overview_report_path
       = Raise (TypeError "type NoneType doesn't define __round__ method")) /\
  (has_column df "label" = true ->
   forall query,
     values query = [] ->
     complete_task2_results df (overview_dict (overview_of df))
       (str_len query) (length_stats (str_len query)) class_detailed_stats
       balance overview_report_path
       = Raise (ValueError "cannot convert float NaN to integer")).
Proof.
  split.
  - intros H query_lengths query_stats_safe.
    apply document_without_label. exact H.
  - intros H query E.
    apply get_column_has_column in H. destruct H as [label G].
    unfold str_len. rewrite E. cbn [map].
    exact (document_without_rows df label class_detailed_stats balance
             overview_report_path G).
Qed.

(** ** Classes without rows *)

Lemma select_none (mask : list bool) (vs : list scalar) :
  (forall b, In b mask -> b = false) -> select mask vs = [].
Proof.
  unfold select. revert vs.
  induction mask as [ | b rest IH]; intros vs H; [reflexivity | ].
  destruct vs as [ | v vs']; [reflexivity | ].
  simpl. rewrite (H b (or_introl eq_refl)). simpl.
  apply IH. intros b' I. apply H. right. exact I.
Qed.

Lemma py_eq_nan (v : scalar) : py_eq v (SFloat S754_nan) = false.
Proof. destruct v as [z | f | b | s]; try reflexivity. destruct f; reflexivity. Qed.

Lemma class_entry_without_rows (df : DataFrame) (label query : series_data)
    (l : scalar) :
  get_column df "label" = Some label ->
  get_column df "query" = Some query ->
  (forall v, In v (values label) -> py_eq v l = false) ->
  class_entry df l = Raise (ValueError "cannot convert float NaN to integer").
Proof.
  intros GL GQ H. unfold class_entry, getitem_column.
  rewrite GL, GQ. cbn [rbind].
  rewrite select_none.
  - reflexivity.
  - intros b I. apply in_map_iff in I. destruct I as (v & <- & I).
    exact (H v I).
Qed.

Lemma unique_keeps_nan (vs : list scalar) :
  In (SFloat S754_nan) vs -> In (SFloat S754_nan) (unique vs).
Proof.
  induction vs as [ | v rest IH]; [intros []; fail | ].
  intros I. simpl.
  destruct v as [z | f | b | s];
    try (right; apply filter_In; split;
         [apply IH; destruct I as [E | I]; [discriminate E | exact I]
         | reflexivity]).
  destruct f; try (right; apply filter_In; split;
         [apply IH; destruct I as [E | I]; [discriminate E | exact I]
         | reflexivity]).
  left. reflexivity.
Qed.

(** X14. No per-class entry can be computed for a label that no row
    carries: the length series of the class is empty, its minimum is NaN,
    and the conversion to an integer raises ValueError.  The missing
    marker is such a label whenever it occurs: [unique] keeps it, and it
    equals no cell, itself included. *)
Theorem class_without_rows_cannot_be_summarised (df : DataFrame)
    (label query : series_data) :
  get_column df "label" = Some label ->
  get_column df "query" = Some query ->
  (forall l,
     (forall v, In v (values label) -> py_eq v l = false) ->
     class_entry df l
       = Raise (ValueError "cannot convert float NaN to integer")) /\
  (In (SFloat S754_nan) (values label) ->
   In (SFloat S754_nan) (unique (values label)) /\
   class_entry df (SFloat S754_nan)
     = Raise (ValueError "cannot convert float NaN to integer")).
Proof.
  intros GL GQ. split.
  - intros l H. exact (class_entry_without_rows df label query l GL GQ H).
  - intros I. split; [exact (unique_keeps_nan _ I) | ].
    apply (class_entry_without_rows df label query _ GL GQ).
    intros v _. apply py_eq_nan.
Qed.

Lemma class_entry_of_nan_raises (df : DataFrame) (label : series_data) :
  get_column df "label" = Some label ->
  exists e, class_entry df (SFloat S754_nan) = Raise e.
Proof.
  intros GL. destruct (get_column df "query") as [query | ] eqn:GQ.
  - eexists. apply (class_entry_without_rows df label query _ GL GQ).
    intros v _. apply py_eq_nan.
  - unfold class_entry, getitem_column. rewrite GL, GQ.
    eexists. reflexivity.
Qed.

Lemma class_entries_with_nan (df : DataFrame) (label : series_data)
    (labels : list scalar) (acc : list (string * pyobj)) :
  get_column df "label" = Some label ->
  In (SFloat S754_nan) labels ->
  exists e, class_entries df labels acc = Raise e.
Proof.
  intros GL. revert acc.
  induction labels as [ | l rest IH]; intros acc I; [destruct I | ].
  destruct (class_entry_of_nan_raises df label GL) as [e N].
  simpl. destruct I as [-> | I].
  - rewrite N. exists e. reflexivity.
  - destruct (class_entry df l) as [entry | e']; [ | exists e'; reflexivity].
    cbn [rbind]. apply IH. exact I.
Qed.

(** ** The outcomes of a run *)

Lemma ends_bind {A B : Type} (c : io A) (k : A -> io B)
    (R : list (string * string) -> result B -> Prop) :
  (forall e, snd c = Raise e -> R (written (fst c)) (Raise e)) ->
  (forall a, snd c = Ok a ->
     ends (k a) (fun ws r => R (written (fst c) +++ ws) r)) ->
  ends (io_bind c k) R.
Proof.
  unfold ends. destruct c as [out [a | e]]; simpl; intros HR HO.
  - specialize (HO a eq_refl). destruct (k a) as [out' r]. simpl in *.
    rewrite written_app. exact HO.
  - exact (HR e eq_refl).
Qed.

Lemma ends_silent_bind {A B : Type} (c : io A) (k : A -> io B)
    (R : list (string * string) -> result B -> Prop) :
  silent c ->
  (forall e, snd c = Raise e -> R [] (Raise e)) ->
  (forall a, snd c = Ok a -> ends (k a) R) ->
  ends (io_bind c k) R.
Proof.
  unfold silent. intros S HR HO. apply ends_bind; rewrite S.
  - exact HR.
  - exact HO.
Qed.

Lemma ends_print {B : Type} (s : string) (k : unit -> io B)
    (R : list (string * string) -> result B -> Prop) :
  ends (k tt) R -> ends (io_bind (io_print s) k) R.
Proof.
  intros H. apply ends_silent_bind.
  - apply silent_print.
  - intros e E. discriminate E.
  - intros [] _. exact H.
Qed.

Lemma ends_lift {A B : Type} (r : result A) (k : A -> io B)
    (R : list (string * string) -> result B -> Prop) :
  (forall e, r = Raise e -> R [] (Raise e)) ->
  (forall a, r = Ok a -> ends (k a) R) ->
  ends (io_bind (io_lift r) k) R.
Proof. intros HR HO. apply ends_silent_bind; [apply silent_lift | | ]; assumption. Qed.

Lemma ends_emit {B : Type} (ev : event) (k : unit -> io B)
    (R : list (string * string) -> result B -> Prop) :
  ends (k tt) (fun ws r => R (written [ev] +++ ws) r) ->
  ends (io_bind (emit ev) k) R.
Proof.
  intros H. apply ends_bind.
  - intros e E. discriminate E.
  - intros [] _. exact H.
Qed.

Lemma ends_ret {A : Type} (a : A)
    (R : list (string * string) -> result A -> Prop) :
  R [] (Ok a) -> ends (io_ret a) R.
Proof. intros H. exact H. Qed.

(** What [main] leaves is what the body of its [try] block leaves, with
    every exception turned into the answer [False]. *)
Lemma main_ends (w : World)
    (R : list (string * string) -> result bool -> Prop) :
  ends (main_body w)
       (fun ws r => R ws (match r with Ok b => Ok b | Raise _ => Ok false end)) ->
  ends (main w) R.
Proof.
  unfold ends. destruct (main_artifacts w) as [A E].
  unfold artifacts in A. rewrite A, E. intros H. exact H.
Qed.

Ltac quiet_step :=
  first
    [ apply quiet_ret
    | apply quiet_print
    | eapply quiet_bind;
      [ first
          [ apply quiet_print
          | apply quiet_for_each; intros ?; apply quiet_print
          | destruct (negb _); [apply quiet_print | apply quiet_ret]
          | destruct (Z.eqb _ _); apply quiet_print
          | split; reflexivity ]
      | ] ].

Lemma print_summary_quiet (sm : summary) (short medium long : nat)
    (short_pct medium_pct long_pct : spec_float) :
  sm_lengths sm = ((short, PNpFloat short_pct), (medium, PNpFloat medium_pct),
                   (long, PNpFloat long_pct)) ->
  quiet (print_summary sm) tt.
Proof.
  intros E. unfold print_summary.
  destruct (sm_overall sm) as [[[[average min_length] max_length] median] std].
  rewrite E. repeat quiet_step.
Qed.

(** The console summary of a document that was built cannot fail. *)
Lemma print_summary_built (df : DataFrame) (overview_data : pyobj)
    (query_lengths : list nat) (query_stats_safe : QueryStats.t)
    (class_detailed_stats : list (string * pyobj))
    (balance : string * string) (overview_report_path : string)
    (doc : pyobj) (sm : summary) :
  complete_task2_results df overview_data query_lengths query_stats_safe
    class_detailed_stats balance overview_report_path = Ok (doc, sm) ->
  quiet (print_summary sm) tt.
Proof.
  intros H. unfold complete_task2_results in H.
  destruct balance as [balance_quality quality_description].
  repeat built_step H.
  injection H as _ <-.
  repeat match goal with
         | P : py_round (PNpFloat _) _ = Ok _ |- _ =>
             cbn [py_round] in P; injection P as <-
         end.
  eapply print_summary_quiet. reflexivity.
Qed.

(** Along the body of [main]: the statements that only print. *)
Ltac prints := repeat (apply ends_print; cbv beta).

(** The call of [dataset_overview] inside [main]: it yields the report of
    [df] and leaves [df] as it was. *)
Ltac overview_call df :=
  let V := fresh "V" in
  let F := fresh "F" in
  let overview := fresh "overview" in
  let heap := fresh "heap" in
  destruct (dataset_overview_yields df {| df_obj := df; console := [] |}
              eq_refl) as [V F];
  destruct (dataset_overview {| df_obj := df; console := [] |})
    as [overview heap];
  simpl in V, F; subst overview; rewrite F;
  apply ends_silent_bind;
  [ apply silent_for_each; intros ?; apply silent_print
  | intros ? ?
  | intros _ _ ].

Lemma main_body_outcomes (w : World) :
  ends (main_body w)
       (fun ws r =>
          match r with
          | Ok true => True
          | _ =>
              ws = [] \/
              exists loader df path,
                DatasetLoader_init (config_json w) = Ok loader /\
                snd (load_sql_injection_dataset loader (fs w) None true)
                  = Ok (Some df) /\
                snd (save_overview_report loader
                       (overview_dict (overview_of df))
                       "dataset_overview.json") = Ok path /\
                ws = [(path, json_dumps (overview_dict (overview_of df)))]
          end).
Proof.
  unfold main_body. prints.
  apply ends_lift; [intros e _; left; reflexivity | intros loader Hinit].
  prints.
  apply ends_silent_bind;
    [apply load_silent | intros e _; left; reflexivity | intros loaded Hload].
  destruct loaded as [df | ].
  2: { prints. apply ends_ret. left. reflexivity. }
  prints. overview_call df; [left; reflexivity | ].
  prints.
  apply ends_silent_bind;
    [apply show_sample_queries_silent | intros e _; left; reflexivity
    | intros _ _].
  prints.
  apply ends_lift; [intros e _; left; reflexivity | intros query Hquery].
  apply ends_lift; [intros e _; left; reflexivity | intros cds Hcds].
  prints.
  apply ends_bind.
  - intros e He.
    destruct (save_overview_report_cases loader
                (overview_dict (report_of df)) "dataset_overview.json")
      as [(dir & _ & _ & S) | [e' S]]; rewrite S in He |- *.
    + discriminate He.
    + left. reflexivity.
  - intros path Hsave.
    rewrite (save_overview_report_success _ _ _ _ Hsave).
    apply ends_lift.
    + intros e _. right. exists loader, df, path.
      rewrite overview_of_report.
      split; [exact Hinit | ]. split; [exact Hload | ].
      split; [exact Hsave | reflexivity].
    + intros [doc sm] Hdoc.
      apply ends_emit. apply ends_emit. cbv beta.
      destruct (print_summary_built _ _ _ _ _ _ _ _ _ Hdoc) as [_ P].
      apply ends_silent_bind; [apply print_summary_silent | | ].
      * intros e He. cbn [snd] in He. rewrite P in He. discriminate He.
      * intros _ _. apply ends_ret. exact I.
Qed.

(** X15. A run of the driver that does not answer [True] has not written
    the complete results document: it has written nothing, or it has
    written one file, the overview report of the table its loader
    returned, at the path [save_overview_report] returned. *)
Theorem failed_run_leaves_at_most_the_overview (w : World) :
  snd (main w) <> Ok true ->
  artifacts w = [] \/
  exists loader df path,
    DatasetLoader_init (config_json w) = Ok loader /\
    snd (load_sql_injection_dataset loader (fs w) None true)
      = Ok (Some df) /\
    snd (save_overview_report loader (overview_dict (overview_of df))
           "dataset_overview.json") = Ok path /\
    artifacts w = [(path, json_dumps (overview_dict (overview_of df)))].
Proof.
  destruct (main_artifacts w) as [A E]. rewrite A, E.
  pose proof (main_body_outcomes w) as O. unfold ends in O.
  destruct (snd (main_body w)) as [[ | ] | e].
  - intros N. contradiction N. reflexivity.
  - intros _. exact O.
  - intros _. exact O.
Qed.

(** X16. When the loader cannot be built from the configuration, or does
    not return a table (the file is missing, cannot be parsed, or its
    columns cannot be identified), the run writes no file and does not
    answer [True]; when the loader returned the null result, the run
    answers [False]. *)
Theorem run_without_a_table_writes_nothing (w : World) :
  (forall loader df,
     DatasetLoader_init (config_json w) = Ok loader ->
     snd (load_sql_injection_dataset loader (fs w) None true)
       <> Ok (Some df)) ->
  artifacts w = [] /\
  snd (main w) <> Ok true /\
  (forall loader,
     DatasetLoader_init (config_json w) = Ok loader ->
     snd (load_sql_injection_dataset loader (fs w) None true) = Ok None ->
     snd (main w) = Ok false).
Proof.
  intros H.
  assert (B : ends (main_body w)
                (fun ws r =>
                   ws = [] /\ r <> Ok true /\
                   forall loader,
                     DatasetLoader_init (config_json w) = Ok loader ->
                     snd (load_sql_injection_dataset loader (fs w) None true)
                       = Ok None ->
                     r = Ok false)).
  { unfold main_body. prints.
    apply ends_lift.
    { intros e He. split; [reflexivity | ]. split; [discriminate | ].
      intros loader E. rewrite He in E. discriminate E. }
    intros loader Hinit. prints.
    apply ends_silent_bind; [apply load_silent | | ].
    { intros e He. split; [reflexivity | ]. split; [discriminate | ].
      intros loader' E L. rewrite Hinit in E. injection E as <-.
      rewrite He in L. discriminate L. }
    intros loaded Hload.
    destruct loaded as [df | ].
    - contradiction (H loader df Hinit Hload).
    - prints. apply ends_ret.
      split; [reflexivity | ]. split; [discriminate | ].
      intros _ _ _. reflexivity. }
  unfold ends in B. destruct B as (W & N & F).
  destruct (main_artifacts w) as [A E]. rewrite A, E.
  split; [exact W | ]. split.
  - destruct (snd (main_body w)) as [b | e]; [exact N | discriminate].
  - intros loader Hinit Hload. rewrite (F loader Hinit Hload). reflexivity.
Qed.

Lemma early_failure (w : World) (loader : DatasetLoader) (df : DataFrame) :
  DatasetLoader_init (config_json w) = Ok loader ->
  snd (load_sql_injection_dataset loader (fs w) None true) = Ok (Some df) ->
  (forall query cds,
     getitem_column df "query" = Ok query ->
     class_detailed_stats_of df = Ok cds -> False) ->
  snd (main w) = Ok false /\ artifacts w = [].
Proof.
  intros Hinit Hload H.
  apply (main_ends w (fun ws r => r = Ok false /\ ws = [])).
  unfold main_body. prints.
  apply ends_lift; [intros e _; split; reflexivity | intros loader' Hinit'].
  rewrite Hinit in Hinit'. injection Hinit' as <-.
  prints.
  apply ends_silent_bind;
    [apply load_silent | intros e _; split; reflexivity
    | intros loaded Hload'].
  rewrite Hload in Hload'. injection Hload' as <-.
  prints. overview_call df; [split; reflexivity | ].
  prints.
  apply ends_silent_bind;
    [apply show_sample_queries_silent | intros e _; split; reflexivity
    | intros _ _].
  prints.
  apply ends_lift; [intros e _; split; reflexivity | intros query Hquery].
  apply ends_lift; [intros e _; split; reflexivity | intros cds Hcds].
  contradiction (H query cds Hquery Hcds).
Qed.

(** X17. A loaded table without a "query" column (the loader returns one
    when detection takes the column named "query" for the label) stops the
    run before anything is written: the answer is [False]. *)
Theorem table_without_query_column_stops_the_run (w : World)
    (loader : DatasetLoader) (df : DataFrame) :
  DatasetLoader_init (config_json w) = Ok loader ->
  snd (load_sql_injection_dataset loader (fs w) None true) = Ok (Some df) ->
  has_column df "query" = false ->
  snd (main w) = Ok false /\ artifacts w = [].
Proof.
  intros Hinit Hload H.
  apply (early_failure w loader df Hinit Hload).
  intros query cds Hquery _.
  unfold getitem_column in Hquery.
  rewrite (get_column_absent df "query" H) in Hquery. discriminate Hquery.
Qed.

(** X18. A loaded table with a missing label stops the run before
    anything is written: [unique] keeps the missing marker as a class of
    its own, and the statistics of that class cannot be computed.  (The
    condition on [sorted] is that it does not lose the marker when it
    returns.) *)
Theorem missing_label_stops_the_run (w : World)
    (loader : DatasetLoader) (df : DataFrame) (label : series_data) :
  DatasetLoader_init (config_json w) = Ok loader ->
  snd (load_sql_injection_dataset loader (fs w) None true) = Ok (Some df) ->
  get_column df "label" = Some label ->
  In (SFloat S754_nan) (values label) ->
  (forall labels,
     sorted (unique (values label)) = Ok labels ->
     In (SFloat S754_nan) labels) ->
  snd (main w) = Ok false /\ artifacts w = [].
Proof.
  intros Hinit Hload GL I S.
  apply (early_failure w loader df Hinit Hload).
  intros query cds _ Hcds.
  unfold class_detailed_stats_of, getitem_column in Hcds.
  assert (T : has_column df "label" = true)
    by (apply get_column_has_column; exists label; exact GL).
  rewrite T, GL in Hcds. cbn [rbind] in Hcds.
  destruct (sorted (unique (values label))) as [labels | e] eqn:E;
    [ | discriminate Hcds].
  cbn [rbind] in Hcds.
  destruct (class_entries_with_nan df label labels [] GL (S labels eq_refl))
    as [e N].
  rewrite N in Hcds. discriminate Hcds.
Qed.

(** ** Samples of a table without labels *)

Lemma nth_error_three_lines {A : Type} (g : A -> list string)
    (a b c : A -> string) :
  (forall x, g x = [a x; b x; c x]) ->
  forall (l : list A) (i : nat) (x : A),
    nth_error l i = Some x ->
    nth_error (flat_map g l) (3 * i) = Some (a x) /\
    nth_error (flat_map g l) (1 + 3 * i) = Some (b x) /\
    nth_error (flat_map g l) (2 + 3 * i) = Some (c x).
Proof.
  intros H l. induction l as [ | y rest IH]; intros i x E.
  - destruct i; discriminate E.
  - destruct i as [ | i'].
    + simpl in E. injection E as ->. simpl. rewrite H.
      split; [reflexivity | ]. split; reflexivity.
    + simpl in E. destruct (IH i' x E) as (Ia & Ib & Ic).
      replace (3 * S i') with (3 + 3 * i') by lia.
      replace (1 + (3 + 3 * i')) with (3 + (1 + 3 * i')) by lia.
      replace (2 + (3 + 3 * i')) with (3 + (2 + 3 * i')) by lia.
      cbn [flat_map]. rewrite H.
      split; [exact Ia | ]. split; [exact Ib | exact Ic].
Qed.

Lemma nth_error_numbered {A : Type} (l : list A) (start i : nat) (x : A) :
  nth_error l i = Some x ->
  nth_error (combine (seq start (List.length l)) l) i = Some (start + i, x).
Proof.
  revert start i. induction l as [ | y rest IH]; intros start i E.
  - destruct i; discriminate E.
  - destruct i as [ | i'].
    + simpl in E. injection E as ->. simpl. rewrite Nat.add_0_r. reflexivity.
    + simpl in E. simpl. rewrite (IH (S start) i' E).
      f_equal. f_equal. lia.
Qed.

Lemma nth_error_first_n {A : Type} (l : list A) (n i : nat) :
  i < n -> nth_error (firstn n l) i = nth_error l i.
Proof.
  revert l i. induction n as [ | n IH]; intros l i L; [lia | ].
  destruct l as [ | y rest]; [reflexivity | ].
  destruct i as [ | i']; [reflexivity | ].
  simpl. apply IH. lia.
Qed.

(** X19. On a table without a "label" column, [show_sample_queries]
    returns normally and prints four heading lines and then, for each of
    the first [n_samples] rows in row order (for every row when the table
    has fewer), three lines: the number of the sample with the length of
    its text, the preview of the text, and an empty line. *)
Theorem unlabelled_samples_are_the_first_rows (df : DataFrame)
    (query : series_data) (n_samples : nat) :
  has_column df "label" = false ->
  get_column df "query" = Some query ->
  snd (show_sample_queries df n_samples) = Ok tt /\
  List.length (printed (fst (show_sample_queries df n_samples)))
    = 4 + 3 * Nat.min n_samples (series_len query) /\
  forall i v,
    i < n_samples ->
    nth_error (values query) i = Some v ->
    nth_error (printed (fst (show_sample_queries df n_samples))) (4 + 3 * i)
      = Some ("  " ++ str_nat (S i) ++ ". Length: "
                ++ str_nat (String.length (py_str v)) ++ " chars") /\
    nth_error (printed (fst (show_sample_queries df n_samples))) (5 + 3 * i)
      = Some ("     Query: " ++ display_query (py_str v)) /\
    nth_error (printed (fst (show_sample_queries df n_samples))) (6 + 3 * i)
      = Some "".
Proof.
  intros HL GQ.
  rewrite (show_sample_queries_unlabelled df query n_samples HL GQ).
  cbn [fst snd]. rewrite printed_map_Print.
  split; [reflexivity | ]. split.
  - rewrite length_app. cbn [List.length].
    rewrite flat_map_constant_length with (c := 3);
      [ | intros x _; reflexivity].
    unfold enumerate1.
    rewrite length_combine, length_seq, Nat.min_id, length_firstn.
    unfold series_len. lia.
  - intros i v L E.
    assert (N : nth_error (enumerate1 (firstn n_samples (values query))) i
                = Some (S i, v)).
    { unfold enumerate1.
      apply (nth_error_numbered (firstn n_samples (values query)) 1 i v).
      rewrite (nth_error_first_n _ _ _ L). exact E. }
    destruct (nth_error_three_lines
                (fun iq : nat * scalar =>
                   ["  " ++ str_nat (fst iq) ++ ". Length: "
                      ++ str_nat (String.length (py_str (snd iq)))
                      ++ " chars";
                    "     Query: " ++ display_query (py_str (snd iq));
                    ""])
                (fun iq => "  " ++ str_nat (fst iq) ++ ". Length: "
                             ++ str_nat (String.length (py_str (snd iq)))
                             ++ " chars")
                (fun iq => "     Query: " ++ display_query (py_str (snd iq)))
                (fun _ => "")
                (fun x => eq_refl) _ i (S i, v) N)
      as (Ia & Ib & Ic).
    replace (5 + 3 * i) with (4 + (1 + 3 * i)) by lia.
    replace (6 + 3 * i) with (4 + (2 + 3 * i)) by lia.
    cbn [app]. cbn [fst snd] in Ia, Ib, Ic.
    split; [exact Ia | ]. split; [exact Ib | exact Ic].
Qed.

(** X20. A loaded table with a "query" column and no "label" column (the
    loader returns one when detection takes one column for both roles)
    makes the run answer [False] after the overview report has been
    written: that report is the one file the run leaves. *)
Theorem table_without_label_column_leaves_only_the_overview (w : World)
    (loader : DatasetLoader) (df : DataFrame) (path : string) :
  DatasetLoader_init (config_json w) = Ok loader ->
  snd (load_sql_injection_dataset loader (fs w) None true) = Ok (Some df) ->
  has_column df "label" = false ->
  has_column df "query" = true ->
  snd (save_overview_report loader (overview_dict (overview_of df))
         "dataset_overview.json") = Ok path ->
  snd (main w) = Ok false /\
  artifacts w = [(path, json_dumps (overview_dict (overview_of df)))].
Proof.
  intros Hinit Hload HL HQ Hsave.
  apply get_column_has_column in HQ. destruct HQ as [query GQ].
  apply (main_ends w
           (fun ws r =>
              r = Ok false /\
              ws = [(path, json_dumps (overview_dict (overview_of df)))])).
  rewrite overview_of_report in Hsave |- *.
  unfold main_body. prints.
  apply ends_lift; [intros e E; rewrite Hinit in E; discriminate E
                   | intros loader' Hinit'].
  rewrite Hinit in Hinit'. injection Hinit' as <-.
  prints.
  apply ends_silent_bind;
    [apply load_silent | intros e E; rewrite Hload in E; discriminate E
    | intros loaded Hload'].
  rewrite Hload in Hload'. injection Hload' as <-.
  prints. overview_call df.
  { match goal with
    | E : snd (io_for_each ?l io_print) = Raise _ |- _ =>
        rewrite (proj2 (quiet_for_each l io_print quiet_print)) in E;
        discriminate E
    end. }
  prints.
  pose proof (show_sample_queries_unlabelled df query 3 HL GQ) as S.
  apply ends_silent_bind;
    [apply show_sample_queries_silent
    | intros e E; rewrite S in E; discriminate E
    | intros _ _].
  prints.
  unfold getitem_column at 1. rewrite GQ.
  apply ends_lift; [intros e E; discriminate E | intros query' Hq].
  unfold class_detailed_stats_of. rewrite HL.
  apply ends_lift; [intros e E; discriminate E | intros cds Hcds].
  prints.
  apply ends_bind; [intros e E; rewrite Hsave in E; discriminate E | ].
  intros path' Hsave'. rewrite Hsave in Hsave'. injection Hsave' as <-.
  rewrite (save_overview_report_success _ _ _ _ Hsave).
  apply ends_lift.
  - intros e _. split; reflexivity.
  - intros built Hdoc. rewrite <- overview_of_report in Hdoc.
    rewrite (document_without_label df _ _ _ _ _ HL) in Hdoc.
    discriminate Hdoc.
Qed.

(** ** The class distribution of integer labels *)

(** The count a table of value counts holds for the integer key [z]. *)
Local Abbreviation count_for t z :=
  (list_sum (map snd (filter (fun kn : scalar * nat =>
                                scalar_eqb (fst kn) (SInt z)) t))).

Local Abbreviation int_keyed t :=
  (Forall (fun kn : scalar * nat => exists z, fst kn = SInt z) t).

Local Abbreviation positive_counts t :=
  (Forall (fun kn : scalar * nat => 0 < snd kn) t).

Local Abbreviation key_lt :=
  (fun a b : scalar * nat => scalar_ltb (fst a) (fst b) = true).

Lemma scalar_eqb_SInt (k : scalar) (z : Z) :
  scalar_eqb k (SInt z) = true -> k = SInt z.
Proof.
  destruct k as [x | f | b | s]; simpl; try discriminate.
  intros E. apply Z.eqb_eq in E. subst x. reflexivity.
Qed.

Lemma count_for_absent (t : list (scalar * nat)) (z : Z) :
  ~ In (SInt z) (map fst t) -> count_for t z = 0.
Proof.
  induction t as [ | [k n] rest IH]; [reflexivity | ].
  simpl. intros N.
  destruct (scalar_eqb k (SInt z)) eqn:E.
  - apply scalar_eqb_SInt in E. contradiction N. left. exact E.
  - apply IH. intros I. apply N. right. exact I.
Qed.

Lemma count_for_present (t : list (scalar * nat)) (z : Z) (n : nat) :
  NoDup (map fst t) -> In (SInt z, n) t -> count_for t z = n.
Proof.
  induction t as [ | [k m] rest IH]; [intros _ []; fail | ].
  simpl. intros D I. inversion D as [ | k' keys Nk Dr]; subst.
  destruct I as [E | I].
  - injection E as -> ->. simpl. rewrite Z.eqb_refl. simpl.
    rewrite (count_for_absent rest z Nk). lia.
  - destruct (scalar_eqb k (SInt z)) eqn:E.
    + apply scalar_eqb_SInt in E. subst k.
      contradiction Nk. apply in_map_iff. exists (SInt z, n).
      split; [reflexivity | exact I].
    + exact (IH Dr I).
Qed.

Lemma count_for_positive (t : list (scalar * nat)) (z : Z) :
  0 < count_for t z -> exists n, In (SInt z, n) t.
Proof.
  induction t as [ | [k m] rest IH]; simpl; [lia | ].
  destruct (scalar_eqb k (SInt z)) eqn:E.
  - intros _. apply scalar_eqb_SInt in E. subst k.
    exists m. left. reflexivity.
  - intros H. destruct (IH H) as [n I]. exists n. right. exact I.
Qed.

Lemma count_for_bump (z z' : Z) (t : list (scalar * nat)) :
  count_for (bump (SInt z) t) z'
    = count_for t z' + (if Z.eqb z z' then 1 else 0).
Proof.
  induction t as [ | [k n] rest IH].
  - simpl. destruct (Z.eqb z z'); reflexivity.
  - simpl. destruct (scalar_eqb k (SInt z)) eqn:E.
    + apply scalar_eqb_SInt in E. subst k. simpl.
      destruct (Z.eqb z z'); simpl; lia.
    + simpl. destruct (scalar_eqb k (SInt z')); simpl; rewrite IH; lia.
Qed.

Lemma In_keys_bump (k x : scalar) (t : list (scalar * nat)) :
  In x (map fst (bump k t)) -> x = k \/ In x (map fst t).
Proof.
  induction t as [ | [k' n] rest IH]; simpl.
  - intros [E | []]. left. symmetry. exact E.
  - destruct (scalar_eqb k' k); simpl.
    + intros H. right. exact H.
    + intros [E | I]; [right; left; exact E | ].
      destruct (IH I) as [E | I']; [left; exact E | right; right; exact I'].
Qed.

Lemma bump_invariants (z : Z) (t : list (scalar * nat)) :
  int_keyed t -> NoDup (map fst t) -> positive_counts t ->
  int_keyed (bump (SInt z) t) /\ NoDup (map fst (bump (SInt z) t)) /\
  positive_counts (bump (SInt z) t).
Proof.
  induction t as [ | [k n] rest IH]; intros K D P.
  - simpl. split; [ | split].
    + constructor; [exists z; reflexivity | constructor].
    + constructor; [intros [] | constructor].
    + constructor; [simpl; lia | constructor].
  - inversion K as [ | kn l [z0 Kz] Kr]; subst.
    inversion D as [ | k' keys Nk Dr]; subst.
    inversion P as [ | kn l Pn Pr]; subst.
    simpl in Kz. subst k. simpl.
    destruct (Z.eqb_spec z0 z) as [-> | NE].
    + split; [ | split].
      * constructor; [exists z; reflexivity | exact Kr].
      * simpl. exact D.
      * constructor; [simpl; lia | exact Pr].
    + destruct (IH Kr Dr Pr) as (K' & D' & P').
      split; [ | split].
      * constructor; [exists z0; reflexivity | exact K'].
      * simpl. constructor; [ | exact D'].
        intros I. apply In_keys_bump in I. destruct I as [E | I].
        -- injection E as E. contradiction NE.
        -- contradiction Nk.
      * constructor; [exact Pn | exact P'].
Qed.

Lemma fold_bump_invariants (zs : list Z) (t : list (scalar * nat)) :
  int_keyed t -> NoDup (map fst t) -> positive_counts t ->
  let t' := fold_left (fun table v => bump v table) (map SInt zs) t in
  int_keyed t' /\ NoDup (map fst t') /\ positive_counts t' /\
  forall z, count_for t' z = count_for t z + count_occ Z.eq_dec zs z.
Proof.
  revert t. induction zs as [ | x rest IH]; intros t K D P.
  - simpl. split; [exact K | ]. split; [exact D | ]. split; [exact P | ].
    intros z. lia.
  - destruct (bump_invariants x t K D P) as (K' & D' & P').
    destruct (IH (bump (SInt x) t) K' D' P') as (K'' & D'' & P'' & C).
    cbn [map fold_left].
    split; [exact K'' | ]. split; [exact D'' | ]. split; [exact P'' | ].
    intros z. rewrite C, count_for_bump. cbn [count_occ].
    destruct (Z.eq_dec x z) as [-> | NE].
    + rewrite Z.eqb_refl. lia.
    + rewrite (proj2 (Z.eqb_neq x z) NE). lia.
Qed.

Lemma dropna_integers (zs : list Z) : dropna (map SInt zs) = map SInt zs.
Proof.
  unfold dropna. induction zs as [ | x rest IH]; [reflexivity | ].
  simpl. rewrite IH. reflexivity.
Qed.

Lemma In_insert_by_key (kv x : scalar * nat) (l : list (scalar * nat)) :
  In x (insert_by_key kv l) <-> x = kv \/ In x l.
Proof.
  induction l as [ | kv' rest IH]; simpl.
  - split; [intros [E | []]; left; symmetry; exact E
           | intros [E | []]; left; symmetry; exact E].
  - destruct (scalar_ltb (fst kv') (fst kv)); simpl.
    + rewrite IH. split.
      * intros [E | [E | I]]; [right; left; exact E | left; exact E
                              | right; right; exact I].
      * intros [E | [E | I]]; [right; left; exact E | left; exact E
                              | right; right; exact I].
    + split.
      * intros [E | I]; [left; symmetry; exact E | right; exact I].
      * intros [E | I]; [left; symmetry; exact E | right; exact I].
Qed.

Lemma count_for_insert (kv : scalar * nat) (l : list (scalar * nat))
    (z : Z) :
  count_for (insert_by_key kv l) z = count_for (kv :: l) z.
Proof.
  induction l as [ | kv' rest IH]; [reflexivity | ].
  simpl. destruct (scalar_ltb (fst kv') (fst kv)); [ | reflexivity].
  simpl in IH |- *.
  destruct (scalar_eqb (fst kv') (SInt z)); simpl; rewrite IH;
    destruct (scalar_eqb (fst kv) (SInt z)); simpl; lia.
Qed.

Lemma insert_sorted_keys (z : Z) (n : nat) (l : list (scalar * nat)) :
  int_keyed l -> ~ In (SInt z) (map fst l) ->
  ForallOrdPairs key_lt l ->
  ForallOrdPairs key_lt (insert_by_key (SInt z, n) l).
Proof.
  induction l as [ | [k m] rest IH]; intros K N S.
  - simpl. constructor; [constructor | constructor].
  - inversion K as [ | kn l' [z0 Kz] Kr]; subst.
    inversion S as [ | a l' Ha Sr]; subst.
    simpl in Kz. subst k. simpl.
    destruct (Z.ltb_spec z0 z) as [LT | GE].
    + constructor.
      * apply Forall_forall. intros x I.
        apply In_insert_by_key in I. destruct I as [-> | I].
        -- simpl. apply Z.ltb_lt. exact LT.
        -- exact (proj1 (Forall_forall _ _) Ha x I).
      * apply IH; [exact Kr | | exact Sr].
        intros I. apply N. right. exact I.
    + assert (LT : (z < z0)%Z).
      { destruct (Z.eq_dec z z0) as [E | NE]; [ | lia].
        contradiction N. left. simpl. rewrite E. reflexivity. }
      constructor; [ | exact S].
      constructor; [simpl; apply Z.ltb_lt; exact LT | ].
      apply Forall_forall. intros [kx nx] I.
      pose proof (proj1 (Forall_forall _ _) Ha _ I) as Hx.
      pose proof (proj1 (Forall_forall _ _) Kr _ I) as [zx Kx].
      simpl in Hx, Kx |- *. subst kx. simpl in Hx |- *.
      apply Z.ltb_lt in Hx. apply Z.ltb_lt. lia.
Qed.

Lemma sort_index_invariants (l : list (scalar * nat)) :
  int_keyed l -> NoDup (map fst l) -> positive_counts l ->
  int_keyed (sort_index l) /\ NoDup (map fst (sort_index l)) /\
  positive_counts (sort_index l) /\
  ForallOrdPairs key_lt (sort_index l) /\
  (forall x, In x (sort_index l) <-> In x l) /\
  forall z, count_for (sort_index l) z = count_for l z.
Proof.
  induction l as [ | [k n] rest IH]; intros K D P.
  - simpl. split; [constructor | ]. split; [constructor | ].
    split; [constructor | ]. split; [constructor | ].
    split; [intros x; reflexivity | intros z; reflexivity].
  - inversion K as [ | kn l' [z0 Kz] Kr]; subst.
    inversion D as [ | k' keys Nk Dr]; subst.
    inversion P as [ | kn l' Pn Pr]; subst.
    simpl in Kz. subst k.
    destruct (IH Kr Dr Pr) as (K' & D' & P' & S' & I' & C').
    assert (Nk' : ~ In (SInt z0) (map fst (sort_index rest))).
    { intros I. apply Nk. apply in_map_iff in I.
      destruct I as (x & E & I). apply in_map_iff. exists x.
      split; [exact E | apply I'; exact I]. }
    assert (IN : forall x, In x (sort_index ((SInt z0, n) :: rest))
                           <-> In x ((SInt z0, n) :: rest)).
    { intros x. cbn [sort_index fold_right].
      fold (sort_index rest). rewrite In_insert_by_key, I'.
      simpl. split; intros [E | I]; auto. }
    cbn [sort_index fold_right] in IN |- *. fold (sort_index rest) in IN |- *.
    split; [ | split; [ | split; [ | split; [ | split]]]].
    + apply Forall_forall. intros x I. apply In_insert_by_key in I.
      destruct I as [-> | I]; [exists z0; reflexivity | ].
      exact (proj1 (Forall_forall _ _) K' x I).
    + clear IN. revert Nk' D'.
      generalize (sort_index rest) as s. intros s.
      induction s as [ | [k' m] s' IHs]; intros Nk' D'.
      * simpl. constructor; [intros [] | constructor].
      * simpl. destruct (scalar_ltb k' (SInt z0)); simpl.
        -- inversion D' as [ | a keys Na Ds]; subst.
           constructor.
           ++ intros I. apply in_map_iff in I. destruct I as (x & E & I).
              apply In_insert_by_key in I. destruct I as [-> | I].
              ** simpl in E. apply Nk'. left. symmetry. exact E.
              ** apply Na. apply in_map_iff. exists x.
                 split; [exact E | exact I].
           ++ apply IHs; [ | exact Ds].
              intros I. apply Nk'. right. exact I.
        -- constructor; [exact Nk' | exact D'].
    + apply Forall_forall. intros x I. apply In_insert_by_key in I.
      destruct I as [-> | I]; [exact Pn | ].
      exact (proj1 (Forall_forall _ _) P' x I).
    + apply insert_sorted_keys; [exact K' | exact Nk' | exact S'].
    + exact IN.
    + intros z. rewrite count_for_insert. simpl.
      destruct (Z.eqb z0 z); simpl; rewrite C'; reflexivity.
Qed.

Lemma integer_label_counts (zs : list Z) :
  let d := sort_index (value_counts (IntData zs)) in
  ForallOrdPairs key_lt d /\
  (forall k n, In (k, n) d -> exists z, k = SInt z) /\
  (forall z n, In (SInt z, n) d <->
               n = count_occ Z.eq_dec zs z /\ 0 < n).
Proof.
  unfold value_counts. cbn [values]. rewrite dropna_integers.
  destruct (fold_bump_invariants zs [] (Forall_nil _) (NoDup_nil _)
              (Forall_nil _)) as (K & D & P & C).
  cbv zeta in K, D, P, C.
  destruct (sort_index_invariants _ K D P) as (K' & D' & P' & S' & I' & C').
  cbv zeta. split; [exact S' | ]. split.
  - intros k n I.
    exact (proj1 (Forall_forall _ _) K' (k, n) I).
  - intros z n.
    assert (T : count_for
                  (sort_index (fold_left (fun table v => bump v table)
                                         (map SInt zs) [])) z
                = count_occ Z.eq_dec zs z).
    { rewrite C', C. reflexivity. }
    split.
    + intros I.
      pose proof (count_for_present _ z n D' I) as E.
      pose proof (proj1 (Forall_forall _ _) P' _ I) as Pn. simpl in Pn.
      rewrite T in E. split; [symmetry; exact E | exact Pn].
    + intros [E Pn].
      destruct (count_for_positive
                  (sort_index (fold_left (fun table v => bump v table)
                                         (map SInt zs) [])) z)
        as [m I].
      { rewrite T, <- E. exact Pn. }
      pose proof (count_for_present _ z m D' I) as E'.
      rewrite T, <- E in E'. subst m. exact I.
Qed.

(** X21. For a "label" column of integers, the class distribution of the
    report lists the classes in strictly ascending order of the label, each
    label that occurs exactly once, with the number of rows that carry
    it. *)
Theorem integer_classes_are_counted_in_ascending_order (df : DataFrame)
    (zs : list Z) :
  get_column df "label" = Some (IntData zs) ->
  exists distribution,
    Overview.class_distribution (overview_of df) = Some distribution /\
    ForallOrdPairs (fun a b => scalar_ltb (fst a) (fst b) = true)
                   distribution /\
    (forall k n, In (k, n) distribution -> exists z, k = SInt z) /\
    (forall z n, In (SInt z, n) distribution <->
                 n = count_occ Z.eq_dec zs z /\ 0 < n).
Proof.
  intros G. exists (sort_index (value_counts (IntData zs))).
  split.
  - rewrite overview_of_report. unfold report_of.
    cbn [Overview.class_distribution]. rewrite G. reflexivity.
  - exact (integer_label_counts zs).
Qed.

(** ** What a successful run implies *)

Lemma document_overall_extremes (df : DataFrame) (overview_data : pyobj)
    (query_lengths : list nat)
    (class_detailed_stats : list (string * pyobj))
    (balance : string * string) (overview_report_path : string)
    (doc : pyobj) (sm : summary) :
  complete_task2_results df overview_data query_lengths
    (length_stats query_lengths) class_detailed_stats balance
    overview_report_path = Ok (doc, sm) ->
  exists lo hi,
    doc_get doc ["query_statistics"; "overall"; "min_length"]
      = Some (PInt (Z.of_nat lo)) /\
    doc_get doc ["query_statistics"; "overall"; "max_length"]
      = Some (PInt (Z.of_nat hi)) /\
    In lo query_lengths /\ In hi query_lengths /\
    forall n, In n query_lengths -> lo <= n <= hi.
Proof.
  intros H. unfold complete_task2_results in H.
  destruct balance as [balance_quality quality_description].
  repeat built_step H.
  injection H as <- _.
  destruct query_lengths as [ | first_length other_lengths].
  - match goal with
    | P : py_int (QueryStats.min_length _) = Ok _ |- _ => discriminate P
    end.
  - destruct (series_extremes (first_length :: other_lengths))
      as (lo & hi & Hlo & Hhi & R);
      [discriminate | ].
    exists lo, hi.
    match goal with
    | P : py_int (QueryStats.min_length _) = Ok _ |- _ =>
        cbn [length_stats QueryStats.min_length] in P;
        rewrite Hlo in P; cbn [py_int] in P; injection P as <-
    end.
    match goal with
    | P : py_int (QueryStats.max_length _) = Ok _ |- _ =>
        cbn [length_stats QueryStats.max_length] in P;
        rewrite Hhi in P; cbn [py_int] in P; injection P as <-
    end.
    split; [reflexivity | ]. split; [reflexivity | exact R].
Qed.

(** X22. A run that answers [True] has built its loader, and the table
    the loader returned has a "label" column and at least one row; the run
    has written the overview report of that table and the complete results
    document, and the document records as overall minimum and maximum
    length the lengths of a shortest and of a longest text of that
    table. *)
Theorem successful_run_records_length_extremes (w : World) :
  snd (main w) = Ok true ->
  exists loader df query overview_report_path doc lo hi,
    DatasetLoader_init (config_json w) = Ok loader /\
    snd (load_sql_injection_dataset loader (fs w) None true)
      = Ok (Some df) /\
    artifacts w =
      [(overview_report_path, json_dumps (overview_dict (overview_of df)));
       (results_path, json_dumps doc)] /\
    has_column df "label" = true /\
    get_column df "query" = Some query /\
    doc_get doc ["query_statistics"; "overall"; "min_length"]
      = Some (PInt (Z.of_nat lo)) /\
    doc_get doc ["query_statistics"; "overall"; "max_length"]
      = Some (PInt (Z.of_nat hi)) /\
    In lo (str_len query) /\ In hi (str_len query) /\
    forall n, In n (str_len query) -> lo <= n <= hi.
Proof.
  intros H. destruct (main_artifacts w) as [A R].
  rewrite R in H.
  destruct (snd (main_body w)) as [b | e] eqn:B; [ | discriminate H].
  injection H as ->.
  destruct (main_body_success w B)
    as (loader & df & query & cds & path & doc & sm
        & Hinit & Hload & Q & _ & D & Wr).
  destruct (document_overall_extremes _ _ _ _ _ _ _ _ D)
    as (lo & hi & Hlo & Hhi & Rg).
  exists loader, df, query, path, doc, lo, hi.
  split; [exact Hinit | ]. split; [exact Hload | ].
  split; [rewrite A; exact Wr | ]. split.
  { destruct (has_column df "label") eqn:L; [reflexivity | ].
    rewrite (document_without_label df _ _ _ _ _ L) in D. discriminate D. }
  split.
  { unfold getitem_column in Q.
    destruct (get_column df "query") as [s | ]; [ | discriminate Q].
    injection Q as ->. reflexivity. }
  split; [exact Hlo | ]. split; [exact Hhi | exact Rg].
Qed.

(** ** The script *)

Lemma printed_app (a b : list event) :
  printed (a +++ b) = printed a +++ printed b.
Proof. unfold printed. apply flat_map_app. Qed.


End Program.

(** ** The properties at concrete inputs

    Evaluated with the runtime of [Sample]. *)

#[local] Existing Instance Sample.runtime.

Lemma balance_quality_tiers_witness :
  balance_quality (Some (F64.lit 3 2)) = "GOOD".
Proof.
  apply (proj1 (proj2 (balance_quality_tiers (F64.lit 3 2))));
    vm_compute; reflexivity.
Defined.

(** C1 as it is worded fails: on a table in which no column can be
    identified the call returns the null result, it does not raise. *)
Lemma detection_failure_does_not_propagate :
  ~ (forall (self : DatasetLoader) (fs : FileSystem)
            (filename : option string) (auto_detect : bool)
            (raw f : string) (df : DataFrame) (e : exn),
        raw_data_path self = PStr raw ->
        chosen_filename fs raw filename auto_detect = Some f ->
        path_exists fs (path_join raw f) = true ->
        read_csv fs (path_join raw f) = Ok df ->
        detect_columns df = Raise e ->
        exists m,
          snd (load_sql_injection_dataset self fs filename auto_detect)
            = Raise (ValueError m)).
Proof.
  intros H.
  destruct (H sample_loader (sample_fs sample_frame_undetectable) None true
              "data/raw" "d.csv" sample_frame_undetectable
              (ValueError "Could not detect query column")
              eq_refl eq_refl eq_refl eq_refl eq_refl) as [m Hm].
  vm_compute in Hm. discriminate Hm.
Qed.

Lemma detection_failure_returns_null_witness :
  snd (load_sql_injection_dataset sample_loader
         (sample_fs sample_frame_undetectable) None true) = Ok None /\
  last (printed (fst (load_sql_injection_dataset sample_loader
                        (sample_fs sample_frame_undetectable) None true))) ""
    = " Error loading dataset: Could not detect query column".
Proof.
  pose proof (detection_failure_returns_null sample_loader
                (sample_fs sample_frame_undetectable) None true
                "data/raw" "d.csv" sample_frame_undetectable
                (ValueError "Could not detect query column")
                eq_refl eq_refl eq_refl eq_refl eq_refl) as [R [P _]].
  split; [exact R | exact P].
Defined.

Lemma payload_and_label_blank_witness :
  exists df',
    snd (load_sql_injection_dataset sample_loader (sample_fs sample_frame)
           None true) = Ok (Some df') /\
    column_names df' = ["query"; "label"].
Proof.
  destruct (payload_and_label_blank_are_canonicalised sample_loader
              (sample_fs sample_frame) None true "data/raw" "d.csv"
              sample_frame eq_refl eq_refl eq_refl eq_refl
              (or_introl eq_refl))
    as [_ [_ [df' [R [N _]]]]].
  exists df'. split; [exact R | exact N].
Defined.

(** C4 as it is worded fails: a row whose label is missing is in the total
    but in no class. *)
Lemma class_counts_leave_out_missing_labels :
  ~ (forall (df : DataFrame) (distribution : list (scalar * nat)),
        wf_frame df = true ->
        has_column df "label" = true ->
        Overview.class_distribution (overview_of df) = Some distribution ->
        sum_counts distribution = Overview.total_records (overview_of df)).
Proof.
  intros H.
  pose proof (H sample_frame_missing_label
                [(SFloat (F64.of_Z 0), 1); (SFloat (F64.of_Z 1), 2)]
                eq_refl eq_refl eq_refl) as E.
  vm_compute in E. discriminate E.
Qed.

Lemma class_counts_sum_witness :
  exists distribution,
    Overview.class_distribution (overview_of sample_frame_missing_label)
      = Some distribution /\
    sum_counts distribution + 1 = 4.
Proof.
  destruct (class_counts_sum_to_labelled_records sample_frame_missing_label
              (FloatData [F64.of_Z 0; F64.of_Z 1; S754_nan; F64.of_Z 1])
              eq_refl eq_refl)
    as [distribution [D [S _]]].
  exists distribution. split; [exact D | exact S].
Defined.

Lemma length_buckets_witness :
  let call :=
    dataset_overview {| df_obj := sample_frame_long_text; console := [] |} in
  0 + 1 + 1 = Overview.total_records (fst call) /\
  In ("    Medium (50-200 chars): " ++ format_thousands 1 ++ " ("
        ++ format_fixed 1
             (percentage_of 1 (Overview.total_records (fst call))) ++ "%)")
     (console (snd call)) /\
  In ("    Long (>200 chars): " ++ format_thousands 1 ++ " ("
        ++ format_fixed 1
             (percentage_of 1 (Overview.total_records (fst call))) ++ "%)")
     (console (snd call)).
Proof.
  destruct (length_buckets_sum_to_total sample_frame_long_text
              (ObjectData [Some (replicate 250 "a"%char);
                           Some (replicate 150 "b"%char)])
              [] eq_refl eq_refl)
    as (S & _ & M & L & _).
  split; [exact S | ]. split; [exact M | exact L].
Defined.

(** The sample display of a table with a text of 250 characters in class 1
    and a text of 150 characters in class 0. *)
Lemma sample_display_witness :
  In ("     Query: " ++ substring 0 200 (replicate 250 "a"%char) ++ "...")
     (printed (fst (show_sample_queries sample_frame_long_text 3))) /\
  In ("     Query: " ++ replicate 150 "b"%char)
     (printed (fst (show_sample_queries sample_frame_long_text 3))).
Proof.
  pose proof (sample_display_truncates_at_200 sample_frame_long_text
                (ObjectData [Some (replicate 250 "a"%char);
                             Some (replicate 150 "b"%char)])
                3 eq_refl) as H.
  destruct H as [H _].
  destruct (H (IntData [1; 0]%Z) [SInt 0; SInt 1] eq_refl eq_refl)
    as [_ P].
  rewrite P. split.
  - vm_compute. do 10 right. left. reflexivity.
  - vm_compute. do 5 right. left. reflexivity.
Defined.

Lemma dataset_overview_frame_witness :
  df_obj (snd (dataset_overview {| df_obj := sample_frame; console := [] |}))
    = sample_frame.
Proof.
  exact (proj1 (proj2 (dataset_overview_leaves_the_table sample_frame []))).
Defined.

(** In the document built for the sample CSV one text is missing. *)
Lemma quality_status_witness :
  exists doc sm,
    complete_task2_results sample_loaded
      (overview_dict (overview_of sample_loaded))
      [19; 11; 18; 3] (length_stats [19; 11; 18; 3]) []
      (balance_assessment (Some (F64.of_Z 1)))
      "reports/dataset_overview.json" = Ok (doc, sm) /\
    doc_get doc ["data_quality"; "missing_values_total"] = Some (PInt 1) /\
    doc_get doc ["data_quality"; "quality_status"]
      = Some (PStr "NEEDS_ATTENTION").
Proof.
  assert (H : exists d,
             complete_task2_results sample_loaded
               (overview_dict (overview_of sample_loaded))
               [19; 11; 18; 3] (length_stats [19; 11; 18; 3]) []
               (balance_assessment (Some (F64.of_Z 1)))
               "reports/dataset_overview.json" = Ok d)
    by (eexists; vm_compute; reflexivity).
  destruct H as [[doc sm] H]. exists doc, sm.
  destruct (quality_status_follows_missing_total _ _ _ _ _ _ _ _ H)
    as [T [_ Q]].
  split; [exact H | ]. split; [exact T | ].
  apply Q. intros E. vm_compute in E. discriminate E.
Defined.


Lemma reruns_witness :
  artifacts (sample_world "2024-01-01 09:00:00" sample_frame)
    = artifacts (sample_world "2024-01-02 17:30:00" sample_frame) /\
  List.length (artifacts (sample_world "2024-01-01 09:00:00" sample_frame))
    = 2.
Proof.
  split.
  - apply (reruns_write_identical_artifacts
             (sample_world "2024-01-01 09:00:00" sample_frame)
             (sample_world "2024-01-02 17:30:00" sample_frame)).
    split; [reflexivity | ]. split; [reflexivity | ].
    intros raw f _. split; reflexivity.
  - vm_compute. reflexivity.
Defined.

(** ** The further properties at concrete inputs *)

Lemma load_not_found_witness :
  snd (load_sql_injection_dataset sample_loader sample_fs_empty None true)
    = Raise (FileNotFoundError "No CSV files found in data/raw/ directory").
Proof.
  apply (proj2 (load_not_found_cases sample_loader sample_fs_empty None true
                  "data/raw" "No CSV files found in data/raw/ directory"
                  eq_refl)).
  left. split; [reflexivity | ]. split; [reflexivity | ].
  split; reflexivity.
Defined.

Lemma load_of_existing_file_witness :
  exists returned,
    snd (load_sql_injection_dataset sample_loader
           (sample_fs sample_frame_undetectable) None true) = Ok returned.
Proof.
  destruct (load_of_existing_file_returns sample_loader
              (sample_fs sample_frame_undetectable) None true
              "data/raw" "d.csv" eq_refl eq_refl eq_refl)
    as [returned [R _]].
  exists returned. exact R.
Defined.

Lemma load_only_renames_witness :
  exists path df,
    read_csv (sample_fs sample_frame) path = Ok df /\
    index_len sample_loaded = index_len df /\
    map data (columns sample_loaded) = map data (columns df).
Proof.
  assert (H : snd (load_sql_injection_dataset sample_loader
                     (sample_fs sample_frame) None true)
              = Ok (Some sample_loaded))
    by (vm_compute; reflexivity).
  destruct (load_only_renames sample_loader (sample_fs sample_frame)
              None true sample_loaded H)
    as (path & df & R & I & D & _).
  exists path, df. split; [exact R | ]. split; [exact I | exact D].
Defined.

Lemma detected_query_column_witness :
  has_column sample_frame "Payload" = true.
Proof.
  exact (proj1 (proj1 (detected_query_column_is_a_column sample_frame)
                  "Payload" eq_refl)).
Defined.

Lemma detected_label_column_witness :
  has_column sample_frame "Label " = true.
Proof.
  exact (proj1 (proj1 (detected_label_column_is_a_column sample_frame)
                  "Label " eq_refl)).
Defined.

Lemma canonical_table_witness :
  snd (load_sql_injection_dataset sample_loader
         (sample_fs sample_frame_missing_label) None true)
    = Ok (Some sample_frame_missing_label).
Proof.
  exact (canonical_table_is_returned_unchanged sample_loader
           (sample_fs sample_frame_missing_label) None true
           "data/raw" "d.csv" sample_frame_missing_label
           eq_refl eq_refl eq_refl eq_refl eq_refl eq_refl).
Defined.

Lemma one_column_for_text_and_label_witness :
  exists df',
    snd (load_sql_injection_dataset sample_loader
           (sample_fs sample_frame_text_named_class) None true)
      = Ok (Some df') /\
    has_column df' "query" = true /\ has_column df' "label" = false.
Proof.
  destruct (one_column_for_text_and_label sample_loader
              (sample_fs sample_frame_text_named_class) None true
              "data/raw" "d.csv" "class" sample_frame_text_named_class
              eq_refl eq_refl eq_refl eq_refl eq_refl)
    as (df' & R & A & _).
  exists df'. split; [exact R | ]. apply A. discriminate.
Defined.

Lemma missing_values_cover_witness :
  Forall (fun cc => snd cc <= Overview.total_records (overview_of sample_loaded))
         (Overview.missing_values (overview_of sample_loaded)).
Proof.
  exact (proj2 (missing_values_cover_every_column sample_loaded) eq_refl).
Defined.

Lemma labels_all_missing_witness :
  In " Balance Quality: POOR "
     (console (snd (dataset_overview
                      {| df_obj := sample_frame_blank_labels;
                         console := [] |}))) /\
  Overview.class_distribution
    (fst (dataset_overview
            {| df_obj := sample_frame_blank_labels; console := [] |}))
    = Some [].
Proof.
  destruct (labels_all_missing_give_nan_ratio sample_frame_blank_labels
              (FloatData [S754_nan; S754_nan]) [] eq_refl eq_refl)
    as (C & ratio & _ & _ & _ & Q & _).
  split; [exact Q | exact C].
Defined.

Lemma length_extremes_witness :
  exists stats lo hi,
    Overview.query_stats (overview_of sample_frame_blank_labels)
      = Some stats /\
    QueryStats.min_length stats = SInt (Z.of_nat lo) /\
    QueryStats.max_length stats = SInt (Z.of_nat hi) /\
    In lo [8; 8] /\ In hi [8; 8].
Proof.
  destruct (length_extremes_are_attained sample_frame_blank_labels
              (ObjectData [Some "SELECT 1"; Some "SELECT 2"]) eq_refl)
    as (stats & lo & hi & S & Hlo & Hhi & Ilo & Ihi & _).
  - discriminate.
  - exists stats, lo, hi.
    split; [exact S | ]. split; [exact Hlo | ]. split; [exact Hhi | ].
    split; [exact Ilo | exact Ihi].
Defined.

Lemma safe_get_witness :
  safe_get (dict [("balance_ratio", PNone)]) "balance_ratio"
           (PFloat (F64.of_Z 1)) = PNone.
Proof.
  exact (proj1 (safe_get_returns_what_is_bound "balance_ratio"
                  (PFloat (F64.of_Z 1)))
               [(SStr "balance_ratio", PNone)]
               (SStr "balance_ratio", PNone) eq_refl).
Defined.

Lemma save_overview_report_witness :
  (exists dir,
     fst (save_overview_report sample_loader PNone "dataset_overview.json")
       = [MakeDirs dir;
          WriteFile "reports/dataset_overview.json" (json_dumps PNone);
          Print (nl ++ " Overview report saved to: "
                   ++ "reports/dataset_overview.json")]) /\
  exists e,
    save_overview_report sample_loader_without_reports PNone
      "dataset_overview.json" = ([], Raise e).
Proof.
  split.
  - destruct (proj1 (save_overview_report_effects sample_loader PNone
                       "dataset_overview.json")
                    "reports/dataset_overview.json" eq_refl)
      as (dir & _ & _ & _ & T).
    exists dir. exact T.
  - apply (proj2 (save_overview_report_effects sample_loader_without_reports
                    PNone "dataset_overview.json")).
    intros dir G. vm_compute in G. discriminate G.
Defined.

Lemma document_needs_labels_witness :
  complete_task2_results
    (rename sample_frame_text_named_class "class" "query")
    (overview_dict
       (overview_of (rename sample_frame_text_named_class "class" "query")))
    [6; 6; 6] (length_stats [6; 6; 6]) []
    ("EXCELLENT", "Minimal imbalance, ideal for training")
    "reports/dataset_overview.json"
    = Raise (TypeError "type NoneType doesn't define __round__ method").
Proof.
  exact (proj1 (document_needs_labels_and_rows
                  (rename sample_frame_text_named_class "class" "query") []
                  ("EXCELLENT", "Minimal imbalance, ideal for training")
                  "reports/dataset_overview.json")
               eq_refl [6; 6; 6] (length_stats [6; 6; 6])).
Defined.

Lemma class_without_rows_witness :
  class_entry sample_frame_missing_label (SFloat S754_nan)
    = Raise (ValueError "cannot convert float NaN to integer").
Proof.
  apply (proj2 (class_without_rows_cannot_be_summarised
                  sample_frame_missing_label
                  (FloatData [F64.of_Z 0; F64.of_Z 1; S754_nan; F64.of_Z 1])
                  (ObjectData [Some "SELECT * FROM users";
                               Some "' OR 1=1 --";
                               Some "SELECT name FROM t";
                               Some "'; DROP TABLE x; --"])
                  eq_refl eq_refl)).
  right. right. left. reflexivity.
Defined.

Lemma failed_run_witness :
  artifacts (sample_world "2024-01-01 09:00:00"
               sample_frame_text_named_class) = [] \/
  exists loader df path,
    DatasetLoader_init
      (config_json (sample_world "2024-01-01 09:00:00"
                      sample_frame_text_named_class)) = Ok loader /\
    snd (load_sql_injection_dataset loader
           (fs (sample_world "2024-01-01 09:00:00"
                  sample_frame_text_named_class)) None true)
      = Ok (Some df) /\
    snd (save_overview_report loader (overview_dict (overview_of df))
           "dataset_overview.json") = Ok path /\
    artifacts (sample_world "2024-01-01 09:00:00"
                 sample_frame_text_named_class)
      = [(path, json_dumps (overview_dict (overview_of df)))].
Proof.
  apply (failed_run_leaves_at_most_the_overview
           (sample_world "2024-01-01 09:00:00"
              sample_frame_text_named_class)).
  intros E. vm_compute in E. discriminate E.
Defined.

Lemma run_without_a_table_witness :
  artifacts (sample_world "2024-01-01 09:00:00" sample_frame_undetectable)
    = [] /\
  snd (main (sample_world "2024-01-01 09:00:00" sample_frame_undetectable))
    = Ok false.
Proof.
  destruct (run_without_a_table_writes_nothing
              (sample_world "2024-01-01 09:00:00" sample_frame_undetectable))
    as (A & _ & F).
  - intros loader df Hinit Hload.
    vm_compute in Hinit. injection Hinit as <-.
    vm_compute in Hload. discriminate Hload.
  - split; [exact A | ].
    apply (F sample_loader); vm_compute; reflexivity.
Defined.

Lemma table_without_query_column_witness :
  snd (main (sample_world "2024-01-01 09:00:00" sample_frame_numeric_query))
    = Ok false /\
  artifacts (sample_world "2024-01-01 09:00:00" sample_frame_numeric_query)
    = [].
Proof.
  apply (table_without_query_column_stops_the_run
           (sample_world "2024-01-01 09:00:00" sample_frame_numeric_query)
           sample_loader
           (rename sample_frame_numeric_query "query" "label")).
  - reflexivity.
  - vm_compute. reflexivity.
  - reflexivity.
Defined.

Lemma missing_label_witness :
  snd (main (sample_world "2024-01-01 09:00:00" sample_frame_missing_label))
    = Ok false /\
  artifacts (sample_world "2024-01-01 09:00:00" sample_frame_missing_label)
    = [].
Proof.
  apply (missing_label_stops_the_run
           (sample_world "2024-01-01 09:00:00" sample_frame_missing_label)
           sample_loader sample_frame_missing_label
           (FloatData [F64.of_Z 0; F64.of_Z 1; S754_nan; F64.of_Z 1])).
  - reflexivity.
  - vm_compute. reflexivity.
  - reflexivity.
  - right. right. left. reflexivity.
  - intros labels E. vm_compute in E. injection E as <-.
    simpl. tauto.
Defined.

Lemma unlabelled_samples_witness :
  List.length
    (printed (fst (show_sample_queries
                     (rename sample_frame_text_named_class "class" "query")
                     2))) = 10 /\
  nth_error
    (printed (fst (show_sample_queries
                     (rename sample_frame_text_named_class "class" "query")
                     2))) 8
    = Some ("     Query: " ++ display_query "attack").
Proof.
  destruct (unlabelled_samples_are_the_first_rows
              (rename sample_frame_text_named_class "class" "query")
              (ObjectData [Some "benign"; Some "attack"; Some "benign"])
              2 eq_refl eq_refl)
    as (_ & L & N).
  split; [exact L | ].
  exact (proj1 (proj2 (N 1 (SStr "attack") ltac:(lia) eq_refl))).
Defined.

Lemma table_without_label_column_witness :
  snd (main (sample_world "2024-01-01 09:00:00"
               sample_frame_text_named_class)) = Ok false /\
  artifacts (sample_world "2024-01-01 09:00:00"
               sample_frame_text_named_class)
    = [("reports/dataset_overview.json",
        json_dumps
          (overview_dict
             (overview_of
                (rename sample_frame_text_named_class "class" "query"))))].
Proof.
  apply (table_without_label_column_leaves_only_the_overview
           (sample_world "2024-01-01 09:00:00" sample_frame_text_named_class)
           sample_loader
           (rename sample_frame_text_named_class "class" "query")
           "reports/dataset_overview.json").
  - reflexivity.
  - vm_compute. reflexivity.
  - reflexivity.
  - reflexivity.
  - vm_compute. reflexivity.
Defined.

Lemma integer_classes_witness :
  exists distribution,
    Overview.class_distribution (overview_of sample_loaded)
      = Some distribution /\
    In (SInt 0, 2) distribution /\ In (SInt 1, 2) distribution.
Proof.
  destruct (integer_classes_are_counted_in_ascending_order sample_loaded
              [0; 1; 0; 1]%Z eq_refl)
    as (distribution & D & _ & _ & C).
  exists distribution. split; [exact D | ].
  split; apply C; split; [reflexivity | lia | reflexivity | lia].
Defined.

Lemma successful_run_witness :
  exists df doc lo hi,
    snd (load_sql_injection_dataset sample_loader (sample_fs sample_frame)
           None true) = Ok (Some df) /\
    doc_get doc ["query_statistics"; "overall"; "min_length"]
      = Some (PInt (Z.of_nat lo)) /\
    doc_get doc ["query_statistics"; "overall"; "max_length"]
      = Some (PInt (Z.of_nat hi)) /\
    In (results_path, json_dumps doc)
       (artifacts (sample_world "2024-01-01 09:00:00" sample_frame)).
Proof.
  assert (H : snd (main (sample_world "2024-01-01 09:00:00" sample_frame))
              = Ok true)
    by (vm_compute; reflexivity).
  destruct (successful_run_records_length_extremes
              (sample_world "2024-01-01 09:00:00" sample_frame) H)
    as (loader & df & query & path & doc & lo & hi
        & Hinit & Hload & A & _ & _ & Hlo & Hhi & _).
  vm_compute in Hinit. injection Hinit as <-.
  exists df, doc, lo, hi.
  split; [exact Hload | ]. split; [exact Hlo | ]. split; [exact Hhi | ].
  rewrite A. right. left. reflexivity.
Defined.

